(** * alpa/device_mesh.py: a shallow embedding of the device mesh runtime

    The Python module [alpa/device_mesh.py] manages buffers on per-host
    workers, physical and virtual device meshes, and distributed arrays.
    This development embeds the parts of it that touch only Python-level
    state (dicts, lists, attributes) and proves properties of them.

    Conventions.
    - A Python [int] is a [Z]; a Python [float] is a binary64 [float].
    - A Python [dict] keyed by integers is a [gmap Z _]; a dict whose
      iteration order is observable is an association list ([PyDict]).
    - A method that mutates [self] takes the object and returns the mutated
      object together with its result; an exception leaves the mutations
      made before it in place, as in Python. *)

From Stdlib Require Import ZArith Floats Uint63.
From stdpp Require Import gmap strings list sorting pretty.

Set Warnings "-inexact-float".
Open Scope Z_scope.

(** ** Python exceptions and results *)

Inductive PyKey :=
  | KInt (z : Z)        (* an integer key, e.g. a buffer uuid *)
  | KStr (s : string)   (* a string key *)
  | KObj (id : nat).    (* an object used as key (hashed by identity) *)

Inductive exn :=
  | AssertionError
  | KeyError (k : PyKey)
  | IndexError
  | RuntimeError (msg : string)
  | ValueError
  | TypeError
  | AttributeError
  | ZeroDivisionError.

Inductive res (A : Type) :=
  | Ok (a : A)
  | Raise (e : exn).
Arguments Ok {A} a.
Arguments Raise {A} e.

Definition res_bind {A B} (r : res A) (k : A → res B) : res B :=
  match r with
  | Ok a => k a
  | Raise e => Raise e
  end.

(** State-and-exception computations: the state reached when an exception is
    raised is kept. *)
Definition M (S A : Type) : Type := S → S * res A.

Definition st_ret {S A} (a : A) : M S A := λ s, (s, Ok a).
Definition st_raise {S A} (e : exn) : M S A := λ s, (s, Raise e).
Definition st_bind {S A B} (m : M S A) (k : A → M S B) : M S B :=
  λ s, match m s with
       | (s', Ok a) => k a s'
       | (s', Raise e) => (s', Raise e)
       end.
Definition st_lift {S A} (r : res A) : M S A := λ s, (s, r).

Declare Scope py_scope.
Delimit Scope py_scope with py.
Notation "x <- m ;; k" := (st_bind m (λ x, k))
  (at level 100, m at next level, right associativity) : py_scope.
Notation "m ;; k" := (st_bind m (λ _, k))
  (at level 100, right associativity) : py_scope.
Notation "'let?' x := r 'in' k" := (res_bind r (λ x, k))
  (at level 100, x pattern, r at next level, right associativity).

(** [for x in xs: body(x)] over a state. *)
Fixpoint st_for {S A} (xs : list A) (body : A → M S unit) : M S unit :=
  match xs with
  | [] => st_ret tt
  | x :: xs' => st_bind (body x) (λ _, st_for xs' body)
  end.

(** [l[i]] on a Python list: negative indices count from the end. *)
Definition py_index {A} (l : list A) (i : Z) : res A :=
  let n := Z.of_nat (length l) in
  if decide (0 ≤ i < n) then
    match l !! Z.to_nat i with Some x => Ok x | None => Raise IndexError end
  else if decide (- n ≤ i < 0) then
    match l !! Z.to_nat (n + i) with Some x => Ok x | None => Raise IndexError end
  else Raise IndexError.

(** [range(n)] and [range(a, b)]. *)
Definition py_range (n : Z) : list Z := seqZ 0 n.
Definition py_range2 (a b : Z) : list Z := seqZ a (b - a).

(** ** Indices, abstract values and host arrays (jax and numpy) *)

(** One component of a jax [Index]: a [slice(start, stop, step)] or an
    integer. *)
Inductive IndexElem :=
  | ISlice (start stop step : option Z)
  | IInt (i : Z).

(** [Index]: a tuple of slices and integers. Python compares tuples and
    slices structurally, so [==] on indices is structural equality. *)
Definition Index : Type := list IndexElem.

#[global] Instance IndexElem_eq_dec : EqDecision IndexElem.
Proof. solve_decision. Defined.

(** [ShapedArray] / [ShapeDtypeStruct]: a shape and a dtype. *)
Record Aval := mkAval {
  aval_shape : list Z;
  aval_dtype : string;
}.

(** The numpy and jax array operations that [device_mesh.py] calls. They
    belong to those libraries; the development is parametric in them. *)
Class Numpy (NdArray : Type) := {
  np_getitem : NdArray → Index → NdArray;           (* x[index] *)
  np_setitem : NdArray → Index → NdArray → NdArray; (* x[index] = v *)
  np_empty : list Z → string → NdArray;             (* np.empty(shape, dtype) *)
  np_full : list Z → float → string → NdArray;      (* jnp.full(shape, v, dtype) *)
  np_shape : NdArray → list Z;                      (* x.shape *)
  np_dtype : NdArray → string;                      (* x.dtype *)
  canonicalize_dtype : NdArray → NdArray;           (* xla.canonicalize_dtype(x) *)
}.

(** ** MeshHostWorker: buffers of one host *)

Module Worker.
Section Worker.

Context `{Numpy NdArray}.

(** An entry of [backend.local_devices()]. *)
Inductive Device := GpuDevice (ordinal : nat).

(** What [backend.buffer_from_pyval(data, device)] returns: the device
    buffer holding a copy of [data] on [device]. *)
Record DeviceBuffer := mkDeviceBuffer {
  buf_device : Device;
  buf_value : NdArray;
}.

Definition buffer_from_pyval (data : NdArray) (d : Device) : DeviceBuffer :=
  mkDeviceBuffer d data.

Record MeshHostWorker := mkWorker {
  num_hosts : Z;
  host_id : Z;
  local_devices : list Device;
  buffers : gmap Z DeviceBuffer;   (* Dict[uuid -> DeviceArray] *)
}.

Definition set_buffers (w : MeshHostWorker) (b : gmap Z DeviceBuffer)
  : MeshHostWorker :=
  mkWorker (num_hosts w) (host_id w) (local_devices w) b.

(** The argument [uuids: Union[Sequence[int], int]]. *)
Inductive Uuids :=
  | One (uuid : Z)
  | Many (uuids : list Z).

(** [self.buffers[uuid]] *)
Definition buffers_getitem (w : MeshHostWorker) (uuid : Z) : res DeviceBuffer :=
  match buffers w !! uuid with
  | Some b => Ok b
  | None => Raise (KeyError (KInt uuid))
  end.

(** [del self.buffers[uuid]] *)
Definition buffers_delitem (uuid : Z) : M MeshHostWorker unit :=
  λ w, match buffers w !! uuid with
       | Some _ => (set_buffers w (delete uuid (buffers w)), Ok tt)
       | None => (w, Raise (KeyError (KInt uuid)))
       end.

(** [[
    def put_buffer(self, uuid, device_id, data):
        assert uuid not in self.buffers
        self.buffers[uuid] = (self.backend.buffer_from_pyval(
            data, self.local_devices[device_id]))
    ]] *)
Definition put_buffer (uuid device_id : Z) (data : NdArray)
  : M MeshHostWorker unit :=
  λ w, if decide (is_Some (buffers w !! uuid)) then (w, Raise AssertionError)
       else match py_index (local_devices w) device_id with
            | Raise e => (w, Raise e)
            | Ok d =>
                (set_buffers w (<[uuid := buffer_from_pyval data d]> (buffers w)),
                 Ok tt)
            end.

(** [[
    def put_non_zero_buffer(self, uuid, device_id, shape, dtype=np.float32):
        self.buffers[uuid] = device_put(jnp.full(
            shape, 1e-8, dtype), self.local_devices[device_id]).device_buffer
    ]] *)
Definition put_non_zero_buffer (uuid device_id : Z) (shape : list Z)
  (dtype : string) : M MeshHostWorker unit :=
  λ w, match py_index (local_devices w) device_id with
       | Raise e => (w, Raise e)
       | Ok d =>
           (set_buffers w
              (<[uuid := mkDeviceBuffer d (np_full shape 1e-8%float dtype)]>
                 (buffers w)),
            Ok tt)
       end.

(** [[
    def get_buffers(self, uuids):
        if isinstance(uuids, Iterable):
            return [self.buffers[uuid] for uuid in uuids]
        return self.buffers[uuids]
    ]] *)
Fixpoint get_buffers_list (w : MeshHostWorker) (uuids : list Z)
  : res (list DeviceBuffer) :=
  match uuids with
  | [] => Ok []
  | u :: us =>
      let? b := buffers_getitem w u in
      let? bs := get_buffers_list w us in
      Ok (b :: bs)
  end.

Inductive Fetched :=
  | FetchedOne (b : DeviceBuffer)
  | FetchedMany (bs : list DeviceBuffer).

Definition get_buffers (uuids : Uuids) (w : MeshHostWorker) : res Fetched :=
  match uuids with
  | Many us => let? bs := get_buffers_list w us in Ok (FetchedMany bs)
  | One u => let? b := buffers_getitem w u in Ok (FetchedOne b)
  end.

(** [[
    def delete_buffers(self, uuids):
        if isinstance(uuids, Iterable):
            for uuid in uuids:
                del self.buffers[uuid]
        else:
            del self.buffers[uuids]
    ]] *)
Definition delete_buffers (uuids : Uuids) : M MeshHostWorker unit :=
  match uuids with
  | Many us => st_for us buffers_delitem
  | One u => buffers_delitem u
  end.

End Worker.
Arguments DeviceBuffer : clear implicits.
Arguments MeshHostWorker : clear implicits.
Arguments Fetched : clear implicits.
End Worker.

(** ** DistributedArray: the object and the methods that touch only it *)

Module DArray.
Section DArray.
Context `{Numpy NdArray}.

(** Modelled from the spec: [RemoteBufferRef] (alpa/mesh_executable.py) is
    "an opaque, process-wide unique integer id (uuid) plus owning host index,
    owning device index, and element dtype"; [ref_mesh] is the identity of
    the mesh object it was created for. *)
Record RemoteBufferRef := mkRef {
  ref_mesh : nat;
  ref_host_id : Z;
  ref_device_id : Z;
  ref_uuid : Z;
  ref_dtype : string;
}.

(** An attribute that [__init__] does not create: absent, or set to [None]. *)
Inductive LateAttr := AttrAbsent | AttrNone.

Record DistributedArray := mkDArray {
  device_mesh : nat;                       (* identity of the PhysicalDeviceMesh *)
  aval : Aval;
  sharding_spec : nat;                     (* an opaque ShardingSpec *)
  remote_buffers : list RemoteBufferRef;
  indices : list Index;
  _npy_value : option NdArray;
  _one_replica_buffer_indices : option (list nat);
  device_buffers : LateAttr;
}.

(** [[
    def __init__(self, device_mesh, aval, sharding_spec, remote_buffers, indices):
        ...
        self._npy_value = None
        self._one_replica_buffer_indices = None
    ]] *)
Definition __init__ (device_mesh : nat) (aval : Aval) (sharding_spec : nat)
  (remote_buffers : list RemoteBufferRef) (indices : list Index)
  : DistributedArray :=
  mkDArray device_mesh aval sharding_spec remote_buffers indices
    None None AttrAbsent.

(** [[
    def delete(self):
        for buf in self.remote_buffers:
            del buf
        self.device_buffers = None
        self._npy_value = None
    ]]
    [del buf] unbinds the loop variable [buf]; the list
    [self.remote_buffers] is not touched by it. *)
Definition del_local {A} (buf : A) : M DistributedArray unit := st_ret tt.

(** [self.device_buffers = None; self._npy_value = None] *)
Definition unset_value : M DistributedArray unit :=
  λ self,
    (mkDArray (device_mesh self) (aval self) (sharding_spec self)
       (remote_buffers self) (indices self)
       None (_one_replica_buffer_indices self) AttrNone,
     Ok tt).

Definition delete : M DistributedArray unit :=
  λ self, (st_for (remote_buffers self) del_local ;; unset_value)%py self.

Section OneReplica.
(** [_hashable_index] is jax's ([jax.interpreters.pxla]); the development
    is parametric in it and in the type of the hashed indices. *)
Context {HIndex : Type} `{EqDecision HIndex}.
Variable _hashable_index : Index → HIndex.

(** Modelled from the spec: [OrderedSet] (alpa/util.py) keeps the distinct
    elements added to it; membership compares the hashed indices. *)
Definition OrderedSet : Type := list HIndex.
Definition OrderedSet_contains (x : HIndex) (s : OrderedSet) : bool :=
  bool_decide (x ∈ s).
Definition OrderedSet_add (x : HIndex) (s : OrderedSet) : OrderedSet :=
  if bool_decide (x ∈ s) then s else s ++ [x].

(** The loop over [enumerate(self.indices)], from position [i] on. *)
Fixpoint one_replica_loop (i : nat) (idxs : list Index)
  (one_replica_indices : list nat) (seen_index_hashes : OrderedSet)
  : list nat :=
  match idxs with
  | [] => one_replica_indices
  | index :: rest =>
      let hashed_index := _hashable_index index in
      if OrderedSet_contains hashed_index seen_index_hashes
      then one_replica_loop (S i) rest one_replica_indices seen_index_hashes
      else one_replica_loop (S i) rest (one_replica_indices ++ [i])
             (OrderedSet_add hashed_index seen_index_hashes)
  end.

(** [[
    @property
    def one_replica_buffer_indices(self):
        if self._one_replica_buffer_indices is None:
            one_replica_indices = []
            seen_index_hashes = OrderedSet()
            for i, index in enumerate(self.indices):
                hashed_index = _hashable_index(index)
                if hashed_index not in seen_index_hashes:
                    one_replica_indices.append(i)
                    seen_index_hashes.add(hashed_index)
            self._one_replica_buffer_indices = one_replica_indices
        return self._one_replica_buffer_indices
    ]] *)
Definition one_replica_buffer_indices (self : DistributedArray)
  : DistributedArray * list nat :=
  match _one_replica_buffer_indices self with
  | None =>
      let one_replica_indices := one_replica_loop 0 (indices self) [] [] in
      (mkDArray (device_mesh self) (aval self) (sharding_spec self)
         (remote_buffers self) (indices self) (_npy_value self)
         (Some one_replica_indices) (device_buffers self),
       one_replica_indices)
  | Some cached => (self, cached)
  end.

(** What [_value] does to the object when it materialises the value [v]
    (the fetch itself needs the workers, see [Driver._value]): the replica
    positions are computed through the property and [v] is cached. *)
Definition cache_value (self : DistributedArray) (v : NdArray)
  : DistributedArray :=
  let self' := (one_replica_buffer_indices self).1 in
  mkDArray (device_mesh self') (aval self') (sharding_spec self')
    (remote_buffers self') (indices self') (Some v)
    (_one_replica_buffer_indices self') (device_buffers self').

(** The objects a program can hold: built by [__init__], then changed only
    by the methods of the class. *)
Inductive reachable : DistributedArray → Prop :=
  | reach_init m a s bufs idxs : reachable (__init__ m a s bufs idxs)
  | reach_delete self : reachable self → reachable (delete self).1
  | reach_one_replica self :
      reachable self → reachable (one_replica_buffer_indices self).1
  | reach_value self v : reachable self → reachable (cache_value self v).

(** The position [i] holds the first occurrence of a hashed index: no
    earlier position holds an index with the same hash. *)
Definition first_occurrence (idxs : list Index) (i : nat) : Prop :=
  ∃ x, idxs !! i = Some x ∧
       ∀ j y, (j < i)%nat → idxs !! j = Some y →
              _hashable_index y ≠ _hashable_index x.

(** The cache of a reachable object is unset or holds what the scan
    computes from [self.indices]. *)
Definition cache_consistent (self : DistributedArray) : Prop :=
  _one_replica_buffer_indices self = None ∨
  _one_replica_buffer_indices self
  = Some (one_replica_loop 0 (indices self) [] []).

End OneReplica.
End DArray.
Arguments DistributedArray : clear implicits.

(** jax's [_hashable_index], as in [jax/interpreters/pxla.py]: a slice is
    replaced by the pair of its start and stop, an integer is kept. *)
Inductive HashedElem :=
  | HPair (start stop : option Z)
  | HInt (i : Z).

#[global] Instance HashedElem_eq_dec : EqDecision HashedElem.
Proof. solve_decision. Defined.

Definition jax_hashable_index (idx : Index) : list HashedElem :=
  map (λ x, match x with
            | ISlice start stop _ => HPair start stop
            | IInt i => HInt i
            end) idx.

End DArray.

(** ** Python dicts keyed by objects *)

(** A [dict] whose keys are objects without [__eq__]/[__hash__] (meshes,
    distributed arrays): keys are object identities, and the entries keep
    their insertion order, which [list(d.values())] exposes. *)
Definition PyDict (V : Type) : Type := list (nat * V).

Fixpoint dict_get {V} (k : nat) (d : PyDict V) : option V :=
  match d with
  | [] => None
  | (k', v) :: d' => if decide (k' = k) then Some v else dict_get k d'
  end.

Definition dict_contains {V} (k : nat) (d : PyDict V) : bool :=
  bool_decide (is_Some (dict_get k d)).

(** [d[k] = v] and [d.update({k: v})]: an existing key keeps its position. *)
Fixpoint dict_set {V} (k : nat) (v : V) (d : PyDict V) : PyDict V :=
  match d with
  | [] => [(k, v)]
  | (k', v') :: d' =>
      if decide (k' = k) then (k', v) :: d' else (k', v') :: dict_set k v d'
  end.

Definition dict_values {V} (d : PyDict V) : list V := map snd d.

(** ** ReplicatedDistributedArray *)

Module Replicated.
Section Replicated.
Context `{Numpy NdArray}.


Record ReplicatedDistributedArray := mkReplicated {
  _mesh_array_map : PyDict nat;   (* mesh -> array *)
  _array_mesh_map : PyDict nat;   (* array -> mesh *)
  aval : option Aval;             (* set at the end of __init__ *)
}.

(** [[
    @property
    def replica(self):
        return list(self._mesh_array_map.values())[0]
    ]] *)
Definition replica (self : ReplicatedDistributedArray) : res nat :=
  py_index (dict_values (_mesh_array_map self)) 0.

(** The loop of [__init__] over [zip(device_meshes, arrays)]. *)
Fixpoint init_loop (pairs : list (nat * nat))
  (self : ReplicatedDistributedArray) : ReplicatedDistributedArray :=
  match pairs with
  | [] => self
  | (mesh, array) :: rest =>
      init_loop rest
        (mkReplicated (dict_set mesh array (_mesh_array_map self))
                      (dict_set array mesh (_array_mesh_map self))
                      (aval self))
  end.

(** [[
    def __init__(self, device_meshes, arrays):
        self._mesh_array_map = dict()
        self._array_mesh_map = dict()
        for mesh, array in zip(device_meshes, arrays):
            self._mesh_array_map[mesh] = array
            self._array_mesh_map[array] = mesh
        self.aval = self.replica.aval
    ]]
    [device_meshes] and [arrays] are object identities; the last line reads
    the [aval] attribute of the first replica from [heap], the live
    [DistributedArray] objects by identity. *)
Definition __init__ (heap : gmap nat (DArray.DistributedArray NdArray))
  (device_meshes arrays : list nat)
  : res ReplicatedDistributedArray :=
  let self := init_loop (zip device_meshes arrays) (mkReplicated [] [] None) in
  let? r := replica self in
  match heap !! r with
  | Some a =>
      Ok (mkReplicated (_mesh_array_map self) (_array_mesh_map self)
            (Some (DArray.aval a)))
  | None => Raise AttributeError
  end.

(** [[
    def is_replicated_on_mesh(self, mesh):
        if mesh in self._mesh_array_map:
            return True
        return False
    ]] *)
Definition is_replicated_on_mesh (self : ReplicatedDistributedArray)
  (mesh : nat) : bool :=
  if dict_contains mesh (_mesh_array_map self) then true else false.

(** [[
    def get_replica_on_mesh(self, mesh):
        if not self.is_replicated_on_mesh(mesh):
            raise RuntimeError("No replica found on this mesh.")
        return self._mesh_array_map[mesh]
    ]] *)
Definition get_replica_on_mesh (self : ReplicatedDistributedArray)
  (mesh : nat) : res nat :=
  if negb (is_replicated_on_mesh self mesh)
  then Raise (RuntimeError "No replica found on this mesh.")
  else match dict_get mesh (_mesh_array_map self) with
       | Some a => Ok a
       | None => Raise (KeyError (KObj mesh))
       end.

(** [[
    def add_replica(self, mesh, array):
        assert isinstance(array, DistributedArray)
        assert isinstance(mesh, PhysicalDeviceMesh)
        if array in self._array_mesh_map:
            raise RuntimeError("Replica exists.")
        if mesh in self._mesh_array_map:
            raise RuntimeError("Mesh exists.")
        self._mesh_array_map.update({mesh: array})
        self._array_mesh_map.update({array: mesh})
    ]]
    The two assertions hold by the types of [mesh] and [array]. *)
Definition add_replica (mesh array : nat) : M ReplicatedDistributedArray unit :=
  λ self,
    if dict_contains array (_array_mesh_map self)
    then (self, Raise (RuntimeError "Replica exists."))
    else if dict_contains mesh (_mesh_array_map self)
    then (self, Raise (RuntimeError "Mesh exists."))
    else (mkReplicated (dict_set mesh array (_mesh_array_map self))
                       (dict_set array mesh (_array_mesh_map self))
                       (aval self),
          Ok tt).

(** The invariant of the claim: the two maps are inverse to each other, so
    no mesh holds two replicas and no replica is registered under two
    meshes. *)
Definition mutual_inverses (self : ReplicatedDistributedArray) : Prop :=
  ∀ mesh array,
    dict_get mesh (_mesh_array_map self) = Some array ↔
    dict_get array (_array_mesh_map self) = Some mesh.

(** The replica [array] is registered under both [m1] and [m2]. *)
Definition registered_under_two (self : ReplicatedDistributedArray)
  (array m1 m2 : nat) : Prop :=
  m1 ≠ m2 ∧
  dict_get m1 (_mesh_array_map self) = Some array ∧
  dict_get m2 (_mesh_array_map self) = Some array.

End Replicated.
End Replicated.

(** ** Numbers, numpy reshaping and logical meshes *)

(** A Python number in a cost vector: an [int] or a [float]. *)
Inductive PyNum :=
  | PyInt (z : Z)
  | PyFloat (f : float).

(** The float that a [PyFloat] carries (0 for an integer). *)
Definition float_value (x : PyNum) : float :=
  match x with
  | PyFloat f => f
  | PyInt _ => 0%float
  end.

(** Modelled from the spec: [LogicalDeviceMesh]
    (alpa/shard_parallel/auto_sharding.py) is "a reshaping of a physical or
    virtual mesh's device-id grid into an arbitrary shape, plus a per-axis
    communication-cost model: alpha and beta"; the constructor stores its
    four arguments. *)
Record LogicalDeviceMesh (PM : Type) := mkLogical {
  physical_mesh : PM;
  id_mesh : list (list Z);
  mesh_alpha : option (list PyNum);
  mesh_beta : option (list PyNum);
}.
Arguments mkLogical {PM}.
Arguments physical_mesh {PM}.
Arguments id_mesh {PM}.
Arguments mesh_alpha {PM}.
Arguments mesh_beta {PM}.

(** The shape numpy gives an array of [n] elements reshaped to the pair
    [shape]: one entry may be [-1] and is then inferred. *)
Definition np_reshape_shape (n : Z) (shape : Z * Z) : res (Z * Z) :=
  let '(s0, s1) := shape in
  if decide (s0 = -1 ∧ 0 < s1 ∧ n `mod` s1 = 0) then Ok (n `div` s1, s1)
  else if decide (s1 = -1 ∧ 0 < s0 ∧ n `mod` s0 = 0) then Ok (s0, n `div` s0)
  else if decide (0 ≤ s0 ∧ 0 ≤ s1 ∧ s0 * s1 = n) then Ok (s0, s1)
  else Raise ValueError.

(** Rows of a row-major 2-D array: [rows] rows of [cols] elements. *)
Fixpoint chunks (cols rows : nat) (flat : list Z) : list (list Z) :=
  match rows with
  | O => []
  | S r => take cols flat :: chunks cols r (drop cols flat)
  end.

(** [flat.reshape(shape)] for a 1-D [flat] and a pair [shape]. *)
Definition np_reshape (flat : list Z) (shape : Z * Z) : res (list (list Z)) :=
  let? a := np_reshape_shape (Z.of_nat (length flat)) shape in
  Ok (chunks (Z.to_nat a.2) (Z.to_nat a.1) flat).

(** [np.arange(n).reshape(shape)] *)
Definition arange_reshape (n : nat) (shape : Z * Z) : res (list (list Z)) :=
  np_reshape (seqZ 0 (Z.of_nat n)) shape.

(** [grid[i][j]] *)
Definition grid_get (grid : list (list Z)) (i j : Z) : res Z :=
  let? row := py_index grid i in
  py_index row j.

(** A left fold whose step may raise. *)
Fixpoint res_fold {A B} (f : B → A → res B) (l : list A) (b : B) : res B :=
  match l with
  | [] => Ok b
  | x :: l' => let? b' := f b x in res_fold f l' b'
  end.

Fixpoint res_map {A B} (f : A → res B) (l : list A) : res (list B) :=
  match l with
  | [] => Ok []
  | x :: l' => let? y := f x in let? ys := res_map f l' in Ok (y :: ys)
  end.

(** *** The ring bandwidth model of [get_logical_mesh] *)

(** The key of a link between two hosts: [(left, right)] after
    [if left > right: left, right = right, left]. *)
Definition link_key (left right : Z) : Z * Z :=
  if decide (left > right) then (right, left) else (left, right).

(** [host_link_ct[key]] on a [defaultdict(int)]. *)
Definition link_ct_get (ct : gmap (Z * Z) Z) (key : Z * Z) : Z :=
  default 0 (ct !! key).

(** [[
    if left != right:
        if left > right:
            left, right = right, left
        host_link_ct[(left, right)] += 1
    ]] *)
Definition link_add (ct : gmap (Z * Z) Z) (left right : Z) : gmap (Z * Z) Z :=
  if decide (left ≠ right)
  then <[link_key left right := link_ct_get ct (link_key left right) + 1]> ct
  else ct.

(** The conversion of a link count (below 2^63) to a float. *)
Definition float_of_Z (n : Z) : float := PrimFloat.of_uint63 (Uint63.of_Z n).

(** [inter_host_bandwidth / host_link_ct[(left, right)]] *)
Definition bandwidth_div (inter : option float) (count : Z) : res float :=
  match inter with
  | None => Raise TypeError
  | Some x =>
      if decide (count = 0) then Raise ZeroDivisionError
      else Ok (x / float_of_Z count)%float
  end.

(** [min(bandwidth, x)]: the first argument is kept unless [x < bandwidth]. *)
Definition float_min (bandwidth x : float) : float :=
  if PrimFloat.ltb x bandwidth then x else bandwidth.

Definition bandwidth_min (bandwidth : option float) (x : float)
  : res (option float) :=
  match bandwidth with
  | None => Raise TypeError
  | Some b => Ok (Some (float_min b x))
  end.

(** [1 / bandwidth] *)
Definition inverse_bandwidth (bandwidth : option float) : res PyNum :=
  match bandwidth with
  | None => Raise TypeError
  | Some b =>
      if PrimFloat.eqb b 0%float then Raise ZeroDivisionError
      else Ok (PyFloat (1 / b)%float)
  end.

(** [[
    left = host_ids[i][j]
    right = host_ids[(i + 1) % mesh_shape[0]][j]     # dim = 0
    right = host_ids[i][(j + 1) % mesh_shape[1]]     # dim = 1
    ]] *)
Definition neighbours (dim : nat) (host_ids : list (list Z)) (s0 s1 i j : Z)
  : res (Z * Z) :=
  let? left_ := grid_get host_ids i j in
  let? right_ := match dim with
                 | O => grid_get host_ids ((i + 1) `mod` s0) j
                 | _ => grid_get host_ids i ((j + 1) `mod` s1)
                 end in
  Ok (left_, right_).

(** Step 1, "compute the number of links between each host pairs":
    [[
    host_link_ct = defaultdict(int)
    for j in range(mesh_shape[1]):            # dim = 0
        for i in range(mesh_shape[0]):
            left = host_ids[i][j]
            right = host_ids[(i + 1) % mesh_shape[0]][j]
            if left != right: ...
                host_link_ct[(left, right)] += 1
    ]]
    For [dim = 1] the outer loop runs over the rows [i], the inner one over
    the columns [j], and [right] is the next cell of the row. *)
Definition count_links (dim : nat) (host_ids : list (list Z)) (s0 s1 : Z)
  : res (gmap (Z * Z) Z) :=
  match dim with
  | O =>
      res_fold (λ ct j,
        res_fold (λ ct i,
          let? lr := neighbours 0 host_ids s0 s1 i j in
          Ok (link_add ct lr.1 lr.2)) (py_range s0) ct) (py_range s1) ∅
  | _ =>
      res_fold (λ ct i,
        res_fold (λ ct j,
          let? lr := neighbours 1 host_ids s0 s1 i j in
          Ok (link_add ct lr.1 lr.2)) (py_range s1) ct) (py_range s0) ∅
  end.

(** Step 2, "bandwidth along a communication dimension = min bandwidth of
    all links":
    [[
    j = 0                                     # dim = 0
    bandwidth = intra_host_bandwidth
    for i in range(mesh_shape[0]):
        left = host_ids[i][j]
        right = host_ids[(i + 1) % mesh_shape[0]][j]
        if left != right:
            if left > right:
                left, right = right, left
            bandwidth = min(
                bandwidth,
                inter_host_bandwidth / host_link_ct[(left, right)])
    ]]
    and with [i = 0] over the columns [j] for [dim = 1]. Reading a missing
    key of the [defaultdict] gives 0. *)
Definition bandwidth_step (ct : gmap (Z * Z) Z) (inter : option float)
  (bandwidth : option float) (lr : Z * Z) : res (option float) :=
  if decide (lr.1 ≠ lr.2) then
    let? q := bandwidth_div inter (link_ct_get ct (link_key lr.1 lr.2)) in
    bandwidth_min bandwidth q
  else Ok bandwidth.

Definition min_bandwidth (dim : nat) (host_ids : list (list Z)) (s0 s1 : Z)
  (ct : gmap (Z * Z) Z) (intra inter : option float) : res (option float) :=
  match dim with
  | O =>
      res_fold (λ bandwidth i,
        let? lr := neighbours 0 host_ids s0 s1 i 0 in
        bandwidth_step ct inter bandwidth lr) (py_range s0) intra
  | _ =>
      res_fold (λ bandwidth j,
        let? lr := neighbours 1 host_ids s0 s1 0 j in
        bandwidth_step ct inter bandwidth lr) (py_range s1) intra
  end.

Definition tree_beta (dim : nat) (host_ids : list (list Z)) (s0 s1 : Z)
  (intra inter : option float) : res PyNum :=
  let? ct := count_links dim host_ids s0 s1 in
  let? bandwidth := min_bandwidth dim host_ids s0 s1 ct intra inter in
  inverse_bandwidth bandwidth.

(** [[
    host_ids = np.tile(np.arange(self.num_hosts).reshape(-1, 1),
                       self.num_devices_per_host)
    host_ids = host_ids.reshape(mesh_shape)
    ]] *)
Definition tiled_host_ids (num_hosts : nat) (num_devices_per_host : Z)
  (mesh_shape : Z * Z) : res (list (list Z)) :=
  if decide (num_devices_per_host < 0) then Raise ValueError
  else
    np_reshape
      (concat (map (λ h, replicate (Z.to_nat num_devices_per_host) h)
                 (seqZ 0 (Z.of_nat num_hosts))))
      mesh_shape.

(** [x or default] on an optional sequence: [None] and the empty sequence
    are false. *)
Definition or_default (x : option (list PyNum)) (d : list PyNum) : list PyNum :=
  match x with
  | None | Some [] => d
  | Some l => l
  end.

(** [[
    def device_id_to_str(host_ip, device_id, device_type="gpu"):
        return "{}:{}:{}".format(host_ip, device_type, str(device_id))
    ]] *)
Definition device_id_to_str (host_ip : string) (device_id : Z)
  (device_type : string) : string :=
  host_ip +:+ ":" +:+ device_type +:+ ":" +:+ pretty device_id.

(** [[
    for i, _ in enumerate(self.host_ids):
        ip = self.host_info[i]["NodeManagerAddress"]
        self.device_strs.extend([
            device_id_to_str(ip, i)
            for devices_this_host in self.devices
            for i in devices_this_host
        ])
    ]]
    shared by [PhysicalDeviceMesh.__init__] and
    [VirtualPhysicalMesh.__init__]. A host descriptor is a dict; its
    string-valued entries are a [gmap string string]. The comprehension has
    its own [i], the device id. *)
Definition host_ip_at (host_info : option (list (gmap string string)))
  (i : nat) : res string :=
  match host_info with
  | None => Raise TypeError
  | Some infos =>
      let? info := py_index infos (Z.of_nat i) in
      match info !! "NodeManagerAddress" with
      | Some ip => Ok ip
      | None => Raise (KeyError (KStr "NodeManagerAddress"))
      end
  end.

Definition strs_of_host (ip : string) (devices : list (list Z)) : list string :=
  flat_map (λ devices_this_host,
              map (λ i, device_id_to_str ip i "gpu") devices_this_host)
           devices.

Definition build_device_strs {A} (host_ids : list A)
  (host_info : option (list (gmap string string))) (devices : list (list Z))
  : res (list string) :=
  res_fold (λ device_strs i,
              let? ip := host_ip_at host_info i in
              Ok (device_strs ++ strs_of_host ip devices))
           (seq 0 (length host_ids)) [].

(** The validation of explicit per-host device lists, shared by the two
    constructors; [msg] is the message of the second error. *)
Definition check_devices {A} (devices : list (list Z)) (host_ids : list A)
  (num_devices_per_host : Z) (msg : string) : res unit :=
  if decide (length devices ≠ length host_ids)
  then Raise (RuntimeError "Please specify the gpu IDs used on each host.")
  else if forallb (λ ids, bool_decide (Z.of_nat (length ids) = num_devices_per_host))
            devices
  then Ok tt
  else Raise (RuntimeError msg).

(** [[ [list(range(num_devices_per_host)) for _ in host_ids] ]] *)
Definition default_devices {A} (host_ids : list A) (num_devices_per_host : Z)
  : list (list Z) :=
  map (λ _, py_range num_devices_per_host) host_ids.

(** ** PhysicalDeviceMesh *)

Module Physical.
Section Physical.
Context `{Numpy NdArray}.

(** [self.devices]: jax devices on a single-host mesh, per-host lists of
    device ids on a cluster mesh. *)
Inductive Devices :=
  | LocalDevices (ds : list Worker.Device)
  | HostDeviceIds (ids : list (list Z)).

Record PhysicalDeviceMesh := mkMesh {
  use_ray : bool;
  host_ids : list Z;
  host_info : option (list (gmap string string));
  head_ip : option string;
  num_devices_per_host : Z;
  devices : Devices;
  device_strs : list string;
  workers : option (list (Worker.MeshHostWorker NdArray));
  launched : bool;
}.

(** [_launch_xla_servers]: the port draw, the gRPC service and the ray
    actors are outside this embedding. What is kept is the list of workers,
    one per host, each with no buffers and with the [num_gpus =
    num_devices_per_host] devices that ray assigns to it. *)
Definition launch_workers (num_hosts : nat) (num_devices_per_host : Z)
  : list (Worker.MeshHostWorker NdArray) :=
  map (λ i, Worker.mkWorker (Z.of_nat num_hosts) (Z.of_nat i)
              (map Worker.GpuDevice (seq 0 (Z.to_nat num_devices_per_host))) ∅)
      (seq 0 num_hosts).

Definition device_ordinal (d : Worker.Device) : Z :=
  match d with Worker.GpuDevice n => Z.of_nat n end.

(** [PhysicalDeviceMesh.__init__], single-host branch:
    [[
    if not use_ray and not devices:
        raise RuntimeError(
            "`devices` are required for single-host device mesh.")
    if not use_ray:
        self.devices = devices
        self.host_ids = [0]
        self.host_info = None
        self.head_ip = "127.0.0.1"
        self.device_strs = [
            device_id_to_str(self.head_ip, d.id) for d in devices
        ]
        self.num_devices_per_host = len(self.devices)
    ]]
    with [self.workers = None] and [self.launched = False] from the top of
    the constructor. *)
Definition init_local (devices : option Devices) : res PhysicalDeviceMesh :=
  match devices with
  | None | Some (LocalDevices []) | Some (HostDeviceIds []) =>
      Raise (RuntimeError "`devices` are required for single-host device mesh.")
  | Some (HostDeviceIds (_ :: _)) => Raise AttributeError   (* d.id on a list *)
  | Some (LocalDevices ds) =>
      Ok (mkMesh false [0] None (Some "127.0.0.1") (Z.of_nat (length ds))
            (LocalDevices ds)
            (map (λ d, device_id_to_str "127.0.0.1" (device_ordinal d) "gpu") ds)
            None false)
  end.

(** [PhysicalDeviceMesh.__init__], cluster branch:
    [[
    if use_ray:
        self.device_strs = []
        if devices is not None:
            if len(devices) != len(host_ids):
                raise RuntimeError(
                    "Please specify the gpu IDs used on each host.")
            if not all(len(ids) == num_devices_per_host for ids in devices):
                raise RuntimeError(
                    "Devices specified for each host does not align "
                    "with `num_devices_per_host`.")
        else:
            devices = [
                list(range(num_devices_per_host))
                for i, _ in enumerate(host_ids)
            ]
        self.devices = devices
        for i, _ in enumerate(self.host_ids):
            ...                      # see build_device_strs
        self._launch_xla_servers()
    ]] *)
Definition init_ray (devices : option Devices) (host_ids : option (list Z))
  (host_info : option (list (gmap string string))) (head_ip : option string)
  (num_devices_per_host : Z) : res PhysicalDeviceMesh :=
  match host_ids with
  | None => Raise TypeError                       (* len(None), enumerate(None) *)
  | Some host_ids =>
      let? devices :=
        match devices with
        | Some (HostDeviceIds ids) =>
            let? _ := check_devices ids host_ids num_devices_per_host
                        "Devices specified for each host does not align with `num_devices_per_host`." in
            Ok ids
        | Some (LocalDevices ds) =>
            if decide (length ds ≠ length host_ids)
            then Raise (RuntimeError "Please specify the gpu IDs used on each host.")
            else match ds with
                 | [] => Ok []
                 | _ :: _ => Raise TypeError            (* len(ids) on a device *)
                 end
        | None => Ok (default_devices host_ids num_devices_per_host)
        end in
      let? device_strs := build_device_strs host_ids host_info devices in
      Ok (mkMesh true host_ids host_info head_ip num_devices_per_host
            (HostDeviceIds devices) device_strs
            (Some (launch_workers (length host_ids) num_devices_per_host))
            true)
  end.

(** [[
    def __init__(self, devices=None, host_ids=None, host_info=None,
                 head_ip=None, num_devices_per_host=1, use_ray=False):
    ]] *)
Definition __init__ (devices : option Devices) (host_ids : option (list Z))
  (host_info : option (list (gmap string string))) (head_ip : option string)
  (num_devices_per_host : Z) (use_ray : bool) : res PhysicalDeviceMesh :=
  if use_ray
  then init_ray devices host_ids host_info head_ip num_devices_per_host
  else init_local devices.

Definition num_hosts (self : PhysicalDeviceMesh) : nat := length (host_ids self).

Definition shape (self : PhysicalDeviceMesh) : Z * Z :=
  (Z.of_nat (length (host_ids self)), num_devices_per_host self).

(** [len(self.device_ids_flat)], where [device_ids] is [[self.devices]] on a
    single-host mesh and [self.devices] otherwise. *)
Definition num_devices (self : PhysicalDeviceMesh) : res nat :=
  match use_ray self, devices self with
  | false, LocalDevices ds => Ok (length ds)
  | false, HostDeviceIds ids => Ok (length ids)
  | true, HostDeviceIds ids => Ok (length (concat ids))
  | true, LocalDevices [] => Ok O
  | true, LocalDevices (_ :: _) => Raise TypeError
  end.

Definition is_distributed (self : PhysicalDeviceMesh) : bool :=
  negb (bool_decide (num_hosts self = 1%nat) && negb (use_ray self)).

(** [[
    def get_logical_mesh(self, mesh_shape, mesh_alpha=None, mesh_beta=None,
                         mesh_topology=None, intra_host_bandwidth=None,
                         inter_host_bandwidth=None):
    ]]
    for a [mesh_shape] of two entries and bandwidths that are floats. *)
Definition get_logical_mesh (self : PhysicalDeviceMesh) (mesh_shape : Z * Z)
  (mesh_alpha mesh_beta : option (list PyNum)) (mesh_topology : option string)
  (intra_host_bandwidth inter_host_bandwidth : option float)
  : res (LogicalDeviceMesh PhysicalDeviceMesh) :=
  let? n := num_devices self in
  let? id_mesh := arange_reshape n mesh_shape in
  match mesh_topology with
  | None =>
      Ok (mkLogical self id_mesh
            (Some (or_default mesh_alpha [PyInt 1; PyInt 1]))
            (Some (or_default mesh_beta [PyInt 1; PyInt 1])))
  | Some topology =>
      if decide (topology = "tree") then
        if bool_decide (mesh_alpha = None) then
          if bool_decide (mesh_beta = None) then
            let? host_ids :=
              tiled_host_ids (num_hosts self) (num_devices_per_host self)
                mesh_shape in
            let? beta0 := tree_beta 0 host_ids mesh_shape.1 mesh_shape.2
                            intra_host_bandwidth inter_host_bandwidth in
            let? beta1 := tree_beta 1 host_ids mesh_shape.1 mesh_shape.2
                            intra_host_bandwidth inter_host_bandwidth in
            Ok (mkLogical self id_mesh (Some [PyInt 1; PyInt 1])
                  (Some [beta0; beta1]))
          else Raise AssertionError
        else Raise AssertionError
      else Ok (mkLogical self id_mesh mesh_alpha mesh_beta)
  end.

(** [[
    def get_default_logical_mesh(self):
        if self.num_hosts == 1:
            return self.get_logical_mesh(
                (self.num_hosts, self.num_devices_per_host), [1, 1], [1, 1])
        else:
            return self.get_logical_mesh(
                (self.num_hosts, self.num_devices_per_host), [1, 1], [1, 0.01])
    ]] *)
Definition get_default_logical_mesh (self : PhysicalDeviceMesh)
  : res (LogicalDeviceMesh PhysicalDeviceMesh) :=
  if decide (num_hosts self = 1%nat)
  then get_logical_mesh self (shape self)
         (Some [PyInt 1; PyInt 1]) (Some [PyInt 1; PyInt 1]) None None None
  else get_logical_mesh self (shape self)
         (Some [PyInt 1; PyInt 1]) (Some [PyInt 1; PyFloat 0.01]) None None None.

End Physical.
Arguments PhysicalDeviceMesh : clear implicits.
End Physical.

(** ** VirtualPhysicalMesh *)

Module Virtual.

Record VirtualPhysicalMesh := mkVMesh {
  host_ids : list Z;
  host_info : option (list (gmap string string));
  head_ip : option string;
  num_devices_per_host : Z;
  devices : list (list Z);
  device_strs : list string;
}.

(** [[
    def __init__(self, host_ids=None, host_info=None, head_ip=None,
                 num_devices_per_host=1, devices=None):
    ]] *)
Definition __init__ (host_ids : option (list Z))
  (host_info : option (list (gmap string string))) (head_ip : option string)
  (num_devices_per_host : Z) (devices : option (list (list Z)))
  : res VirtualPhysicalMesh :=
  match host_ids with
  | None => Raise TypeError                       (* len(None), iterating None *)
  | Some host_ids =>
      let? devices :=
        match devices with
        | Some ids =>
            let? _ := check_devices ids host_ids num_devices_per_host
                        "Device IDs specified for each host does not align with `num_devices_per_host`." in
            Ok ids
        | None => Ok (default_devices host_ids num_devices_per_host)
        end in
      let? device_strs := build_device_strs host_ids host_info devices in
      Ok (mkVMesh host_ids host_info head_ip num_devices_per_host devices
            device_strs)
  end.

(** [self.host_info[x]] *)
Definition host_info_at (self : VirtualPhysicalMesh) (x : Z)
  : res (gmap string string) :=
  match host_info self with
  | None => Raise TypeError
  | Some infos => py_index infos x
  end.

(** [[
    def slice_2d(self, host_indices, device_indices):
        host_ids = [self.host_ids[x] for x in host_indices]
        host_info = [self.host_info[x] for x in host_indices]
        return VirtualPhysicalMesh(host_ids=host_ids,
                                   host_info=host_info,
                                   head_ip=self.head_ip,
                                   num_devices_per_host=len(device_indices[0]),
                                   devices=device_indices)
    ]] *)
Definition slice_2d (self : VirtualPhysicalMesh) (host_indices : list Z)
  (device_indices : list (list Z)) : res VirtualPhysicalMesh :=
  let? host_ids' := res_map (py_index (host_ids self)) host_indices in
  let? host_info' := res_map (host_info_at self) host_indices in
  let? first := py_index device_indices 0 in
  __init__ (Some host_ids') (Some host_info') (head_ip self)
    (Z.of_nat (length first)) (Some device_indices).

(** The body of the two loops of [slice_profiling_submeshes]. *)
Definition profiling_submesh (self : VirtualPhysicalMesh)
  (submesh_num_hosts submesh_num_devices_per_host i j : Z)
  : res VirtualPhysicalMesh :=
  let host_indices :=
    py_range2 (i * submesh_num_hosts) ((i + 1) * submesh_num_hosts) in
  let device_indices :=
    map (λ _, py_range2 (j * submesh_num_devices_per_host)
                ((j + 1) * submesh_num_devices_per_host)) host_indices in
  slice_2d self host_indices device_indices.

(** [[
    def slice_profiling_submeshes(self, submesh_num_hosts,
                                  submesh_num_devices_per_host):
        num_hosts = len(self.host_ids)
        num_devices_per_host = self.num_devices_per_host
        num_host_submeshes = num_hosts // submesh_num_hosts
        num_device_submeshes = num_devices_per_host // submesh_num_devices_per_host
        all_submeshes = []
        for i in range(num_host_submeshes):
            for j in range(num_device_submeshes):
                ...
                all_submeshes.append(self.slice_2d(host_indices,
                                                   device_indices))
        return all_submeshes
    ]] *)
Definition slice_profiling_submeshes (self : VirtualPhysicalMesh)
  (submesh_num_hosts submesh_num_devices_per_host : Z)
  : res (list VirtualPhysicalMesh) :=
  let num_hosts := Z.of_nat (length (host_ids self)) in
  if decide (submesh_num_hosts = 0) then Raise ZeroDivisionError else
  let num_host_submeshes := num_hosts `div` submesh_num_hosts in
  if decide (submesh_num_devices_per_host = 0) then Raise ZeroDivisionError else
  let num_device_submeshes :=
    num_devices_per_host self `div` submesh_num_devices_per_host in
  res_fold (λ all_submeshes i,
    res_fold (λ all_submeshes j,
      let? sub := profiling_submesh self submesh_num_hosts
                    submesh_num_devices_per_host i j in
      Ok (all_submeshes ++ [sub]))
      (py_range num_device_submeshes) all_submeshes)
    (py_range num_host_submeshes) [].

Definition num_hosts (self : VirtualPhysicalMesh) : nat := length (host_ids self).

Definition shape (self : VirtualPhysicalMesh) : Z * Z :=
  (Z.of_nat (length (host_ids self)), num_devices_per_host self).

(** [len(self.device_ids_flat)] *)
Definition num_devices (self : VirtualPhysicalMesh) : nat :=
  length (concat (devices self)).

(** [[
    def get_logical_mesh(self, mesh_shape, mesh_alpha=None, mesh_beta=None):
        id_mesh = np.arange(self.num_devices).reshape(mesh_shape)
        mesh_alpha = mesh_alpha or (1.0,) * len(mesh_shape)
        mesh_beta = mesh_beta or (1.0,) * len(mesh_shape)
        return LogicalDeviceMesh(self, id_mesh, mesh_alpha, mesh_beta)
    ]] *)
Definition get_logical_mesh (self : VirtualPhysicalMesh) (mesh_shape : Z * Z)
  (mesh_alpha mesh_beta : option (list PyNum))
  : res (LogicalDeviceMesh VirtualPhysicalMesh) :=
  let? id_mesh := arange_reshape (num_devices self) mesh_shape in
  Ok (mkLogical self id_mesh
        (Some (or_default mesh_alpha [PyFloat 1; PyFloat 1]))
        (Some (or_default mesh_beta [PyFloat 1; PyFloat 1]))).

(** [[
    def get_default_logical_mesh(self):
        if self.num_hosts == 1:
            return self.get_logical_mesh(
                (self.num_hosts, self.num_devices_per_host), [1, 1], [1, 1])
        else:
            return self.get_logical_mesh(
                (self.num_hosts, self.num_devices_per_host), [1, 1], [1, 0.1])
    ]] *)
Definition get_default_logical_mesh (self : VirtualPhysicalMesh)
  : res (LogicalDeviceMesh VirtualPhysicalMesh) :=
  if decide (num_hosts self = 1%nat)
  then get_logical_mesh self (shape self)
         (Some [PyInt 1; PyInt 1]) (Some [PyInt 1; PyInt 1])
  else get_logical_mesh self (shape self)
         (Some [PyInt 1; PyInt 1]) (Some [PyInt 1; PyFloat 0.1]).

(** Every host of the mesh has a descriptor with an address; [__init__]
    raises otherwise, while it builds the device strings. *)
Definition hosts_described (self : VirtualPhysicalMesh) : Prop :=
  ∀ i, (i < length (host_ids self))%nat →
       ∃ ip, host_ip_at (host_info self) i = Ok ip.

(** The cells [(host position, device index)] that the submesh at grid
    position [(i, j)] is built over. *)
Definition submesh_cells (submesh_num_hosts submesh_num_devices_per_host i j : Z)
  : list (Z * Z) :=
  x ← py_range2 (i * submesh_num_hosts) ((i + 1) * submesh_num_hosts);
  y ← py_range2 (j * submesh_num_devices_per_host)
        ((j + 1) * submesh_num_devices_per_host);
  [(x, y)].

(** The address used when a host has none; it is never read on a mesh whose
    hosts are described. *)
Definition ip_or_empty (host_info : option (list (gmap string string)))
  (i : nat) : string :=
  match host_ip_at host_info i with Ok ip => ip | Raise _ => "" end.

(** The submesh of a grid position, or an empty mesh where [slice_2d]
    raises; used to name the elements of the result. *)
Definition sub_or_empty (r : res VirtualPhysicalMesh) : VirtualPhysicalMesh :=
  match r with Ok sub => sub | Raise _ => mkVMesh [] None None 0 [] [] end.

End Virtual.

(** ** The driver: remote buffers, materialisation and [shard_args] *)

(** The position that [l[i]] reads in a list of length [n]. *)
Definition py_position (n : nat) (i : Z) : res nat :=
  if decide (0 ≤ i < Z.of_nat n) then Ok (Z.to_nat i)
  else if decide (- Z.of_nat n ≤ i < 0) then Ok (Z.to_nat (Z.of_nat n + i))
  else Raise IndexError.

(** [slice.indices(length)] of CPython, and [len(range(start, stop, step))]. *)
Definition slice_indices (start stop step : option Z) (length : Z)
  : res (Z * Z * Z) :=
  if decide (length < 0) then Raise ValueError else
  let step := default 1 step in
  if decide (step = 0) then Raise ValueError else
  let lower := if decide (step < 0) then -1 else 0 in
  let upper := if decide (step < 0) then length - 1 else length in
  let clip (v : Z) :=
    if decide (v < 0) then Z.max (v + length) lower else Z.min v upper in
  let start := match start with
               | None => if decide (step < 0) then upper else lower
               | Some v => clip v
               end in
  let stop := match stop with
              | None => if decide (step < 0) then lower else upper
              | Some v => clip v
              end in
  Ok (start, stop, step).

Definition range_len (start stop step : Z) : Z :=
  if decide (0 < step) then
    if decide (start < stop) then (stop - start - 1) `div` step + 1 else 0
  else
    if decide (stop < start) then (start - stop - 1) `div` (- step) + 1 else 0.

Module Driver.
Section Driver.
Context `{Numpy NdArray}.
Context {HIndex : Type} `{EqDecision HIndex}.
Variable _hashable_index : Index → HIndex.

(** The state of the driver process and of the workers it talks to.
    - [meshes], [darrays]: the live mesh and array objects, by identity;
    - Modelled from the spec: [next_uuid] is the counter behind the
      "process-wide unique integer id" of a new [RemoteBufferRef], and
      [use_dummy_value_for_benchmarking] is the flag of [global_config];
    - [handler_calls] and [memory_queries] are instrumentation: the number
      of calls of an entry of [shard_arg_handlers], and of memory queries
      sent to worker 0. *)
Record World := mkWorld {
  meshes : gmap nat (Physical.PhysicalDeviceMesh NdArray);
  darrays : gmap nat (DArray.DistributedArray NdArray);
  next_uuid : Z;
  use_dummy_value_for_benchmarking : bool;
  handler_calls : nat;
  memory_queries : nat;
}.

Definition get_mesh (id : nat)
  : M World (Physical.PhysicalDeviceMesh NdArray) :=
  λ w, (w, match meshes w !! id with
           | Some m => Ok m
           | None => Raise AttributeError
           end).

Definition get_darray (id : nat) : M World (DArray.DistributedArray NdArray) :=
  λ w, (w, match darrays w !! id with
           | Some a => Ok a
           | None => Raise AttributeError
           end).

Definition set_mesh (id : nat) (m : Physical.PhysicalDeviceMesh NdArray)
  : M World unit :=
  λ w, (mkWorld (<[id := m]> (meshes w)) (darrays w) (next_uuid w)
          (use_dummy_value_for_benchmarking w) (handler_calls w)
          (memory_queries w), Ok tt).

Definition set_darray (id : nat) (a : DArray.DistributedArray NdArray)
  : M World unit :=
  λ w, (mkWorld (meshes w) (<[id := a]> (darrays w)) (next_uuid w)
          (use_dummy_value_for_benchmarking w) (handler_calls w)
          (memory_queries w), Ok tt).

Definition fresh_uuid : M World Z :=
  λ w, (mkWorld (meshes w) (darrays w) (next_uuid w + 1)
          (use_dummy_value_for_benchmarking w) (handler_calls w)
          (memory_queries w), Ok (next_uuid w)).

Definition count_handler_call : M World unit :=
  λ w, (mkWorld (meshes w) (darrays w) (next_uuid w)
          (use_dummy_value_for_benchmarking w) (S (handler_calls w))
          (memory_queries w), Ok tt).

Definition count_memory_query : M World unit :=
  λ w, (mkWorld (meshes w) (darrays w) (next_uuid w)
          (use_dummy_value_for_benchmarking w) (handler_calls w)
          (S (memory_queries w)), Ok tt).

Definition dummy_flag : M World bool :=
  λ w, (w, Ok (use_dummy_value_for_benchmarking w)).

Definition set_workers (m : Physical.PhysicalDeviceMesh NdArray)
  (ws : list (Worker.MeshHostWorker NdArray))
  : Physical.PhysicalDeviceMesh NdArray :=
  Physical.mkMesh (Physical.use_ray m) (Physical.host_ids m)
    (Physical.host_info m) (Physical.head_ip m)
    (Physical.num_devices_per_host m) (Physical.devices m)
    (Physical.device_strs m) (Some ws) (Physical.launched m).

(** [device_mesh.workers[host_id].method.remote(...)]: the worker is looked
    up on the driver; the method runs on the worker, and an exception it
    raises stays in the discarded object ref. *)
Definition remote_call (device_mesh : nat) (host_id : Z)
  (method : M (Worker.MeshHostWorker NdArray) unit) : M World unit :=
  (m <- get_mesh device_mesh ;;
   match Physical.workers m with
   | None => st_raise TypeError
   | Some ws =>
       pos <- st_lift (py_position (length ws) host_id) ;;
       match ws !! pos with
       | None => st_raise IndexError
       | Some worker =>
           set_mesh device_mesh (set_workers m (<[pos := (method worker).1]> ws))
       end
   end)%py.

(** A shard handed to [_device_mesh_put]: an array, or only a shape and a
    dtype. *)
Inductive Shard :=
  | ShardArray (x : NdArray)
  | ShardAbstract (a : Aval).

Definition shard_shape (s : Shard) : list Z :=
  match s with ShardArray x => np_shape x | ShardAbstract a => aval_shape a end.
Definition shard_dtype (s : Shard) : string :=
  match s with ShardArray x => np_dtype x | ShardAbstract a => aval_dtype a end.

(** [put_buffer] as the worker runs it on a shard: only an array can be
    copied to a device. *)
Definition worker_put_buffer (uuid device_id : Z) (s : Shard)
  : M (Worker.MeshHostWorker NdArray) unit :=
  match s with
  | ShardArray x => Worker.put_buffer uuid device_id x
  | ShardAbstract _ => st_raise TypeError
  end.

(** The two loops of [_device_mesh_put], over the cells [(host_id,
    device_id)] in host-major order. *)
Fixpoint device_mesh_put_loop (device_mesh : nat) (cells : list (Z * Z))
  (shards : list Shard) (pt : Z) (buf_refs : list DArray.RemoteBufferRef)
  : M World (list DArray.RemoteBufferRef) :=
  match cells with
  | [] => st_ret buf_refs
  | (host_id, device_id) :: rest =>
      (shard <- st_lift (py_index shards pt) ;;
       uuid <- fresh_uuid ;;
       let buf_ref :=
         DArray.mkRef device_mesh host_id device_id uuid (shard_dtype shard) in
       dummy <- dummy_flag ;;
       (if dummy : bool
        then remote_call device_mesh host_id
               (Worker.put_non_zero_buffer uuid device_id (shard_shape shard)
                  (shard_dtype shard))
        else remote_call device_mesh host_id
               (worker_put_buffer uuid device_id shard)) ;;
       device_mesh_put_loop device_mesh rest shards (pt + 1)
         (buf_refs ++ [buf_ref]))%py
  end.

(** [[
    def _device_mesh_put(device_mesh, shards):
        buf_refs = []
        pt = 0
        for host_id in range(device_mesh.num_hosts):
            for device_id in range(device_mesh.num_devices_per_host):
                buf_ref = RemoteBufferRef(device_mesh, host_id, device_id,
                                          dtype=shards[pt].dtype)
                if global_config.use_dummy_value_for_benchmarking:
                    device_mesh.workers[host_id].put_non_zero_buffer.remote(
                        buf_ref.uuid, device_id, shards[pt].shape, shards[pt].dtype)
                else:
                    device_mesh.workers[host_id].put_buffer.remote(
                        buf_ref.uuid, device_id, shards[pt])
                buf_refs.append(buf_ref)
                pt += 1
        return buf_refs
    ]] *)
Definition _device_mesh_put (device_mesh : nat) (shards : list Shard)
  : M World (list DArray.RemoteBufferRef) :=
  (m <- get_mesh device_mesh ;;
   let cells :=
     host_id ← py_range (Z.of_nat (Physical.num_hosts m));
     device_id ← py_range (Physical.num_devices_per_host m);
     [(host_id, device_id)] in
   device_mesh_put_loop device_mesh cells shards 0 [])%py.

(** [[
    def get_remote_buffers(self, buf_refs):
        obj_refs = []
        for buf_ref in buf_refs:
            obj_refs.append(self.workers[buf_ref.host_id].get_buffers.remote(
                buf_ref.uuid))
        return ray.get(obj_refs)
    ]]
    The workers are looked up first; [ray.get] then returns the values, or
    raises the first error. *)
Definition get_remote_buffers (self : Physical.PhysicalDeviceMesh NdArray)
  (buf_refs : list DArray.RemoteBufferRef) : res (list NdArray) :=
  match Physical.workers self with
  | None => match buf_refs with [] => Ok [] | _ :: _ => Raise TypeError end
  | Some ws =>
      let? targets :=
        res_map (λ r, let? w := py_index ws (DArray.ref_host_id r) in
                      Ok (w, DArray.ref_uuid r)) buf_refs in
      res_map (λ t : Worker.MeshHostWorker NdArray * Z,
                 let? f := Worker.get_buffers (Worker.One t.2) t.1 in
                 match f with
                 | Worker.FetchedOne b => Ok (Worker.buf_value b)
                 | Worker.FetchedMany _ => Raise TypeError
                 end) targets
  end.

(** [npy_value[self.indices[i]] = fetched_np_buffers[ct]] for the pairs
    [(ct, i)] of [enumerate(self.one_replica_buffer_indices)]. *)
Fixpoint fill_value (idxs : list Index) (fetched : list NdArray) (ct : Z)
  (one : list nat) (npy_value : NdArray) : res NdArray :=
  match one with
  | [] => Ok npy_value
  | i :: rest =>
      let? index := py_index idxs (Z.of_nat i) in
      let? buf := py_index fetched ct in
      fill_value idxs fetched (ct + 1) rest (np_setitem npy_value index buf)
  end.

(** [[
    @property
    def _value(self):
        if self._npy_value is None:
            npy_value = np.empty(self.aval.shape, self.aval.dtype)
            fetched_np_buffers = self.device_mesh.get_remote_buffers([
                self.remote_buffers[i] for i in self.one_replica_buffer_indices
            ])
            for ct, i in enumerate(self.one_replica_buffer_indices):
                npy_value[self.indices[i]] = fetched_np_buffers[ct]
            self._npy_value = npy_value
        return self._npy_value
    ]] *)
Definition _value (id : nat) : M World NdArray :=
  (self <- get_darray id ;;
   match DArray._npy_value self with
   | Some v => st_ret v
   | None =>
       let npy_value := np_empty (aval_shape (DArray.aval self))
                          (aval_dtype (DArray.aval self)) in
       let '(self1, one) :=
         DArray.one_replica_buffer_indices _hashable_index self in
       set_darray id self1 ;;
       refs <- st_lift (res_map (λ i, py_index (DArray.remote_buffers self1)
                                        (Z.of_nat i)) one) ;;
       mesh <- get_mesh (DArray.device_mesh self1) ;;
       fetched <- st_lift (get_remote_buffers mesh refs) ;;
       v <- st_lift (fill_value (DArray.indices self1) fetched 0 one npy_value) ;;
       set_darray id (DArray.cache_value _hashable_index self1 v) ;;
       st_ret v
   end)%py.

(** The arguments [shard_args] can meet, by type. *)
Inductive Arg :=
  | ArgDistributedArray (id : nat)       (* a DistributedArray object *)
  | ArgReplicated (r : Replicated.ReplicatedDistributedArray)
  | ArgNdarray (x : NdArray)             (* one of jax's [array_types] *)
  | ArgAbstract (a : Aval)               (* ShapedArray, ShapeDtypeStruct *)
  | ArgDeviceArray (x : NdArray)         (* xla._DeviceArray, _CppDeviceArray *)
  | ArgOther (canonicalizable : bool).   (* any other object *)

(** [[
    def _shard_array(x, device_mesh, indices):
        return _device_mesh_put(device_mesh, [x[i] for i in indices])
    ]] *)
Definition _shard_array (x : NdArray) (device_mesh : nat) (indices : list Index)
  : M World (list DArray.RemoteBufferRef) :=
  _device_mesh_put device_mesh (map (λ i, ShardArray (np_getitem x i)) indices).

(** The inner loop of [_shard_abstract_array]:
    [[
    for i, s in enumerate(index):
        filled_slice = s.indices(x.shape[i])
        dim_size = len(range( *filled_slice))
        shard_shape.append(dim_size)
    ]] *)
Fixpoint abstract_shard_shape (index : Index) (shape : list Z) : res (list Z) :=
  match index, shape with
  | [], _ => Ok []
  | _ :: _, [] => Raise IndexError
  | IInt _ :: _, _ :: _ => Raise AttributeError
  | ISlice start stop step :: index', n :: shape' =>
      let? filled := slice_indices start stop step n in
      let '(a, b, c) := filled in
      let? rest := abstract_shard_shape index' shape' in
      Ok (range_len a b c :: rest)
  end.

(** [[
    def _shard_abstract_array(x, device_mesh, indices):
        assert global_config.use_dummy_value_for_benchmarking
        shards = []
        for index in indices:
            assert len(index) == len(x.shape)
            ...
            shard = x.__class__(shape=tuple(shard_shape), dtype=x.dtype)
            shards.append(shard)
        return _device_mesh_put(device_mesh, shards)
    ]] *)
Definition _shard_abstract_array (x : Aval) (device_mesh : nat)
  (indices : list Index) : M World (list DArray.RemoteBufferRef) :=
  (dummy <- dummy_flag ;;
   if dummy : bool then
     shards <- st_lift (res_map (λ index : Index,
                 if decide (length index = length (aval_shape x)) then
                   let? shard_shape := abstract_shard_shape index (aval_shape x) in
                   Ok (ShardAbstract (mkAval shard_shape (aval_dtype x)))
                 else Raise AssertionError) indices) ;;
     _device_mesh_put device_mesh shards
   else st_raise AssertionError)%py.

(** [_shard_device_array]: jax's [_as_slice_indices] and [_multi_slice]
    cut the device array at each index; under the benchmarking flag
    [eval_shape] keeps only the shapes and dtypes of the pieces. *)
Definition _shard_device_array (array : NdArray) (device_mesh : nat)
  (indices : list Index) : M World (list DArray.RemoteBufferRef) :=
  (dummy <- dummy_flag ;;
   let pieces := map (np_getitem array) indices in
   if dummy : bool
   then _device_mesh_put device_mesh
          (map (λ p, ShardAbstract (mkAval (np_shape p) (np_dtype p))) pieces)
   else _device_mesh_put device_mesh (map ShardArray pieces))%py.

(** [[
    def _shard_distributed_array(array, device_mesh, indices):
        return shard_arg_handlers[type(array._value)](array._value, device_mesh,
                                                      indices)
    ]]
    [array._value] is a numpy array, whose handler is [_shard_array]. *)
Definition _shard_distributed_array (array : nat) (device_mesh : nat)
  (indices : list Index) : M World (list DArray.RemoteBufferRef) :=
  (_ <- _value array ;;
   v <- _value array ;;
   count_handler_call ;;
   _shard_array v device_mesh indices)%py.

(** [ray.get(self.workers[0].get_memory_allocated.remote())] and its
    [max] sibling: the worker takes a maximum over its local devices. *)
Definition memory_query (self : nat) : M World unit :=
  (m <- get_mesh self ;;
   match Physical.workers m with
   | None => st_raise TypeError
   | Some ws =>
       worker <- st_lift (py_index ws 0) ;;
       count_memory_query ;;
       match Worker.local_devices worker with
       | [] => st_raise ValueError
       | _ :: _ => st_ret tt
       end
   end)%py.

(** [arg.delete()] on a donated argument that has the method. *)
Definition delete_arg (arg : Arg) : M World unit :=
  match arg with
  | ArgDistributedArray id =>
      (a <- get_darray id ;;
       set_darray id (DArray.delete a).1)%py
  | _ => st_ret tt
  end.

(** The slow path of [shard_args] for one argument: two memory queries,
    [xla.canonicalize_dtype] unless the argument is abstract, the handler of
    its type, [arg.delete()] when it is donated, two memory queries. The
    byte count [expected] that the code computes first is not used. *)
Definition slow_path (self : nat) (arg : Arg) (indices : list Index)
  (donated : bool) : M World (list DArray.RemoteBufferRef) :=
  (memory_query self ;;
   memory_query self ;;
   arg <- match arg with
          | ArgNdarray x => st_ret (ArgNdarray (canonicalize_dtype x))
          | ArgOther false => st_raise TypeError
          | _ => st_ret arg
          end ;;
   buf_refs <- match arg with
               | ArgNdarray x =>
                   count_handler_call ;; _shard_array x self indices
               | ArgAbstract a =>
                   count_handler_call ;; _shard_abstract_array a self indices
               | ArgDeviceArray x =>
                   count_handler_call ;; _shard_device_array x self indices
               | ArgDistributedArray id =>
                   count_handler_call ;; _shard_distributed_array id self indices
               | ArgReplicated _ | ArgOther _ =>
                   st_raise (KeyError (KStr "type(arg)"))
               end ;;
   (if donated then delete_arg arg else st_ret tt) ;;
   memory_query self ;;
   memory_query self ;;
   st_ret buf_refs)%py.

(** The body of the loop of [shard_args] in distributed mode:
    [[
    if isinstance(arg, DistributedArray) and arg.indices == indices:
        input_bufs.append(arg.remote_buffers)
    elif isinstance(arg, ReplicatedDistributedArray):
        replica = arg.get_replica_on_mesh(self)
        assert replica.indices == indices
        input_bufs.append(replica.remote_buffers)
    else:  # Slow path
        ...
    ]] *)
Definition shard_arg (self : nat) (arg : Arg) (indices : list Index)
  (donated : bool) : M World (list DArray.RemoteBufferRef) :=
  match arg with
  | ArgDistributedArray id =>
      (a <- get_darray id ;;
       if decide (DArray.indices a = indices)
       then st_ret (DArray.remote_buffers a)
       else slow_path self arg indices donated)%py
  | ArgReplicated r =>
      (rid <- st_lift (Replicated.get_replica_on_mesh r self) ;;
       replica <- get_darray rid ;;
       if decide (DArray.indices replica = indices)
       then st_ret (DArray.remote_buffers replica)
       else st_raise AssertionError)%py
  | _ => slow_path self arg indices donated
  end.

Fixpoint shard_args_loop (self : nat)
  (triples : list (Arg * list Index * bool))
  (input_bufs : list (list DArray.RemoteBufferRef))
  : M World (list (list DArray.RemoteBufferRef)) :=
  match triples with
  | [] => st_ret input_bufs
  | (arg, indices, donated) :: rest =>
      (bufs <- shard_arg self arg indices donated ;;
       shard_args_loop self rest (input_bufs ++ [bufs]))%py
  end.

(** [zip(args, arg_indices, donated_invars)] *)
Definition zip3 {A B C} (xs : list A) (ys : list B) (zs : list C)
  : list (A * B * C) :=
  zip (zip xs ys) zs.

(** [[
    def shard_args(self, arg_indices, donated_invars, args):
        if self.is_distributed:
            input_bufs = []
            for arg, indices, donated in zip(args, arg_indices, donated_invars):
                ...
            return input_bufs
        else:
            return pxla.shard_args(self.devices, arg_indices, args)
    ]]
    Only the distributed mode is embedded: on a single-host mesh the work
    is jax's, and the result here is [None]. *)
Definition shard_args (self : nat) (arg_indices : list (list Index))
  (donated_invars : list bool) (args : list Arg)
  : M World (option (list (list DArray.RemoteBufferRef))) :=
  (m <- get_mesh self ;;
   if Physical.is_distributed m
   then input_bufs <- shard_args_loop self
                        (zip3 args arg_indices donated_invars) [] ;;
        st_ret (Some input_bufs)
   else st_ret None)%py.

(** The buffer map of every worker of every mesh. *)
Definition worker_buffers (w : World)
  : gmap nat (option (list (gmap Z (Worker.DeviceBuffer NdArray)))) :=
  (λ m, fmap (M := list) Worker.buffers <$> Physical.workers m) <$> meshes w.

(** A relation between the world before and after a computation. *)
Definition keeps {A} (P : World → World → Prop)
  (c : M World A) : Prop :=
  ∀ w, P w (c w).1.

(** The array objects are the same. *)
Definition same_darrays (w w' : World) : Prop :=
  darrays w' = darrays w.

(** Every array object is still there, with the same indices and the same
    remote buffers. *)
Definition same_core (w w' : World) : Prop :=
  ∀ id a, darrays w !! id = Some a →
    ∃ a', darrays w' !! id = Some a' ∧
          DArray.indices a' = DArray.indices a ∧
          DArray.remote_buffers a' = DArray.remote_buffers a.

(** The fast path: the argument is a [DistributedArray] object whose stored
    indices are the requested ones. *)
Definition matching (w : World)
  (t : Arg * list Index * bool) : Prop :=
  ∃ id a, t.1.1 = ArgDistributedArray id ∧ darrays w !! id = Some a ∧
          DArray.indices a = t.1.2.

Definition matching_bufs (w : World)
  (t : Arg * list Index * bool)
  : list DArray.RemoteBufferRef :=
  match t.1.1 with
  | ArgDistributedArray id =>
      match darrays w !! id with
      | Some a => DArray.remote_buffers a
      | None => []
      end
  | _ => []
  end.

End Driver.
End Driver.

(** ** The ring bandwidth model, stated over the cells of the grid *)

Module RingModel.

(** The host of the cell [(i, j)] when the hosts, [devices_per_host] cells
    each, are laid row-major over a grid with [s1] columns. *)
Definition host_of (devices_per_host s1 i j : Z) : Z :=
  (i * s1 + j) `div` devices_per_host.

(** The next cell on the ring along [dim]. *)
Definition ring_next (dim : nat) (s0 s1 : Z) (c : Z * Z) : Z * Z :=
  match dim with
  | O => ((c.1 + 1) `mod` s0, c.2)
  | _ => (c.1, (c.2 + 1) `mod` s1)
  end.

(** The inter-host link that leaves the cell [c] along [dim], if any: the
    unordered pair of the two hosts. *)
Definition link_of (dim : nat) (devices_per_host s0 s1 : Z) (c : Z * Z)
  : option (Z * Z) :=
  let a := host_of devices_per_host s1 c.1 c.2 in
  let n := ring_next dim s0 s1 c in
  let b := host_of devices_per_host s1 n.1 n.2 in
  if decide (a ≠ b) then Some (Z.min a b, Z.max a b) else None.

Definition links (dim : nat) (devices_per_host s0 s1 : Z)
  (cells : list (Z * Z)) : list (Z * Z) :=
  omap (link_of dim devices_per_host s0 s1) cells.

(** Every cell of the grid, ring by ring along [dim]. *)
Definition all_cells (dim : nat) (s0 s1 : Z) : list (Z * Z) :=
  match dim with
  | O => j ← seqZ 0 s1; i ← seqZ 0 s0; [(i, j)]
  | _ => i ← seqZ 0 s0; j ← seqZ 0 s1; [(i, j)]
  end.

(** The cells of column 0 (for [dim = 0]) or of row 0 (for [dim = 1]). *)
Definition line_cells (dim : nat) (s0 s1 : Z) : list (Z * Z) :=
  match dim with
  | O => (λ i, (i, 0)) <$> seqZ 0 s0
  | _ => (λ j, (0, j)) <$> seqZ 0 s1
  end.

(** How many of the links [tallied] join the host pair [key]. *)
Definition link_count (tallied : list (Z * Z)) (key : Z * Z) : Z :=
  Z.of_nat (length (filter (λ k, k = key) tallied)).

(** The minimum, from [intra] on, of [inter / link_count] over the links
    [sampled]. *)
Definition ring_bandwidth (tallied sampled : list (Z * Z)) (intra inter : float)
  : float :=
  foldl (λ bandwidth key,
           float_min bandwidth (inter / float_of_Z (link_count tallied key))%float)
        intra sampled.

(** The cost vector [beta] when the links are tallied over the cells
    [tally dim] and the minimum is taken over the line [line_cells dim]. *)
Definition beta_of (tally : nat → list (Z * Z)) (devices_per_host s0 s1 : Z)
  (intra inter : float) : res (list PyNum) :=
  let bw dim :=
    ring_bandwidth (links dim devices_per_host s0 s1 (tally dim))
      (links dim devices_per_host s0 s1 (line_cells dim s0 s1)) intra inter in
  let? beta0 := inverse_bandwidth (Some (bw 0%nat)) in
  let? beta1 := inverse_bandwidth (Some (bw 1%nat)) in
  Ok [beta0; beta1].

(** The links are tallied over the whole grid. *)
Definition beta_whole_grid (devices_per_host s0 s1 : Z) (intra inter : float)
  : res (list PyNum) :=
  beta_of (λ dim, all_cells dim s0 s1) devices_per_host s0 s1 intra inter.

(** The links are tallied over column 0 (row 0) only. *)
Definition beta_line_only (devices_per_host s0 s1 : Z) (intra inter : float)
  : res (list PyNum) :=
  beta_of (λ dim, line_cells dim s0 s1) devices_per_host s0 s1 intra inter.

(** The two hosts that the code compares at the cell [c]. *)
Definition hosts_at (devices_per_host s0 s1 : Z) (dim : nat) (c : Z * Z)
  : Z * Z :=
  (host_of devices_per_host s1 c.1 c.2,
   host_of devices_per_host s1 (ring_next dim s0 s1 c).1
     (ring_next dim s0 s1 c).2).

(** One iteration of the tally, on the hosts of the cell [c]. *)
Definition tally_step (devices_per_host s0 s1 : Z) (dim : nat)
  (ct : gmap (Z * Z) Z) (c : Z * Z) : gmap (Z * Z) Z :=
  link_add ct (hosts_at devices_per_host s0 s1 dim c).1
    (hosts_at devices_per_host s0 s1 dim c).2.

(** The grid that [get_logical_mesh] builds for [hosts] hosts and the
    shape [(s0, s1)]. *)
Definition host_grid (hosts : nat) (devices_per_host s0 s1 : Z)
  : list (list Z) :=
  chunks (Z.to_nat s1) (Z.to_nat s0)
    (concat (map (λ h, replicate (Z.to_nat devices_per_host) h)
               (seqZ 0 (Z.of_nat hosts)))).

End RingModel.

(** ** A small numpy, for closed examples *)

(** One-dimensional integer arrays as lists; an index [a:b] cuts and pastes
    the positions from [a] to [b]. *)
Module Numpy1D.

Definition getitem (x : list Z) (index : Index) : list Z :=
  match index with
  | [ISlice (Some a) (Some b) _] => take (Z.to_nat (b - a)) (drop (Z.to_nat a) x)
  | _ => x
  end.

Definition setitem (x : list Z) (index : Index) (v : list Z) : list Z :=
  match index with
  | [ISlice (Some a) (Some b) _] => take (Z.to_nat a) x ++ v ++ drop (Z.to_nat b) x
  | _ => v
  end.

Definition filled (shape : list Z) : list Z :=
  replicate (Z.to_nat (foldr Z.mul 1 shape)) 0.

#[global] Instance numpy_1d : Numpy (list Z) := {|
  np_getitem := getitem;
  np_setitem := setitem;
  np_empty shape _ := filled shape;
  np_full shape _ _ := filled shape;
  np_shape x := [Z.of_nat (length x)];
  np_dtype _ := "int64";
  canonicalize_dtype x := x;
|}.

(** A worker of a two-host mesh with two devices and no buffer. *)
Definition worker0 : Worker.MeshHostWorker (list Z) :=
  Worker.mkWorker 2 0 [Worker.GpuDevice 0; Worker.GpuDevice 1] ∅.

End Numpy1D.

(** ** Objects for closed examples *)

Module Examples.

(** A worker holding the buffers 1 and 2. *)
Definition worker12 : Worker.MeshHostWorker (list Z) :=
  Worker.mkWorker 2 0 [Worker.GpuDevice 0]
    (<[1 := Worker.mkDeviceBuffer (Worker.GpuDevice 0) [10]]>
       (<[2 := Worker.mkDeviceBuffer (Worker.GpuDevice 0) [20]]> ∅)).

(** Four shard indices: [idxB] differs from [idxA] in the step only, so
    jax hashes them alike. *)
Definition idxA : Index := [ISlice (Some 0) (Some 2) None].
Definition idxB : Index := [ISlice (Some 0) (Some 2) (Some 1)].
Definition idxA' : Index := [ISlice (Some 2) (Some 4) None].
Definition idxC : Index := [ISlice (Some 4) (Some 6) None].

Definition aval6 : Aval := mkAval [6] "int64".

(** The array of these four indices, after a first access to
    [one_replica_buffer_indices] and a [delete()]. *)
Definition accessed_array : DArray.DistributedArray (list Z) :=
  (DArray.delete
     (DArray.one_replica_buffer_indices DArray.jax_hashable_index
        (DArray.__init__ 0 aval6 0 [] [idxA; idxB; idxA'; idxC])).1).1.

(** A distributed array on mesh 0 with one remote buffer and a cached
    host value. *)
Definition ref7 : DArray.RemoteBufferRef := DArray.mkRef 0 0 0 7 "int64".
Definition cached_array : DArray.DistributedArray (list Z) :=
  DArray.mkDArray 0 aval6 0 [ref7] [[ISlice (Some 0) (Some 6) None]]
    (Some [1; 2; 3; 4; 5; 6]) None DArray.AttrAbsent.

(** Two hosts and their descriptors. *)
Definition host_info2 : list (gmap string string) :=
  [ {[ "NodeManagerAddress" := "10.0.0.1" ]};
    {[ "NodeManagerAddress" := "10.0.0.2" ]} ].

(** [VirtualPhysicalMesh(host_ids=[0, 1], host_info=host_info2,
    head_ip="10.0.0.1", num_devices_per_host=2)] *)
Definition vmesh22 : res Virtual.VirtualPhysicalMesh :=
  Virtual.__init__ (Some [0; 1]) (Some host_info2) (Some "10.0.0.1") 2 None.

(** The object that [vmesh22] builds. *)
Definition vmesh22_obj : Virtual.VirtualPhysicalMesh :=
  Virtual.mkVMesh [0; 1] (Some host_info2) (Some "10.0.0.1") 2
    [[0; 1]; [0; 1]]
    ["10.0.0.1:gpu:0"; "10.0.0.1:gpu:1"; "10.0.0.1:gpu:0"; "10.0.0.1:gpu:1";
     "10.0.0.2:gpu:0"; "10.0.0.2:gpu:1"; "10.0.0.2:gpu:0"; "10.0.0.2:gpu:1"].

(** A cluster mesh of two hosts with one device each, as mesh object 0 of a
    driver that has not put any buffer yet. *)
Definition mesh21 : Physical.PhysicalDeviceMesh (list Z) :=
  Physical.mkMesh true [0; 1] (Some host_info2) (Some "10.0.0.1") 1
    (Physical.HostDeviceIds [[0]; [0]])
    ["10.0.0.1:gpu:0"; "10.0.0.1:gpu:0"; "10.0.0.2:gpu:0"; "10.0.0.2:gpu:0"]
    (Some (Physical.launch_workers 2 1)) true.

(** A cluster mesh of two hosts with two devices each. *)
Definition mesh22 : Physical.PhysicalDeviceMesh (list Z) :=
  Physical.mkMesh true [0; 1] (Some host_info2) (Some "10.0.0.1") 2
    (Physical.HostDeviceIds [[0; 1]; [0; 1]])
    ["10.0.0.1:gpu:0"; "10.0.0.1:gpu:1"; "10.0.0.1:gpu:0"; "10.0.0.1:gpu:1";
     "10.0.0.2:gpu:0"; "10.0.0.2:gpu:1"; "10.0.0.2:gpu:0"; "10.0.0.2:gpu:1"]
    (Some (Physical.launch_workers 2 2)) true.

Definition world0 : Driver.World (NdArray := list Z) :=
  Driver.mkWorld {[ 0%nat := mesh21 ]} ∅ 100 false 0 0.

Definition idx03 : Index := [ISlice (Some 0) (Some 3) None].
Definition idx36 : Index := [ISlice (Some 3) (Some 6) None].

(** The array [1, ..., 6] sharded over the two devices at the indices
    [0:3] and [3:6], and the [DistributedArray] object 5 that wraps the
    resulting buffers. *)
Definition world1 : Driver.World (NdArray := list Z) :=
  match Driver._shard_array [1; 2; 3; 4; 5; 6] 0 [idx03; idx36] world0 with
  | (w, Ok refs) =>
      (Driver.set_darray 5 (DArray.__init__ 0 aval6 0 refs [idx03; idx36]) w).1
  | (w, Raise _) => w
  end.

Definition ref100 : DArray.RemoteBufferRef := DArray.mkRef 0 0 0 100 "int64".
Definition ref101 : DArray.RemoteBufferRef := DArray.mkRef 0 1 0 101 "int64".

(** Object 5 of [world1], and mesh 0 as it is in [world1] (its workers hold
    the two buffers). *)
Definition array5 : DArray.DistributedArray (list Z) :=
  DArray.__init__ 0 aval6 0 [ref100; ref101] [idx03; idx36].

Definition mesh_in_world1 : Physical.PhysicalDeviceMesh (list Z) :=
  default mesh21 (Driver.meshes world1 !! 0%nat).

(** A call of [shard_args] with a host array (slow path) and then object 5
    at its own indices. *)
Definition mixed_call
  : Driver.World (NdArray := list Z)
    * res (option (list (list DArray.RemoteBufferRef))) :=
  Driver.shard_args DArray.jax_hashable_index 0
    [[idx36; idx03]; [idx03; idx36]] [false; false]
    [Driver.ArgNdarray [1; 2; 3; 4; 5; 6]; Driver.ArgDistributedArray 5]
    world1.

Definition mixed_out : list (list DArray.RemoteBufferRef) :=
  match mixed_call.2 with
  | Ok (Some out) => out
  | _ => []
  end.

(** The heap with [cached_array] as object 5. *)
Definition heap5 : gmap nat (DArray.DistributedArray (list Z)) :=
  {[ 5%nat := cached_array ]}.

End Examples.

(** ** MeshHostWorker: waiting for buffers *)

Module WorkerReady.
Section WorkerReady.
Context `{Numpy NdArray}.

(** [self.buffers[uuid].block_until_ready()]: the lookup may raise; the
    wait itself changes nothing. *)
Definition buffer_block_until_ready (uuid : Z)
  : M (Worker.MeshHostWorker NdArray) unit :=
  λ w, match Worker.buffers_getitem w uuid with
       | Ok _ => (w, Ok tt)
       | Raise e => (w, Raise e)
       end.

(** [[
    def block_until_ready_buffers(self, uuids):
        if isinstance(uuids, Iterable):
            for uuid in uuids:
                self.buffers[uuid].block_until_ready()
        else:
            self.buffers[uuids].block_until_ready()
    ]] *)
Definition block_until_ready_buffers (uuids : Worker.Uuids)
  : M (Worker.MeshHostWorker NdArray) unit :=
  match uuids with
  | Worker.Many us => st_for us buffer_block_until_ready
  | Worker.One u => buffer_block_until_ready u
  end.

End WorkerReady.
End WorkerReady.

(** ** PhysicalDeviceMesh: addresses, launch and shutdown *)

Module PhysicalOps.
Section PhysicalOps.
Context `{Numpy NdArray}.

(** [[
    @property
    def host_ips(self):
        ips = [
            self.host_info[i]["NodeManagerAddress"]
            for i, _ in enumerate(self.host_ids)
        ]
        return ips
    ]] *)
Definition host_ips (self : Physical.PhysicalDeviceMesh NdArray)
  : res (list string) :=
  res_map (host_ip_at (Physical.host_info self))
    (seq 0 (length (Physical.host_ids self))).

Definition set_workers_launched (self : Physical.PhysicalDeviceMesh NdArray)
  (workers : option (list (Worker.MeshHostWorker NdArray))) (launched : bool)
  : Physical.PhysicalDeviceMesh NdArray :=
  Physical.mkMesh (Physical.use_ray self) (Physical.host_ids self)
    (Physical.host_info self) (Physical.head_ip self)
    (Physical.num_devices_per_host self) (Physical.devices self)
    (Physical.device_strs self) workers launched.

(** [[
    def sync_workers(self):
        if self.is_distributed:
            ray.get([w.sync.remote() for w in self.workers])
        else:
            for device in self.devices:
                device.synchronize_all_activity()
    ]]
    Synchronising a worker or a device changes nothing; what can fail is the
    iteration over [self.workers] when it is [None], and the method call on
    an entry of [self.devices] that is a list of ids. *)
Definition sync_workers (self : Physical.PhysicalDeviceMesh NdArray) : res unit :=
  if Physical.is_distributed self then
    match Physical.workers self with
    | None => Raise TypeError
    | Some _ => Ok tt
    end
  else
    match Physical.devices self with
    | Physical.LocalDevices _ | Physical.HostDeviceIds [] => Ok tt
    | Physical.HostDeviceIds (_ :: _) => Raise AttributeError
    end.

(** The worker that the loop of [_launch_xla_servers] starts on host [i]:
    [[
    cls = ray.remote(num_gpus=self.num_devices_per_host,
                     resources={node_resource: 1e-3})(MeshHostWorker)
    worker = cls.options(...).remote(self.server_address, self.num_hosts, i)
    ]]
    as [Physical.launch_workers] has it: no buffer, and the
    [num_devices_per_host] devices that ray assigns. *)
Definition new_worker (self : Physical.PhysicalDeviceMesh NdArray) (i : nat)
  : Worker.MeshHostWorker NdArray :=
  Worker.mkWorker (Z.of_nat (Physical.num_hosts self)) (Z.of_nat i)
    (map Worker.GpuDevice
       (seq 0 (Z.to_nat (Physical.num_devices_per_host self)))) ∅.

(** One iteration of the loop: the address of host [i] is read for the
    node resource, and the new worker is appended to [self.workers]. *)
Definition launch_worker (i : nat) : M (Physical.PhysicalDeviceMesh NdArray) unit :=
  λ self,
    match host_ip_at (Physical.host_info self) i with
    | Raise e => (self, Raise e)
    | Ok _ =>
        match Physical.workers self with
        | None => (self, Raise AttributeError)
        | Some ws =>
            (set_workers_launched self (Some (ws ++ [new_worker self i]))
               (Physical.launched self), Ok tt)
        end
    end.

(** [[
    def _launch_xla_servers(self):
        ...                               # port, gRPC service
        self.workers = []
        for i in range(self.num_hosts):
            ...
            node_resource = "node:" + self.host_info[i]["NodeManagerAddress"]
            ...
            self.workers.append(worker)
        self.sync_workers()
        self.launched = True
    ]]
    The port draw and the gRPC service are outside this embedding. *)
Definition _launch_xla_servers : M (Physical.PhysicalDeviceMesh NdArray) unit :=
  ((λ self, (set_workers_launched self (Some []) (Physical.launched self), Ok tt)) ;;
   (λ self, st_for (seq 0 (Physical.num_hosts self)) launch_worker self) ;;
   (λ self, (self, sync_workers self)) ;;
   (λ self, (set_workers_launched self (Physical.workers self) true, Ok tt)))%py.

(** [[
    def launch_xla_servers(self):
        assert not self.launched
        self._launch_xla_servers()
    ]] *)
Definition launch_xla_servers : M (Physical.PhysicalDeviceMesh NdArray) unit :=
  λ self, if Physical.launched self then (self, Raise AssertionError)
          else _launch_xla_servers self.

(** [[
    def shutdown(self, forced=False):
        if self.is_distributed:
            if not self.launched:
                return
            if not forced:
                ray.get([w.shutdown.remote() for w in self.workers])
            for worker in self.workers:
                ray.kill(worker)
            self.workers = None
            # shutdown grpc server
            self.service_server.shutdown()
            self.service_server = None
            self.launched = False
        else:
            self.sync_workers()
    ]]
    A worker that shuts down drops its buffers and is then killed; the
    driver keeps no handle to it. *)
Definition shutdown (forced : bool) : M (Physical.PhysicalDeviceMesh NdArray) unit :=
  λ self,
    if Physical.is_distributed self then
      if negb (Physical.launched self) then (self, Ok tt)
      else match Physical.workers self with
           | None => (self, Raise TypeError)
           | Some _ => (set_workers_launched self None false, Ok tt)
           end
    else (self, sync_workers self).

(** [[
    def block_until_ready_remote_buffers(self, buf_refs):
        tasks = []
        for buf_ref in buf_refs:
            tasks.append(
                self.workers[buf_ref.host_id].block_until_ready_buffers.remote(
                    buf_ref.uuid))
        ray.get(tasks)
    ]]
    As in [Driver.get_remote_buffers], the workers are looked up first and
    [ray.get] raises the first error of the tasks. *)
Definition block_until_ready_remote_buffers
  (self : Physical.PhysicalDeviceMesh NdArray)
  (buf_refs : list DArray.RemoteBufferRef) : res unit :=
  match Physical.workers self with
  | None => match buf_refs with [] => Ok tt | _ :: _ => Raise TypeError end
  | Some ws =>
      let? targets :=
        res_map (λ r, let? w := py_index ws (DArray.ref_host_id r) in
                      Ok (w, DArray.ref_uuid r)) buf_refs in
      let? _ :=
        res_map (λ t : Worker.MeshHostWorker NdArray * Z,
                   (WorkerReady.block_until_ready_buffers (Worker.One t.2) t.1).2)
                targets in
      Ok tt
  end.

End PhysicalOps.
End PhysicalOps.

(** ** The driver: deleting remote buffers, and output arrays *)

Module RemoteOps.
Section RemoteOps.
Context `{Numpy NdArray}.

(** [[
    def delete_remote_buffers(self, buf_refs):
        if not ray:
            return
        if self.workers is None or not ray.is_initialized():
            return
        for buf_ref in buf_refs:
            self.workers[buf_ref.host_id].delete_buffers.remote(buf_ref.uuid)
    ]]
    [ray] is the imported module, which is true; [ray_is_initialized] is
    what [ray.is_initialized()] answers. The calls are not awaited: an
    exception of [delete_buffers] stays on the worker (see
    [Driver.remote_call]). *)
Definition delete_remote_buffers (ray_is_initialized : bool) (self : nat)
  (buf_refs : list DArray.RemoteBufferRef)
  : M (Driver.World (NdArray := NdArray)) unit :=
  (m <- Driver.get_mesh self ;;
   match Physical.workers m with
   | None => st_ret tt
   | Some _ =>
       if negb ray_is_initialized then st_ret tt
       else st_for buf_refs (λ buf_ref,
              Driver.remote_call self (DArray.ref_host_id buf_ref)
                (Worker.delete_buffers (Worker.One (DArray.ref_uuid buf_ref))))
   end)%py.

(** [[
    def block_until_ready(self):
        self.device_mesh.block_until_ready_remote_buffers(self.remote_buffers)
    ]]
    of [DistributedArray], for the array object [id]. *)
Definition block_until_ready (id : nat)
  : M (Driver.World (NdArray := NdArray)) unit :=
  (self <- Driver.get_darray id ;;
   mesh <- Driver.get_mesh (DArray.device_mesh self) ;;
   st_lift (PhysicalOps.block_until_ready_remote_buffers mesh
              (DArray.remote_buffers self)))%py.

(** [array.delete()] on the array object [id]. *)
Definition delete (id : nat) : M (Driver.World (NdArray := NdArray)) unit :=
  (self <- Driver.get_darray id ;;
   Driver.set_darray id (DArray.delete self).1)%py.

(** The buffer that the worker at position [pos] of a list of workers
    holds under [uuid], and the local devices of that worker. *)
Definition buffer_of (ws : list (Worker.MeshHostWorker NdArray)) (pos : nat)
  (uuid : Z) : option (Worker.DeviceBuffer NdArray) :=
  worker ← ws !! pos; Worker.buffers worker !! uuid.

Definition devices_of (ws : list (Worker.MeshHostWorker NdArray)) (pos : nat)
  : option (list Worker.Device) :=
  Worker.local_devices <$> ws !! pos.

(** The workers of the mesh object [self], and the buffer that the worker
    at position [pos] holds under [uuid]. *)
Definition mesh_workers (w : Driver.World (NdArray := NdArray)) (self : nat)
  : list (Worker.MeshHostWorker NdArray) :=
  match Driver.meshes w !! self with
  | Some m => default [] (Physical.workers m)
  | None => []
  end.

Definition buffer_at (w : Driver.World (NdArray := NdArray)) (self pos : nat)
  (uuid : Z) : option (Worker.DeviceBuffer NdArray) :=
  buffer_of (mesh_workers w self) pos uuid.

(** The world [w] with the workers of the mesh [m], its object [self],
    replaced by [ws], and the uuid counter set to [uuid]. *)
Definition with_workers (w : Driver.World (NdArray := NdArray)) (self : nat)
  (m : Physical.PhysicalDeviceMesh NdArray)
  (ws : list (Worker.MeshHostWorker NdArray)) (uuid : Z)
  : Driver.World (NdArray := NdArray) :=
  Driver.mkWorld (<[self := Driver.set_workers m ws]> (Driver.meshes w))
    (Driver.darrays w) uuid (Driver.use_dummy_value_for_benchmarking w)
    (Driver.handler_calls w) (Driver.memory_queries w).

(** A worker method that touches no buffer but the one of [uuid]. *)
Definition touches_only (uuid : Z)
  (method : M (Worker.MeshHostWorker NdArray) unit) : Prop :=
  ∀ worker,
    Worker.local_devices (method worker).1 = Worker.local_devices worker ∧
    ∀ u, u ≠ uuid →
         Worker.buffers (method worker).1 !! u = Worker.buffers worker !! u.

(** The cells [(host_id, device_id)] of a mesh of [num_hosts] hosts, in the
    order of the two loops of [_device_mesh_put]. *)
Definition mesh_cells (num_hosts : nat) (num_devices_per_host : Z)
  : list (Z * Z) :=
  host_id ← py_range (Z.of_nat num_hosts);
  device_id ← py_range num_devices_per_host;
  [(host_id, device_id)].

Section Outputs.
(** [pxla.spec_to_indices] is jax's; the development is parametric in it. *)
Variable spec_to_indices : list Z → nat → list Index.

(** [[
    def outs_handler(bufs):
        ret = []
        for i, _ in enumerate(avals):
            dis_array = DistributedArray(
                device_mesh=self,
                aval=avals[i],
                sharding_spec=sharding_specs[i],
                remote_buffers=bufs[i],
                indices=indices[i])
            ret.append(dis_array)
        return ret
    ]] *)
Definition outs_handler (self : nat) (avals : list Aval)
  (sharding_specs : list nat) (indices : list (list Index))
  (bufs : list (list DArray.RemoteBufferRef))
  : res (list (DArray.DistributedArray NdArray)) :=
  res_map (λ i : nat,
             let? aval := py_index avals (Z.of_nat i) in
             let? sharding_spec := py_index sharding_specs (Z.of_nat i) in
             let? remote_buffers := py_index bufs (Z.of_nat i) in
             let? index := py_index indices (Z.of_nat i) in
             Ok (DArray.__init__ self aval sharding_spec remote_buffers index))
          (seq 0 (length avals)).

(** The list [indices] of [get_outputs_handler]:
    [[
    [pxla.spec_to_indices(aval.shape, spec)
     for aval, spec in zip(avals, sharding_specs)]
    ]] *)
Definition output_indices (avals : list Aval) (sharding_specs : list nat)
  : list (list Index) :=
  map (λ p : Aval * nat, spec_to_indices (aval_shape p.1) p.2)
      (zip avals sharding_specs).

(** [[
    def get_outputs_handler(self, avals, sharding_specs):
        if self.is_distributed:
            indices = [
                pxla.spec_to_indices(aval.shape, spec)
                for aval, spec in zip(avals, sharding_specs)
            ]

            def outs_handler(bufs):
                ...
        else:
            outs_handler = pxla.local_avals_to_results_handler(
                sharding_specs, avals)
        return outs_handler
    ]]
    Only the distributed mode is embedded; [self] is the identity of the
    mesh object [m]. *)
Definition get_outputs_handler (self : nat)
  (m : Physical.PhysicalDeviceMesh NdArray) (avals : list Aval)
  (sharding_specs : list nat)
  : option (list (list DArray.RemoteBufferRef)
            → res (list (DArray.DistributedArray NdArray))) :=
  if Physical.is_distributed m then
    let indices := output_indices avals sharding_specs in
    Some (outs_handler self avals sharding_specs indices)
  else None.

End Outputs.

(** The world after the array objects [arrays] were stored under the
    identities [ids]. *)
Definition store_arrays (ids : list nat)
  (arrays : list (DArray.DistributedArray NdArray))
  (w : Driver.World (NdArray := NdArray)) : Driver.World (NdArray := NdArray) :=
  foldl (λ w p, (Driver.set_darray p.1 p.2 w).1) w (zip ids arrays).



End RemoteOps.
End RemoteOps.

(** ** VirtualPhysicalMesh: slicing along one dimension, conversion *)

Module VirtualOps.

(** The argument [indices] of [slice_1d]: host positions for [dim = 0],
    one list of device ids per host otherwise. *)
Inductive SliceIndices :=
  | HostIndices (xs : list Z)
  | DeviceIndices (rows : list (list Z)).

(** [[
    def slice_1d(self, dim, indices):
        if dim == 0:
            # slicing along the host dimension
            host_ids = [self.host_ids[x] for x in indices]
            host_info = [self.host_info[x] for x in host_ids]
            return VirtualPhysicalMesh(
                host_ids=host_ids,
                host_info=host_info,
                head_ip=self.head_ip,
                num_devices_per_host=self.num_devices_per_host)
        else:
            # slicing along the device dimension
            return VirtualPhysicalMesh(host_ids=self.host_ids,
                                       host_info=self.host_info,
                                       head_ip=self.head_ip,
                                       num_devices_per_host=len(indices[0]),
                                       devices=indices)
    ]]
    A list used as a list index, and [len] of an integer, raise
    [TypeError]. *)
Definition slice_1d (self : Virtual.VirtualPhysicalMesh) (dim : Z)
  (indices : SliceIndices) : res Virtual.VirtualPhysicalMesh :=
  if decide (dim = 0) then
    match indices with
    | HostIndices xs =>
        let? host_ids := res_map (py_index (Virtual.host_ids self)) xs in
        let? host_info := res_map (Virtual.host_info_at self) host_ids in
        Virtual.__init__ (Some host_ids) (Some host_info) (Virtual.head_ip self)
          (Virtual.num_devices_per_host self) None
    | DeviceIndices [] =>
        Virtual.__init__ (Some []) (Some []) (Virtual.head_ip self)
          (Virtual.num_devices_per_host self) None
    | DeviceIndices (_ :: _) => Raise TypeError
    end
  else
    match indices with
    | DeviceIndices rows =>
        let? first := py_index rows 0 in
        Virtual.__init__ (Some (Virtual.host_ids self)) (Virtual.host_info self)
          (Virtual.head_ip self) (Z.of_nat (length first)) (Some rows)
    | HostIndices [] => Raise IndexError
    | HostIndices (_ :: _) => Raise TypeError
    end.

(** [[
    def get_physical_mesh(self):
        return PhysicalDeviceMesh(
            host_ids=self.host_ids,
            host_info=self.host_info,
            head_ip=self.head_ip,
            num_devices_per_host=self.num_devices_per_host,
            devices=self.device_ids,
            use_ray=True)
    ]]
    where [device_ids] is [self.devices]. *)
Definition get_physical_mesh `{Numpy NdArray} (self : Virtual.VirtualPhysicalMesh)
  : res (Physical.PhysicalDeviceMesh NdArray) :=
  Physical.__init__ (Some (Physical.HostDeviceIds (Virtual.devices self)))
    (Some (Virtual.host_ids self)) (Virtual.host_info self)
    (Virtual.head_ip self) (Virtual.num_devices_per_host self) true.

(** [[
    def get_1d_logical_mesh(self):
        return self.get_logical_mesh((1, self.num_devices))
    ]] *)
Definition get_1d_logical_mesh (self : Virtual.VirtualPhysicalMesh)
  : res (LogicalDeviceMesh Virtual.VirtualPhysicalMesh) :=
  Virtual.get_logical_mesh self (1, Z.of_nat (Virtual.num_devices self))
    None None.

End VirtualOps.

(** ** DeviceCluster *)

Module Cluster.

(** The object that [DeviceCluster.__init__] builds from the nodes of the
    ray cluster: the address of the head node, the descriptors of the
    hosts, and the number of GPUs of each host. *)
Record DeviceCluster := mkCluster {
  head_ip : string;
  host_info : list (gmap string string);
  num_devices : list Z;
}.

(** [host_ids or np.arange(len(self.host_info))]: [None] and the empty
    list are false. *)
Definition hosts_or_all (self : DeviceCluster) (host_ids : option (list Z))
  : list Z :=
  match host_ids with
  | None | Some [] => py_range (Z.of_nat (length (host_info self)))
  | Some (x :: xs) => x :: xs
  end.

(** [num_devices_per_host or self.num_devices[host_ids[0]]]: [None] and 0
    are false. *)
Definition devices_or_first (self : DeviceCluster) (host_ids : list Z)
  (num_devices_per_host : option Z) : res Z :=
  match num_devices_per_host with
  | None | Some 0 =>
      let? first := py_index host_ids 0 in
      py_index (num_devices self) first
  | Some n => Ok n
  end.

(** [[
    for host_id in host_ids:
        assert self.num_devices[host_id] >= num_devices_per_host
    ]] *)
Definition check_host (self : DeviceCluster) (num_devices_per_host : Z)
  (_ : unit) (host_id : Z) : res unit :=
  let? n := py_index (num_devices self) host_id in
  if decide (n >= num_devices_per_host) then Ok tt else Raise AssertionError.

(** The part that [get_physical_mesh] and [get_virtual_physical_mesh]
    share:
    [[
    host_ids = host_ids or np.arange(len(self.host_info))
    host_info = [self.host_info[x] for x in host_ids]

    num_devices_per_host = num_devices_per_host or self.num_devices[
        host_ids[0]]
    for host_id in host_ids:
        assert self.num_devices[host_id] >= num_devices_per_host
    ]] *)
Definition select (self : DeviceCluster) (host_ids : option (list Z))
  (num_devices_per_host : option Z)
  : res (list Z * list (gmap string string) * Z) :=
  let host_ids := hosts_or_all self host_ids in
  let? host_info := res_map (py_index (host_info self)) host_ids in
  let? num_devices_per_host :=
    devices_or_first self host_ids num_devices_per_host in
  let? _ := res_fold (check_host self num_devices_per_host) host_ids tt in
  Ok (host_ids, host_info, num_devices_per_host).

(** [[
    def get_physical_mesh(self, host_ids=None, num_devices_per_host=None):
        ...
        return PhysicalDeviceMesh(host_ids=host_ids,
                                  host_info=host_info,
                                  num_devices_per_host=num_devices_per_host,
                                  head_ip=self.head_ip,
                                  use_ray=True)
    ]] *)
Definition get_physical_mesh `{Numpy NdArray} (self : DeviceCluster)
  (host_ids : option (list Z)) (num_devices_per_host : option Z)
  : res (Physical.PhysicalDeviceMesh NdArray) :=
  let? s := select self host_ids num_devices_per_host in
  Physical.__init__ None (Some s.1.1) (Some s.1.2) (Some (head_ip self)) s.2 true.

(** [[
    def get_virtual_physical_mesh(self, host_ids=None,
                                  num_devices_per_host=None):
        ...
        return VirtualPhysicalMesh(host_ids=host_ids,
                                   host_info=host_info,
                                   num_devices_per_host=num_devices_per_host,
                                   head_ip=self.head_ip)
    ]] *)
Definition get_virtual_physical_mesh (self : DeviceCluster)
  (host_ids : option (list Z)) (num_devices_per_host : option Z)
  : res Virtual.VirtualPhysicalMesh :=
  let? s := select self host_ids num_devices_per_host in
  Virtual.__init__ (Some s.1.1) (Some s.1.2) (Some (head_ip self)) s.2 None.

End Cluster.

(** ** More objects for closed examples *)

Module Examples2.

(** A virtual mesh whose two hosts are listed as [[1, 0]]: host 1 comes
    first, with the descriptor of address 10.0.0.1. *)
Definition vmesh_swapped : Virtual.VirtualPhysicalMesh :=
  Virtual.mkVMesh [1; 0] (Some Examples.host_info2) (Some "10.0.0.1") 2
    [[0; 1]; [0; 1]] (Virtual.device_strs Examples.vmesh22_obj).

(** The mesh of host 1 alone, described by the address 10.0.0.2. *)
Definition vmesh_host1 : Virtual.VirtualPhysicalMesh :=
  Virtual.mkVMesh [1] (Some [ {[ "NodeManagerAddress" := "10.0.0.2" ]} ])
    (Some "10.0.0.1") 2 [[0; 1]] ["10.0.0.2:gpu:0"; "10.0.0.2:gpu:1"].

(** A cluster of three hosts with 4, 2 and 4 GPUs. *)
Definition host_info3 : list (gmap string string) :=
  [ {[ "NodeManagerAddress" := "10.0.0.1" ]};
    {[ "NodeManagerAddress" := "10.0.0.2" ]};
    {[ "NodeManagerAddress" := "10.0.0.3" ]} ].

Definition cluster3 : Cluster.DeviceCluster :=
  Cluster.mkCluster "10.0.0.1" host_info3 [4; 2; 4].

(** [cluster3.get_virtual_physical_mesh(host_ids=[2, 0])]: the hosts 2 and
    0, with the four devices of host 2 each. *)
Definition vmesh_hosts_2_0 : Virtual.VirtualPhysicalMesh :=
  Virtual.mkVMesh [2; 0]
    (Some [ {[ "NodeManagerAddress" := "10.0.0.3" ]};
            {[ "NodeManagerAddress" := "10.0.0.1" ]} ])
    (Some "10.0.0.1") 4 [[0; 1; 2; 3]; [0; 1; 2; 3]]
    (flat_map (λ ip, map (λ d, device_id_to_str ip d "gpu")
                       [0; 1; 2; 3; 0; 1; 2; 3])
       ["10.0.0.3"; "10.0.0.1"]).

(** The single-host mesh of four local devices. *)
Definition mesh_local4 : Physical.PhysicalDeviceMesh (list Z) :=
  Physical.mkMesh false [0] None (Some "127.0.0.1") 4
    (Physical.LocalDevices
       [Worker.GpuDevice 0; Worker.GpuDevice 1;
        Worker.GpuDevice 2; Worker.GpuDevice 3])
    ["127.0.0.1:gpu:0"; "127.0.0.1:gpu:1"; "127.0.0.1:gpu:2"; "127.0.0.1:gpu:3"]
    None false.

End Examples2.

(** * Properties *)

(** ** Python lists and folds *)

Lemma py_index_lookup {A} (l : list A) (i : nat) (x : A) :
  l !! i = Some x → py_index l (Z.of_nat i) = Ok x.
Proof.
  intros Hl. unfold py_index.
  pose proof (lookup_lt_Some _ _ _ Hl) as Hlt.
  rewrite decide_True by lia.
  by rewrite Nat2Z.id, Hl.
Qed.

Lemma py_index_nonneg {A} (l : list A) (i : Z) (x : A) :
  0 ≤ i → l !! Z.to_nat i = Some x → py_index l i = Ok x.
Proof.
  intros Hi Hl. rewrite <- (Z2Nat.id i) by done. by apply py_index_lookup.
Qed.

(** A fold whose steps do not raise on the elements of the list is a plain
    left fold. *)
Lemma res_fold_pure {A B} (f : B → A → res B) (g : B → A → B) (l : list A) (b : B) :
  (∀ x b', x ∈ l → f b' x = Ok (g b' x)) →
  res_fold f l b = Ok (foldl g b l).
Proof.
  revert b. induction l as [|x l IH]; intros b Hf; simpl; [done|].
  rewrite Hf by left. simpl. apply IH. intros y b' Hy. apply Hf. by right.
Qed.

Lemma res_map_pure {A B} (f : A → res B) (g : A → B) (l : list A) :
  (∀ x, x ∈ l → f x = Ok (g x)) → res_map f l = Ok (map g l).
Proof.
  induction l as [|x l IH]; intros Hf; simpl; [done|].
  rewrite Hf by left. simpl. rewrite IH; [done|].
  intros y Hy. apply Hf. by right.
Qed.

(** ** MeshHostWorker *)

Module WorkerFacts.
Section WorkerFacts.
Context `{Numpy NdArray}.
Implicit Types (w : Worker.MeshHostWorker NdArray) (u d : Z) (X : NdArray).

Import Worker.

Lemma buffers_set_buffers w b : buffers (set_buffers w b) = b.
Proof. done. Qed.

Lemma set_buffers_id w : set_buffers w (buffers w) = w.
Proof. by destruct w. Qed.

Lemma put_buffer_fresh w u d X dev :
  buffers w !! u = None →
  py_index (local_devices w) d = Ok dev →
  put_buffer u d X w
  = (set_buffers w (<[u := buffer_from_pyval X dev]> (buffers w)), Ok tt).
Proof.
  intros Hu Hd. unfold put_buffer. rewrite Hu, Hd.
  rewrite decide_False; [done | by intros [? ?]].
Qed.

Lemma put_buffer_present w u d X :
  is_Some (buffers w !! u) → put_buffer u d X w = (w, Raise AssertionError).
Proof. intros Hu. unfold put_buffer. by rewrite decide_True. Qed.

Lemma delitem_absent_after w u :
  buffers (buffers_delitem u w).1 !! u = None.
Proof.
  unfold buffers_delitem. destruct (buffers w !! u) eqn:E; simpl; [|done].
  apply lookup_delete_eq.
Qed.

Lemma get_buffers_absent w u :
  buffers w !! u = None →
  get_buffers (One u) w = Raise (KeyError (KInt u)) ∧
  get_buffers (Many [u]) w = Raise (KeyError (KInt u)).
Proof.
  intros Hu. unfold get_buffers, get_buffers_list, buffers_getitem.
  by rewrite Hu.
Qed.

(** C1. On a worker whose buffer map has no entry for [u], and for a device
    index [d] of the worker, [put_buffer(u, d, X)] stores a handle that
    [get_buffers(u)] returns and whose value is [X]; with [u] present,
    [put_buffer] fails with [AssertionError] (the spec's AlreadyExists) and
    changes nothing; after [delete_buffers(u)], [get_buffers(u)] fails with
    [KeyError] (the spec's NotFound), and so does [delete_buffers] on an
    absent [u]. *)
Theorem put_get_delete_buffers w u d X :
  (∀ dev, buffers w !! u = None → py_index (local_devices w) d = Ok dev →
     ∃ w' b, put_buffer u d X w = (w', Ok tt) ∧
             get_buffers (One u) w' = Ok (FetchedOne b) ∧
             get_buffers (Many [u]) w' = Ok (FetchedMany [b]) ∧
             buf_value b = X) ∧
  (is_Some (buffers w !! u) →
     put_buffer u d X w = (w, Raise AssertionError)) ∧
  (get_buffers (One u) (delete_buffers (One u) w).1
     = Raise (KeyError (KInt u)) ∧
   get_buffers (Many [u]) (delete_buffers (Many [u]) w).1
     = Raise (KeyError (KInt u))) ∧
  (buffers w !! u = None →
     delete_buffers (One u) w = (w, Raise (KeyError (KInt u))) ∧
     delete_buffers (Many [u]) w = (w, Raise (KeyError (KInt u)))).
Proof.
  split; [|split; [|split]].
  - intros dev Hu Hd. eexists _, (buffer_from_pyval X dev).
    split; [by apply put_buffer_fresh|].
    unfold get_buffers, get_buffers_list, buffers_getitem.
    rewrite buffers_set_buffers, lookup_insert_eq. done.
  - apply put_buffer_present.
  - split.
    + apply get_buffers_absent. apply delitem_absent_after.
    + apply get_buffers_absent. simpl. unfold st_bind.
      pose proof (delitem_absent_after w u) as Hd.
      destruct (buffers_delitem u w) as [w' [[]|e]]; done.
  - intros Hu. simpl. unfold st_bind, buffers_delitem. by rewrite Hu.
Qed.

(** The buffer map after the deletions of [us], in order. *)
Lemma lookup_foldl_delete (m : gmap Z (DeviceBuffer NdArray)) (us : list Z) (y : Z) :
  foldl (λ m x, delete x m) m us !! y
  = if decide (y ∈ us) then None else m !! y.
Proof.
  revert m. induction us as [|x us IH]; intros m; cbn [foldl].
  - rewrite decide_False; [done | by intros ?%elem_of_nil].
  - rewrite IH. destruct (decide (y ∈ us)) as [Hy|Hy].
    + rewrite decide_True; [done | by right].
    + destruct (decide (y = x)) as [->|Hne].
      * rewrite decide_True by left. apply lookup_delete_eq.
      * rewrite decide_False by (intros [?|?]%elem_of_cons; done).
        by apply lookup_delete_ne.
Qed.

Lemma delete_buffers_prefix w (pre post : list Z) u :
  NoDup pre →
  Forall (λ x, is_Some (buffers w !! x)) pre →
  buffers w !! u = None ∨ u ∈ pre →
  delete_buffers (Many (pre ++ u :: post)) w
  = (set_buffers w (foldl (λ m x, delete x m) (buffers w) pre),
     Raise (KeyError (KInt u))).
Proof.
  revert w. induction pre as [|x pre IH]; intros w Hnd Hpre Hu; simpl.
  - destruct Hu as [Hu|Hu]; [|by apply elem_of_nil in Hu].
    unfold st_bind, buffers_delitem. by rewrite Hu, set_buffers_id.
  - apply NoDup_cons in Hnd as [Hx Hnd]. apply Forall_cons in Hpre as [[b Hb] Hpre].
    unfold st_bind at 1. unfold buffers_delitem at 1. rewrite Hb.
    specialize (IH (set_buffers w (delete x (buffers w))) Hnd).
    simpl in IH. rewrite IH; [done | |].
    + apply Forall_forall. intros y Hy.
      rewrite Forall_forall in Hpre. simpl.
      rewrite lookup_delete_ne; [by apply Hpre|]. by intros ->.
    + destruct Hu as [Hu|[->|Hu]%elem_of_cons].
      * left. by rewrite lookup_delete_None; right.
      * left. apply lookup_delete_eq.
      * by right.
Qed.

(** Every failure of [delete_buffers] on a list has this shape. *)
Lemma delete_buffers_failure_shape w (us : list Z) w' e :
  delete_buffers (Many us) w = (w', Raise e) →
  ∃ pre u post,
    us = pre ++ u :: post ∧ e = KeyError (KInt u) ∧ NoDup pre ∧
    Forall (λ x, is_Some (buffers w !! x)) pre ∧
    (buffers w !! u = None ∨ u ∈ pre).
Proof.
  revert w. induction us as [|x us IH]; intros w; simpl; [done|].
  unfold st_bind at 1. unfold buffers_delitem at 1.
  destruct (buffers w !! x) as [b|] eqn:Hx.
  - intros (pre & u & post & -> & -> & Hnd & Hpre & Hu)%IH. simpl in *.
    assert (x ∉ pre) as Hx_pre.
    { intros Hin. rewrite Forall_forall in Hpre.
      destruct (Hpre x Hin) as [? Hsome]. by rewrite lookup_delete_eq in Hsome. }
    exists (x :: pre), u, post. split_and!; [done | done | | |].
    + by apply NoDup_cons.
    + apply Forall_cons. split; [by eexists|].
      apply Forall_forall. intros y Hy. rewrite Forall_forall in Hpre.
      destruct (Hpre y Hy) as [by' Hby].
      rewrite lookup_delete_ne in Hby by (by intros ->). by eexists.
    + destruct Hu as [Hu|Hu]; [|by right; right].
      apply lookup_delete_None in Hu as [->|Hu]; [right; left | by left].
  - intros [= <- <-]. exists [], x, us. split_and!; [done | done | | |].
    + constructor.
    + constructor.
    + by left.
Qed.

(** C9. [delete_buffers] on a list is not atomic: when the uuids before
    position [k] (the list [pre]) are distinct and present, and the uuid [u]
    at position [k] is absent (from the map, or because it was just
    deleted), the call fails with [KeyError u], and the worker is left with
    every uuid of [pre] removed: they are absent afterwards, [get_buffers]
    on them fails, and all other entries are as before. *)
Theorem delete_buffers_not_atomic w (pre post : list Z) u :
  NoDup pre →
  Forall (λ x, is_Some (buffers w !! x)) pre →
  buffers w !! u = None ∨ u ∈ pre →
  ∃ w', delete_buffers (Many (pre ++ u :: post)) w
        = (w', Raise (KeyError (KInt u))) ∧
        (∀ x, x ∈ pre →
           buffers w' !! x = None ∧
           get_buffers (One x) w' = Raise (KeyError (KInt x))) ∧
        (∀ y, y ∉ pre → buffers w' !! y = buffers w !! y).
Proof.
  intros Hnd Hpre Hu. eexists. split; [by apply delete_buffers_prefix|].
  split.
  - intros x Hx.
    assert (buffers (set_buffers w (foldl (λ m x, delete x m) (buffers w) pre)) !! x
            = None) as Hnone.
    { rewrite buffers_set_buffers, lookup_foldl_delete. by rewrite decide_True. }
    split; [done|]. by apply get_buffers_absent.
  - intros y Hy. rewrite buffers_set_buffers, lookup_foldl_delete.
    by rewrite decide_False.
Qed.

End WorkerFacts.

(** On [Numpy1D.worker0], which has no buffer, and on [Examples.worker12],
    which holds the buffers 1 and 2. *)
Lemma put_get_delete_buffers_witness :
  (∃ w' b,
     Worker.put_buffer 7 0 [1; 2; 3] Numpy1D.worker0 = (w', Ok tt) ∧
     Worker.get_buffers (Worker.One 7) w' = Ok (Worker.FetchedOne b) ∧
     Worker.get_buffers (Worker.Many [7]) w' = Ok (Worker.FetchedMany [b]) ∧
     Worker.buf_value b = [1; 2; 3]) ∧
  Worker.put_buffer 1 0 [1; 2; 3] Examples.worker12
  = (Examples.worker12, Raise AssertionError) ∧
  Worker.get_buffers (Worker.One 1)
    (Worker.delete_buffers (Worker.One 1) Examples.worker12).1
  = Raise (KeyError (KInt 1)) ∧
  Worker.delete_buffers (Worker.One 7) Numpy1D.worker0
  = (Numpy1D.worker0, Raise (KeyError (KInt 7))).
Proof.
  destruct (put_get_delete_buffers Numpy1D.worker0 7 0 [1; 2; 3])
    as (Hput & _ & _ & Hdel).
  destruct (put_get_delete_buffers Examples.worker12 1 0 [1; 2; 3])
    as (_ & Hdup & [Hget _] & _).
  split; [|split; [|split]].
  - apply (Hput (Worker.GpuDevice 0)); reflexivity.
  - apply Hdup. eexists. reflexivity.
  - exact Hget.
  - apply Hdel. reflexivity.
Defined.

End WorkerFacts.

(** ** [delete_buffers] on a list, closed examples *)

Module DeleteExamples.
Import Worker.

Import Examples.

(** [delete_buffers([1, 2, 3, 4])] fails at 3 with 1 and 2 gone. *)
Lemma delete_buffers_not_atomic_witness :
  ∃ w', delete_buffers (Many ([1; 2] ++ 3 :: [4])) worker12
        = (w', Raise (KeyError (KInt 3))) ∧
        (∀ x, x ∈ [1; 2] →
           buffers w' !! x = None ∧
           get_buffers (One x) w' = Raise (KeyError (KInt x))) ∧
        (∀ y, y ∉ [1; 2] → buffers w' !! y = buffers worker12 !! y).
Proof.
  apply (WorkerFacts.delete_buffers_not_atomic worker12 [1; 2] [4] 3).
  - compute_done.
  - compute_done.
  - left. reflexivity.
Defined.

End DeleteExamples.

(** ** DistributedArray *)

Module DArrayFacts.
Section DArrayFacts.
Context `{Numpy NdArray}.
Context {HIndex : Type} `{EqDecision HIndex}.
Variable _hashable_index : Index → HIndex.
Implicit Types (self : DArray.DistributedArray NdArray) (idxs : list Index).

Import DArray.

Lemma OrderedSet_add_fresh (x y : HIndex) (s : OrderedSet) :
  x ∉ s → (y ∈ OrderedSet_add x s ↔ y ∈ s ∨ y = x).
Proof.
  intros Hx. unfold OrderedSet_add. rewrite bool_decide_eq_false_2 by done.
  rewrite elem_of_app, list_elem_of_singleton. done.
Qed.

(** What the loop adds to [one]: the positions [i + k] whose hashed index
    is neither in [seen] nor at an earlier position of [idxs]. *)
Lemma elem_of_one_replica_loop idxs i one seen p :
  p ∈ one_replica_loop _hashable_index i idxs one seen ↔
  p ∈ one ∨
  (∃ k x, idxs !! k = Some x ∧ p = (i + k)%nat ∧ (_hashable_index x ∉ seen) ∧
          ∀ j y, (j < k)%nat → idxs !! j = Some y →
                 _hashable_index y ≠ _hashable_index x).
Proof.
  revert i one seen. induction idxs as [|index rest IH]; intros i one seen.
  - simpl. split; [by left|]. intros [?|(k & x & Hk & _)]; [done|].
    by rewrite lookup_nil in Hk.
  - cbn [one_replica_loop]. unfold OrderedSet_contains.
    destruct (bool_decide (_hashable_index index ∈ seen)) eqn:Hseen.
    + apply bool_decide_eq_true in Hseen. rewrite IH. split.
      * intros [?|(k & x & Hk & -> & Hx & Hbefore)]; [by left|]. right.
        exists (S k), x. split_and!; [done | lia | done |].
        intros [|j] y Hj Hy; simplify_eq/=.
        -- intros Heq. apply Hx. by rewrite <- Heq.
        -- apply (Hbefore j); [lia | done].
      * intros [?|(k & x & Hk & -> & Hx & Hbefore)]; [by left|]. right.
        destruct k as [|k]; simplify_eq/=; [done|].
        exists k, x. split_and!; [done | lia | done |].
        intros j y Hj Hy. apply (Hbefore (S j)); [lia | done].
    + apply bool_decide_eq_false in Hseen. rewrite IH, elem_of_app.
      rewrite list_elem_of_singleton. split.
      * intros [[?| ->]|(k & x & Hk & -> & Hx & Hbefore)]; [by left| |].
        -- right. exists O, index. split_and!; [done | lia | done |].
           intros j y Hj. lia.
        -- right. rewrite OrderedSet_add_fresh in Hx by done.
           exists (S k), x. split_and!; [done | lia | tauto |].
           intros [|j] y Hj Hy; simplify_eq/=.
           ++ intros Heq. apply Hx. by right.
           ++ apply (Hbefore j); [lia | done].
      * intros [?|(k & x & Hk & -> & Hx & Hbefore)]; [by left; left|].
        destruct k as [|k]; simplify_eq/=.
        -- left. right. lia.
        -- right. exists k, x. split_and!; [done | lia | |].
           ++ rewrite OrderedSet_add_fresh by done. intros [?| Heq]; [done|].
              by apply (Hbefore O index); [lia | |].
           ++ intros j y Hj Hy. apply (Hbefore (S j)); [lia | done].
Qed.

(** [delete] runs through the buffer list without effect and then sets the
    two attributes. *)
Lemma st_for_del_local {A} (l : list A) self :
  st_for l del_local self = (self, Ok tt).
Proof. induction l as [|x l IH]; simpl; [done|]. unfold st_bind. simpl. exact IH. Qed.

Lemma delete_eq self :
  delete self
  = (mkDArray (device_mesh self) (aval self) (sharding_spec self)
       (remote_buffers self) (indices self) None
       (_one_replica_buffer_indices self) AttrNone, Ok tt).
Proof. unfold delete, st_bind. by rewrite st_for_del_local. Qed.

(** The positions come out in increasing order. *)
Lemma one_replica_loop_sorted idxs i one seen :
  StronglySorted lt one → Forall (λ p, p < i)%nat one →
  StronglySorted lt (one_replica_loop _hashable_index i idxs one seen).
Proof.
  revert i one seen. induction idxs as [|index rest IH]; intros i one seen Hs Hlt.
  - done.
  - cbn [one_replica_loop]. destruct (OrderedSet_contains _ _).
    + apply IH; [done|]. eapply Forall_impl; [exact Hlt|]. simpl. lia.
    + apply IH.
      * apply StronglySorted_app; split_and!.
        -- intros x1 x2 Hx1 ->%list_elem_of_singleton.
           rewrite Forall_forall in Hlt. by apply Hlt.
        -- done.
        -- repeat constructor.
      * apply Forall_app. split.
        -- eapply Forall_impl; [exact Hlt|]. simpl. lia.
        -- repeat constructor.
Qed.

Lemma one_replica_consistent self :
  cache_consistent _hashable_index self →
  cache_consistent _hashable_index
    (one_replica_buffer_indices _hashable_index self).1 ∧
  (one_replica_buffer_indices _hashable_index self).2
  = one_replica_loop _hashable_index 0 (indices self) [] [].
Proof.
  unfold cache_consistent, one_replica_buffer_indices.
  intros [Hc|Hc]; rewrite Hc; simpl; split; auto.
Qed.

Lemma reachable_cache_consistent self :
  reachable _hashable_index self → cache_consistent _hashable_index self.
Proof.
  induction 1 as [| self _ IH | self _ IH | self v _ IH].
  - by left.
  - unfold cache_consistent. rewrite delete_eq. exact IH.
  - by apply one_replica_consistent.
  - apply one_replica_consistent in IH as [IH _]. exact IH.
Qed.

(** C2. On every [DistributedArray], [one_replica_buffer_indices] returns,
    in increasing order, exactly the positions of [self.indices] that hold
    the first occurrence of a hashed index; and for the indices
    [[A, B, A', C]] with [B] hashed like [A] (and the hashes of [A], [A']
    and [C] distinct) it returns [[0, 2, 3]]. *)
Theorem one_replica_first_occurrences :
  (∀ self, reachable _hashable_index self →
     StronglySorted lt (one_replica_buffer_indices _hashable_index self).2 ∧
     ∀ i, i ∈ (one_replica_buffer_indices _hashable_index self).2 ↔
          first_occurrence _hashable_index (indices self) i) ∧
  (∀ mesh av spec bufs A B A' C,
     _hashable_index B = _hashable_index A →
     _hashable_index A' ≠ _hashable_index A →
     _hashable_index C ≠ _hashable_index A →
     _hashable_index C ≠ _hashable_index A' →
     (one_replica_buffer_indices (NdArray := NdArray) _hashable_index
        (__init__ mesh av spec bufs [A; B; A'; C])).2
     = [0; 2; 3]%nat).
Proof.
  split.
  - intros self Hr.
    apply reachable_cache_consistent, one_replica_consistent in Hr as [_ ->].
    split.
    + apply one_replica_loop_sorted; constructor.
    + intros i. rewrite elem_of_one_replica_loop. unfold first_occurrence.
      split.
      * intros [?%elem_of_nil|(k & x & Hk & -> & _ & Hb)]; [done|].
        exists x. done.
      * intros (x & Hx & Hb). right. exists i, x.
        split_and!; [done | done | apply not_elem_of_nil | done].
  - intros mesh av spec bufs A B A' C HB HA' HC HCA'.
    unfold one_replica_buffer_indices, __init__. simpl.
    unfold OrderedSet_contains, OrderedSet_add. simpl.
    rewrite HB.
    repeat (first
      [ rewrite bool_decide_eq_true_2
          by (rewrite ?elem_of_cons; auto)
      | rewrite bool_decide_eq_false_2
          by (rewrite ?elem_of_cons, ?elem_of_nil; intuition congruence) ];
      simpl).
    done.
Qed.

(** C8, as the code has it. [delete()] returns at once and unsets the cached
    host value, but it releases nothing: [del buf] only unbinds the loop
    variable and the attribute set to [None] is [device_buffers], so
    [self.remote_buffers] holds the same references afterwards. *)
Theorem delete_keeps_remote_buffers self :
  (delete self).2 = Ok tt ∧
  _npy_value (delete self).1 = None ∧
  device_buffers (delete self).1 = AttrNone ∧
  remote_buffers (delete self).1 = remote_buffers self.
Proof. by rewrite delete_eq. Qed.

End DArrayFacts.

(** [one_replica_buffer_indices] with jax's hash: on the array of
    [Examples.idxA, idxB, idxA', idxC] after a first access and a
    [delete()], and on the fresh array. *)
Lemma one_replica_first_occurrences_witness :
  (StronglySorted lt
     (DArray.one_replica_buffer_indices DArray.jax_hashable_index
        Examples.accessed_array).2 ∧
   ∀ i, i ∈ (DArray.one_replica_buffer_indices DArray.jax_hashable_index
               Examples.accessed_array).2 ↔
        DArray.first_occurrence DArray.jax_hashable_index
          (DArray.indices Examples.accessed_array) i) ∧
  (DArray.one_replica_buffer_indices (NdArray := list Z)
     DArray.jax_hashable_index
     (DArray.__init__ 0 Examples.aval6 0 []
        [Examples.idxA; Examples.idxB; Examples.idxA'; Examples.idxC])).2
  = [0; 2; 3]%nat.
Proof.
  destruct (one_replica_first_occurrences (NdArray := list Z)
              DArray.jax_hashable_index) as [Hall Hex].
  split.
  - apply (Hall Examples.accessed_array).
    apply DArray.reach_delete, DArray.reach_one_replica, DArray.reach_init.
  - apply Hex; [reflexivity | discriminate | discriminate | discriminate].
Defined.

(** After [delete()] the example array still lists its remote buffer. *)
Lemma delete_cached_array :
  DArray.remote_buffers (DArray.delete Examples.cached_array).1 = [Examples.ref7] ∧
  DArray._npy_value (DArray.delete Examples.cached_array).1 = None.
Proof. split; reflexivity. Qed.

End DArrayFacts.

(** ** ReplicatedDistributedArray *)

Lemma dict_get_set_eq {V} (k : nat) (v : V) (d : PyDict V) :
  dict_get k (dict_set k v d) = Some v.
Proof.
  induction d as [|[k' v'] d IH]; simpl.
  - by rewrite decide_True.
  - destruct (decide (k' = k)) as [->|Hne]; simpl.
    + by rewrite decide_True.
    + by rewrite decide_False.
Qed.

Lemma dict_get_set_ne {V} (k k' : nat) (v : V) (d : PyDict V) :
  k ≠ k' → dict_get k' (dict_set k v d) = dict_get k' d.
Proof.
  intros Hne. induction d as [|[k0 v0] d IH]; simpl.
  - by rewrite decide_False.
  - destruct (decide (k0 = k)) as [->|Hne0]; simpl.
    + by rewrite !decide_False.
    + destruct (decide (k0 = k')); [done | exact IH].
Qed.

Lemma dict_contains_false {V} (k : nat) (d : PyDict V) :
  dict_contains k d = false ↔ dict_get k d = None.
Proof.
  unfold dict_contains. rewrite bool_decide_eq_false.
  rewrite <- eq_None_not_Some. done.
Qed.

Module ReplicatedFacts.
Section ReplicatedFacts.
Context `{Numpy NdArray}.
Implicit Types (self : Replicated.ReplicatedDistributedArray).

Import Replicated.

(** [add_replica] refuses an array that is registered and a mesh that holds
    a replica, and changes nothing then. *)
Lemma add_replica_replica_exists self mesh array :
  is_Some (dict_get array (_array_mesh_map self)) →
  add_replica mesh array self = (self, Raise (RuntimeError "Replica exists.")).
Proof.
  intros Hs. unfold add_replica, dict_contains. by rewrite bool_decide_eq_true_2.
Qed.

Lemma add_replica_mesh_exists self mesh array :
  dict_get array (_array_mesh_map self) = None →
  is_Some (dict_get mesh (_mesh_array_map self)) →
  add_replica mesh array self = (self, Raise (RuntimeError "Mesh exists.")).
Proof.
  intros Hn Hs. unfold add_replica.
  rewrite (proj2 (dict_contains_false _ _) Hn).
  unfold dict_contains. by rewrite bool_decide_eq_true_2.
Qed.

(** Registering a fresh pair keeps the two maps inverse to each other. *)
Lemma set_pair_inverses (ma am : PyDict nat) (mesh array : nat) :
  (∀ m a, dict_get m ma = Some a ↔ dict_get a am = Some m) →
  dict_get mesh ma = None → dict_get array am = None →
  ∀ m a, dict_get m (dict_set mesh array ma) = Some a ↔
         dict_get a (dict_set array mesh am) = Some m.
Proof.
  intros Hinv Hm Ha m a.
  destruct (decide (mesh = m)) as [->|Hnm], (decide (array = a)) as [->|Har].
  - by rewrite !dict_get_set_eq.
  - rewrite dict_get_set_eq, dict_get_set_ne by done. split.
    + intros ?; simplify_eq.
    + intros Hx%Hinv. congruence.
  - rewrite dict_get_set_eq, dict_get_set_ne by done. split.
    + intros Hx%Hinv. congruence.
    + intros ?; simplify_eq.
  - rewrite !dict_get_set_ne by done. apply Hinv.
Qed.

Lemma add_replica_preserves self mesh array :
  mutual_inverses self →
  (add_replica mesh array self).2 = Ok tt →
  mutual_inverses (add_replica mesh array self).1.
Proof.
  unfold add_replica. intros Hinv.
  destruct (dict_contains array _) eqn:Ea; [done|].
  destruct (dict_contains mesh _) eqn:Em; [done|].
  intros _. apply dict_contains_false in Ea, Em.
  unfold mutual_inverses. simpl. by apply set_pair_inverses.
Qed.

(** The constructor, on meshes and arrays without repetition, builds maps
    that are inverse to each other. *)
Lemma init_loop_inverses (pairs : list (nat * nat)) self :
  mutual_inverses self →
  NoDup pairs.*1 → NoDup pairs.*2 →
  (∀ p, p ∈ pairs → dict_get p.1 (_mesh_array_map self) = None ∧
                    dict_get p.2 (_array_mesh_map self) = None) →
  mutual_inverses (init_loop pairs self).
Proof.
  revert self. induction pairs as [|[mesh array] pairs IH];
    intros self Hinv Hnd1 Hnd2 Hfresh; simpl; [done|].
  rewrite fmap_cons in Hnd1, Hnd2.
  apply NoDup_cons in Hnd1 as [Hm Hnd1]. apply NoDup_cons in Hnd2 as [Ha Hnd2].
  destruct (Hfresh (mesh, array)) as [Hfm Hfa]; [left|]. simpl in *.
  apply IH; [| done | done |].
  - unfold mutual_inverses. simpl. by apply set_pair_inverses.
  - intros [m a] Hp. simpl.
    destruct (Hfresh (m, a)) as [Hgm Hga]; [by right|]. simpl in *.
    rewrite !dict_get_set_ne; [done | |].
    + intros ->. apply Ha. apply list_elem_of_fmap. by exists (m, a).
    + intros ->. apply Hm. apply list_elem_of_fmap. by exists (m, a).
Qed.

End ReplicatedFacts.

(** C7, as the code has it. Built from the meshes [[0, 1]] and the array 5
    given twice, the object registers replica 5 under both meshes while its
    array-to-mesh map knows only mesh 1: the two maps are not inverse to
    each other. [__init__] has none of the checks of [add_replica]. *)
Theorem init_registers_replica_under_two_meshes :
  ∃ r, Replicated.__init__ Examples.heap5 [0; 1]%nat [5; 5]%nat = Ok r ∧
       Replicated.registered_under_two r 5 0 1 ∧
       ¬ Replicated.mutual_inverses r.
Proof.
  eexists. split; [reflexivity|]. split.
  - split; [done|]. split; reflexivity.
  - intros Hinv. specialize (Hinv 0%nat 5%nat). simpl in Hinv.
    destruct Hinv as [Hinv _]. specialize (Hinv eq_refl). discriminate.
Qed.

End ReplicatedFacts.

(** ** Device strings and default logical meshes *)

Lemma res_map_length {A B} (f : A → res B) (l : list A) (r : list B) :
  res_map f l = Ok r → length r = length l.
Proof.
  revert r. induction l as [|x l IH]; intros r; simpl.
  - by intros [= <-].
  - destruct (f x); simpl; [|done].
    destruct (res_map f l) eqn:E; simpl; [|done].
    intros [= <-]. simpl. f_equal. by apply IH.
Qed.

Lemma strs_of_host_concat (ip : string) (devices : list (list Z)) :
  strs_of_host ip devices
  = map (λ d, device_id_to_str ip d "gpu") (concat devices).
Proof.
  unfold strs_of_host. induction devices as [|l devices IH]; simpl; [done|].
  by rewrite map_app, IH.
Qed.

(** The accumulation of [build_device_strs]: one block per host, in order. *)
Lemma device_strs_fold (g : nat → res string) (h : string → list string)
  (l : list nat) (acc r : list string) :
  res_fold (λ device_strs i, let? ip := g i in Ok (device_strs ++ h ip)) l acc
  = Ok r →
  ∃ ips, res_map g l = Ok ips ∧ r = acc ++ flat_map h ips.
Proof.
  revert acc. induction l as [|i l IH]; intros acc; simpl.
  - intros [= <-]. exists []. by rewrite app_nil_r.
  - destruct (g i) as [ip|e]; simpl; [|done].
    intros (ips & -> & ->)%IH. exists (ip :: ips). simpl.
    by rewrite app_assoc.
Qed.

Lemma length_flat_map_const {A B} (f : A → list B) (l : list A) (k : nat) :
  (∀ x, length (f x) = k) → length (flat_map f l) = (length l * k)%nat.
Proof.
  intros Hf. induction l as [|x l IH]; simpl; [done|].
  by rewrite length_app, Hf, IH.
Qed.

Lemma build_device_strs_spec {A} (host_ids : list A)
  (host_info : option (list (gmap string string))) (devices : list (list Z))
  (strs : list string) :
  build_device_strs host_ids host_info devices = Ok strs →
  ∃ ips,
    res_map (host_ip_at host_info) (seq 0 (length host_ids)) = Ok ips ∧
    strs = flat_map (λ ip, map (λ d, device_id_to_str ip d "gpu")
                             (concat devices)) ips ∧
    length strs = (length host_ids * length (concat devices))%nat.
Proof.
  unfold build_device_strs. intros (ips & Hips & ->)%device_strs_fold.
  exists ips. simpl.
  assert (flat_map (λ ip, strs_of_host ip devices) ips
          = flat_map (λ ip, map (λ d, device_id_to_str ip d "gpu")
                              (concat devices)) ips) as ->.
  { apply flat_map_ext. intros ip. apply strs_of_host_concat. }
  split_and!; [done | done |].
  rewrite (length_flat_map_const _ _ (length (concat devices)))
    by (intros; apply length_map).
  apply res_map_length in Hips. by rewrite Hips, length_seq.
Qed.

Module MeshFacts.
Section MeshFacts.
Context `{Numpy NdArray}.

Lemma check_devices_ok {A} (ids : list (list Z)) (hs : list A) (n : Z) msg :
  check_devices ids hs n msg = Ok tt →
  length ids = length hs ∧ Forall (λ l, Z.of_nat (length l) = n) ids.
Proof.
  unfold check_devices. case_decide as Hlen; [done|].
  destruct (forallb _ ids) eqn:Hall; [|done]. intros _. split; [lia|].
  apply Forall_forall. intros l Hl.
  rewrite forallb_forall in Hall. apply list_elem_of_In, Hall in Hl.
  by apply bool_decide_eq_true in Hl.
Qed.

(** What a successful cluster-mode constructor leaves in the object. *)
Lemma init_ray_inv devices host_ids host_info head_ip n
  (m : Physical.PhysicalDeviceMesh NdArray) :
  Physical.init_ray devices host_ids host_info head_ip n = Ok m →
  ∃ hs ids strs,
    host_ids = Some hs ∧
    build_device_strs hs host_info ids = Ok strs ∧
    m = Physical.mkMesh true hs host_info head_ip n (Physical.HostDeviceIds ids)
          strs (Some (Physical.launch_workers (length hs) n)) true ∧
    (ids = default_devices hs n ∨
     (length ids = length hs ∧ Forall (λ l, Z.of_nat (length l) = n) ids)).
Proof.
  unfold Physical.init_ray. destruct host_ids as [hs|]; [|done].
  destruct devices as [[ds|given]|]; simpl.
  - case_decide as Hlen; [done|]. destruct ds; simpl; [|done].
    destruct (build_device_strs _ _ _) as [strs|] eqn:E; simpl; [|done].
    intros [= <-]. exists hs, [], strs. split_and!; [done..|].
    right. split; [simpl in *; lia | constructor].
  - destruct (check_devices _ _ _ _) as [[]|] eqn:Ec; simpl; [|done].
    destruct (build_device_strs _ _ _) as [strs|] eqn:E; simpl; [|done].
    intros [= <-]. exists hs, given, strs. split_and!; [done..| ].
    right. by eapply check_devices_ok.
  - destruct (build_device_strs _ _ _) as [strs|] eqn:E; simpl; [|done].
    intros [= <-]. exists hs, (default_devices hs n), strs.
    split_and!; [done..|]. by left.
Qed.

Lemma virtual_init_inv host_ids host_info head_ip n devices
  (m : Virtual.VirtualPhysicalMesh) :
  Virtual.__init__ host_ids host_info head_ip n devices = Ok m →
  ∃ hs ids strs,
    host_ids = Some hs ∧
    build_device_strs hs host_info ids = Ok strs ∧
    m = Virtual.mkVMesh hs host_info head_ip n ids strs ∧
    (ids = default_devices hs n ∨
     (length ids = length hs ∧ Forall (λ l, Z.of_nat (length l) = n) ids)).
Proof.
  unfold Virtual.__init__. destruct host_ids as [hs|]; [|done].
  destruct devices as [given|]; simpl.
  - destruct (check_devices _ _ _ _) as [[]|] eqn:Ec; simpl; [|done].
    destruct (build_device_strs _ _ _) as [strs|] eqn:E; simpl; [|done].
    intros [= <-]. exists hs, given, strs. split_and!; [done..| ].
    right. by eapply check_devices_ok.
  - destruct (build_device_strs _ _ _) as [strs|] eqn:E; simpl; [|done].
    intros [= <-]. exists hs, (default_devices hs n), strs.
    split_and!; [done..|]. by left.
Qed.

(** C10. The device strings of a cluster-allocated [PhysicalDeviceMesh] and
    of a [VirtualPhysicalMesh]: for each host, in order, one string per
    device id of the lists of all hosts, formatted with the address of that
    host; so there are (number of hosts) x (total number of device ids) of
    them. *)
Theorem device_strs_all_devices_per_host :
  (∀ devices host_ids host_info head_ip n (m : Physical.PhysicalDeviceMesh NdArray),
     Physical.__init__ devices host_ids host_info head_ip n true = Ok m →
     ∃ ips ids,
       Physical.devices m = Physical.HostDeviceIds ids ∧
       res_map (host_ip_at host_info) (seq 0 (length (Physical.host_ids m)))
         = Ok ips ∧
       Physical.device_strs m
         = flat_map (λ ip, map (λ d, device_id_to_str ip d "gpu") (concat ids)) ips ∧
       length (Physical.device_strs m)
         = (length (Physical.host_ids m) * length (concat ids))%nat) ∧
  (∀ host_ids host_info head_ip n devices (m : Virtual.VirtualPhysicalMesh),
     Virtual.__init__ host_ids host_info head_ip n devices = Ok m →
     ∃ ips,
       res_map (host_ip_at host_info) (seq 0 (length (Virtual.host_ids m)))
         = Ok ips ∧
       Virtual.device_strs m
         = flat_map (λ ip, map (λ d, device_id_to_str ip d "gpu")
                             (concat (Virtual.devices m))) ips ∧
       length (Virtual.device_strs m)
         = (length (Virtual.host_ids m) * length (concat (Virtual.devices m)))%nat).
Proof.
  split.
  - intros devices host_ids host_info head_ip n m Hm. simpl in Hm.
    apply init_ray_inv in Hm as (hs & ids & strs & -> & Hstrs & -> & _).
    apply build_device_strs_spec in Hstrs as (ips & Hips & -> & Hlen).
    exists ips, ids. simpl. split_and!; done.
  - intros host_ids host_info head_ip n devices m Hm.
    apply virtual_init_inv in Hm as (hs & ids & strs & -> & Hstrs & -> & _).
    apply build_device_strs_spec in Hstrs as (ips & Hips & -> & Hlen).
    exists ips. simpl. split_and!; done.
Qed.

(** *** Number of devices and reshaping *)

Lemma length_concat_uniform (ids : list (list Z)) (k : nat) :
  Forall (λ l, length l = k) ids → length (concat ids) = (length ids * k)%nat.
Proof.
  induction 1 as [|l ids Hl _ IH]; simpl; [done|].
  by rewrite length_app, Hl, IH.
Qed.

(** The per-host device lists of a constructed mesh: one list per host,
    [num_devices_per_host] ids each. *)
Lemma constructed_devices_length {A} (hs : list A) (ids : list (list Z)) (n : Z) :
  0 ≤ n →
  ids = default_devices hs n ∨
  (length ids = length hs ∧ Forall (λ l, Z.of_nat (length l) = n) ids) →
  Z.of_nat (length (concat ids)) = Z.of_nat (length hs) * n.
Proof.
  intros Hn [->|[Hlen Hall]].
  - rewrite (length_concat_uniform _ (Z.to_nat n)).
    + unfold default_devices. rewrite length_map. lia.
    + unfold default_devices, py_range. apply Forall_forall.
      intros l (x & -> & _)%list_elem_of_fmap. by rewrite length_seqZ.
  - rewrite (length_concat_uniform _ (Z.to_nat n)).
    + rewrite Hlen. lia.
    + eapply Forall_impl; [exact Hall|]. simpl. lia.
Qed.

Lemma arange_reshape_ok (n : nat) (s0 s1 : Z) :
  0 ≤ s0 → 0 ≤ s1 → s0 * s1 = Z.of_nat n →
  arange_reshape n (s0, s1)
  = Ok (chunks (Z.to_nat s1) (Z.to_nat s0) (seqZ 0 (Z.of_nat n))).
Proof.
  intros H0 H1 Hn. unfold arange_reshape, np_reshape, np_reshape_shape.
  rewrite length_seqZ, Nat2Z.id.
  rewrite decide_False by lia. rewrite decide_False by lia.
  by rewrite decide_True by lia.
Qed.

Lemma physical_init_num_devices devices host_ids host_info head_ip n use_ray
  (m : Physical.PhysicalDeviceMesh NdArray) :
  Physical.__init__ devices host_ids host_info head_ip n use_ray = Ok m →
  0 ≤ Physical.num_devices_per_host m →
  ∃ k, Physical.num_devices m = Ok k ∧
       Z.of_nat k = Z.of_nat (Physical.num_hosts m) * Physical.num_devices_per_host m.
Proof.
  unfold Physical.__init__. destruct use_ray.
  - intros (hs & ids & strs & -> & _ & -> & Hids)%init_ray_inv Hn.
    simpl in *. eexists. split; [done|].
    unfold Physical.num_hosts. simpl.
    by apply constructed_devices_length.
  - intros Hm Hn. unfold Physical.init_local in Hm.
    destruct devices as [[[|d ds]|[|? ?]]|]; simplify_eq.
    exists (length (d :: ds)). split; [done|].
    unfold Physical.num_hosts. simpl. lia.
Qed.

Lemma float_literals_distinct : PyFloat 0.01 ≠ PyFloat 0.1.
Proof.
  intros E. apply (f_equal float_value) in E. simpl in E.
  assert (PrimFloat.eqb 0.01 0.1 = true) as Heq by (rewrite E; reflexivity).
  vm_compute in Heq. exact (Bool.diff_false_true Heq).
Qed.

(** C5. [get_default_logical_mesh] on a constructed mesh of shape [(H, D)]
    (with [D] not negative) returns a logical mesh with [alpha = [1, 1]]
    and with [beta = [1, 1]] when [H = 1]; otherwise [beta = [1, 0.01]]
    on a [PhysicalDeviceMesh] and [beta = [1, 0.1]] on a
    [VirtualPhysicalMesh]; the two literals differ. *)
Theorem default_logical_mesh_costs :
  (∀ devices host_ids host_info head_ip n use_ray
     (m : Physical.PhysicalDeviceMesh NdArray),
     Physical.__init__ devices host_ids host_info head_ip n use_ray = Ok m →
     0 ≤ Physical.num_devices_per_host m →
     ∃ lm, Physical.get_default_logical_mesh m = Ok lm ∧
           mesh_alpha lm = Some [PyInt 1; PyInt 1] ∧
           mesh_beta lm = Some (if decide (Physical.num_hosts m = 1%nat)
                                then [PyInt 1; PyInt 1]
                                else [PyInt 1; PyFloat 0.01])) ∧
  (∀ host_ids host_info head_ip n devices (m : Virtual.VirtualPhysicalMesh),
     Virtual.__init__ host_ids host_info head_ip n devices = Ok m →
     0 ≤ Virtual.num_devices_per_host m →
     ∃ lm, Virtual.get_default_logical_mesh m = Ok lm ∧
           mesh_alpha lm = Some [PyInt 1; PyInt 1] ∧
           mesh_beta lm = Some (if decide (Virtual.num_hosts m = 1%nat)
                                then [PyInt 1; PyInt 1]
                                else [PyInt 1; PyFloat 0.1])) ∧
  PyFloat 0.01 ≠ PyFloat 0.1.
Proof.
  split; [|split; [|exact float_literals_distinct]].
  - intros devices host_ids host_info head_ip n use_ray m Hm Hn.
    destruct (physical_init_num_devices _ _ _ _ _ _ _ Hm Hn) as (k & Hk & Hkn).
    unfold Physical.get_default_logical_mesh, Physical.get_logical_mesh,
      Physical.shape.
    rewrite Hk. simpl.
    rewrite arange_reshape_ok by (unfold Physical.num_hosts in Hkn; lia).
    case_decide; simpl; eexists; split_and!; done.
  - intros host_ids host_info head_ip n devices m
      (hs & ids & strs & -> & _ & -> & Hids)%virtual_init_inv Hn.
    simpl in Hn.
    unfold Virtual.get_default_logical_mesh, Virtual.get_logical_mesh,
      Virtual.shape, Virtual.num_devices, Virtual.num_hosts. simpl.
    rewrite arange_reshape_ok;
      [| lia | done | symmetry; by apply constructed_devices_length].
    case_decide; simpl; eexists; split_and!; done.
Qed.

End MeshFacts.

(** The virtual mesh of two hosts with two devices each has eight device
    strings: four per host. *)
Lemma vmesh22_built : Examples.vmesh22 = Ok Examples.vmesh22_obj.
Proof. vm_compute. reflexivity. Qed.

Lemma mesh22_built :
  Physical.__init__ None (Some [0; 1]) (Some Examples.host_info2)
    (Some "10.0.0.1") 2 true = Ok Examples.mesh22.
Proof. vm_compute. reflexivity. Qed.

(** The device strings of the two example meshes: four per host. *)
Lemma device_strs_all_devices_per_host_witness :
  (∃ ips ids,
     Physical.devices Examples.mesh22 = Physical.HostDeviceIds ids ∧
     res_map (host_ip_at (Some Examples.host_info2))
       (seq 0 (length (Physical.host_ids Examples.mesh22))) = Ok ips ∧
     Physical.device_strs Examples.mesh22
     = flat_map (λ ip, map (λ d, device_id_to_str ip d "gpu") (concat ids)) ips ∧
     length (Physical.device_strs Examples.mesh22)
     = (length (Physical.host_ids Examples.mesh22) * length (concat ids))%nat) ∧
  (∃ ips,
     res_map (host_ip_at (Some Examples.host_info2))
       (seq 0 (length (Virtual.host_ids Examples.vmesh22_obj))) = Ok ips ∧
     Virtual.device_strs Examples.vmesh22_obj
     = flat_map (λ ip, map (λ d, device_id_to_str ip d "gpu")
                         (concat (Virtual.devices Examples.vmesh22_obj))) ips ∧
     length (Virtual.device_strs Examples.vmesh22_obj)
     = (length (Virtual.host_ids Examples.vmesh22_obj)
        * length (concat (Virtual.devices Examples.vmesh22_obj)))%nat).
Proof.
  destruct (device_strs_all_devices_per_host (NdArray := list Z))
    as [Hphysical Hvirtual].
  split.
  - apply (Hphysical None (Some [0; 1]) (Some Examples.host_info2)
             (Some "10.0.0.1") 2 Examples.mesh22).
    vm_compute. reflexivity.
  - apply (Hvirtual (Some [0; 1]) (Some Examples.host_info2)
             (Some "10.0.0.1") 2 None Examples.vmesh22_obj).
    vm_compute. reflexivity.
Defined.

(** The default logical meshes of the two example meshes (two hosts):
    [beta = [1, 0.01]] and [beta = [1, 0.1]]. *)
Lemma default_logical_mesh_costs_witness :
  (∃ lm, Physical.get_default_logical_mesh Examples.mesh22 = Ok lm ∧
         mesh_alpha lm = Some [PyInt 1; PyInt 1] ∧
         mesh_beta lm
         = Some (if decide (Physical.num_hosts Examples.mesh22 = 1%nat)
                 then [PyInt 1; PyInt 1]
                 else [PyInt 1; PyFloat 0.01])) ∧
  (∃ lm, Virtual.get_default_logical_mesh Examples.vmesh22_obj = Ok lm ∧
         mesh_alpha lm = Some [PyInt 1; PyInt 1] ∧
         mesh_beta lm
         = Some (if decide (Virtual.num_hosts Examples.vmesh22_obj = 1%nat)
                 then [PyInt 1; PyInt 1]
                 else [PyInt 1; PyFloat 0.1])).
Proof.
  destruct (default_logical_mesh_costs (NdArray := list Z))
    as (Hphysical & Hvirtual & _).
  split.
  - apply (Hphysical None (Some [0; 1]) (Some Examples.host_info2)
             (Some "10.0.0.1") 2 true Examples.mesh22).
    + vm_compute. reflexivity.
    + simpl. lia.
  - apply (Hvirtual (Some [0; 1]) (Some Examples.host_info2)
             (Some "10.0.0.1") 2 None Examples.vmesh22_obj).
    + vm_compute. reflexivity.
    + simpl. lia.
Defined.

End MeshFacts.

(** ** Slicing a virtual mesh into profiling submeshes *)

Lemma res_map_lookup {A B} (f : A → res B) (l : list A) (r : list B) :
  res_map f l = Ok r →
  ∀ i x, l !! i = Some x → ∃ y, f x = Ok y ∧ r !! i = Some y.
Proof.
  revert r. induction l as [|x0 l IH]; intros r; simpl.
  - intros _ i x Hi. by rewrite lookup_nil in Hi.
  - destruct (f x0) as [y0|] eqn:E0; simpl; [|done].
    destruct (res_map f l) as [ys|] eqn:E; simpl; [|done].
    intros [= <-] [|i] x Hi; simplify_eq/=; [by exists y0|].
    by apply (IH ys).
Qed.

Lemma res_map_py_index_seqZ `{Inhabited A} (l : list A) (a len : Z) :
  0 ≤ a → a + len ≤ Z.of_nat (length l) →
  res_map (py_index l) (seqZ a len)
  = Ok (take (Z.to_nat len) (drop (Z.to_nat a) l)).
Proof.
  intros Ha Hlen.
  rewrite (res_map_pure _ (λ x, default inhabitant (l !! Z.to_nat x))).
  - f_equal. apply list_eq. intros i.
    change (map ?f ?l) with (f <$> l). rewrite list_lookup_fmap.
    destruct (decide (Z.of_nat i < len)) as [Hi|Hi].
    + rewrite lookup_seqZ_lt by done. simpl.
      rewrite lookup_take_lt, lookup_drop by lia.
      replace (Z.to_nat (a + Z.of_nat i)) with (Z.to_nat a + i)%nat by lia.
      destruct (l !! (Z.to_nat a + i)%nat) eqn:E; [done|].
      apply lookup_ge_None in E. lia.
    + rewrite lookup_seqZ_ge by lia. simpl. symmetry.
      apply lookup_ge_None. rewrite length_take. lia.
  - intros x Hx%elem_of_seqZ.
    destruct (l !! Z.to_nat x) eqn:E.
    + by apply py_index_nonneg; [lia|].
    + apply lookup_ge_None in E. lia.
Qed.

Lemma map_const_replicate {A B} (y : B) (l : list A) :
  map (λ _, y) l = replicate (length l) y.
Proof. induction l; simpl; [done | by f_equal]. Qed.

Lemma res_fold_append {A B} (body : A → res B) (F : A → B) (l : list A)
  (acc : list B) :
  (∀ x, x ∈ l → body x = Ok (F x)) →
  res_fold (λ all x, let? y := body x in Ok (all ++ [y])) l acc
  = Ok (acc ++ map F l).
Proof.
  revert acc. induction l as [|x l IH]; intros acc Hb; simpl.
  - by rewrite app_nil_r.
  - rewrite Hb by left. simpl. rewrite IH by (intros; apply Hb; by right).
    by rewrite <- app_assoc.
Qed.

Lemma res_fold_append_nested {A1 A2 B} (body : A1 → A2 → res B)
  (F : A1 → A2 → B) (l1 : list A1) (l2 : list A2) (acc : list B) :
  (∀ i j, i ∈ l1 → j ∈ l2 → body i j = Ok (F i j)) →
  res_fold (λ all i,
              res_fold (λ all j, let? y := body i j in Ok (all ++ [y])) l2 all)
           l1 acc
  = Ok (acc ++ flat_map (λ i, map (F i) l2) l1).
Proof.
  revert acc. induction l1 as [|i l1 IH]; intros acc Hb; simpl.
  - by rewrite app_nil_r.
  - rewrite (res_fold_append _ (F i)) by (intros; apply Hb; [left | done]).
    simpl. rewrite IH by (intros; apply Hb; [by right | done]).
    by rewrite <- app_assoc.
Qed.

Lemma lookup_flat_map_uniform {A B} (f : A → list B) (l : list A) (k i j : nat)
  (x : A) :
  (∀ y, length (f y) = k) → l !! i = Some x → (j < k)%nat →
  flat_map f l !! (i * k + j)%nat = f x !! j.
Proof.
  intros Hk. revert i. induction l as [|y l IH]; intros i Hi Hj.
  - by rewrite lookup_nil in Hi.
  - destruct i as [|i]; simplify_eq/=.
    + rewrite lookup_app_l; [done | by rewrite Hk].
    + rewrite lookup_app_r by (rewrite Hk; lia).
      rewrite Hk. replace (k + i * k + j - k)%nat with (i * k + j)%nat by lia.
      by apply IH.
Qed.

Module VirtualFacts.
Import Virtual.

Lemma build_device_strs_total {A} (hs : list A)
  (host_info : option (list (gmap string string))) (devices : list (list Z)) :
  (∀ i, (i < length hs)%nat → ∃ ip, host_ip_at host_info i = Ok ip) →
  ∃ strs, build_device_strs hs host_info devices = Ok strs.
Proof.
  intros Hd. unfold build_device_strs.
  rewrite (res_fold_pure _
    (λ acc i, acc ++ strs_of_host (ip_or_empty host_info i) devices)).
  - by eexists.
  - intros i acc Hi%elem_of_seq. unfold ip_or_empty.
    destruct (Hd i) as [ip ->]; [lia | done].
Qed.

Lemma constructed_hosts_described host_ids host_info head_ip n devices m :
  __init__ host_ids host_info head_ip n devices = Ok m → hosts_described m.
Proof.
  intros (hs & ids & strs & -> & Hstrs & -> & _)%MeshFacts.virtual_init_inv.
  apply build_device_strs_spec in Hstrs as (ips & Hips & _).
  intros i Hi. simpl in *.
  destruct (res_map_lookup _ _ _ Hips i i) as (ip & Hip & _).
  - by apply lookup_seq_lt.
  - by exists ip.
Qed.

Lemma check_devices_uniform {A} (hs : list A) (devs : list Z) (k : nat) msg :
  length hs = k →
  check_devices (replicate k devs) hs (Z.of_nat (length devs)) msg = Ok tt.
Proof.
  intros Hk. unfold check_devices.
  rewrite decide_False by (rewrite length_replicate; lia).
  assert (forallb (λ ids, bool_decide (Z.of_nat (length ids)
                                       = Z.of_nat (length devs)))
            (replicate k devs) = true) as ->; [|done].
  apply forallb_forall. intros ids Hin%list_elem_of_In%elem_of_replicate.
  destruct Hin as [-> _]. by apply bool_decide_eq_true.
Qed.

(** [slice_2d] over the host positions [a, ..., a + len - 1], each with the
    device indices [devs]. *)
Lemma slice_2d_range m (a len : Z) (devs : list Z) :
  hosts_described m → 0 ≤ a → 0 < len →
  a + len ≤ Z.of_nat (length (host_ids m)) →
  ∃ sub, slice_2d m (seqZ a len) (map (λ _, devs) (seqZ a len)) = Ok sub ∧
         host_ids sub = take (Z.to_nat len) (drop (Z.to_nat a) (host_ids m)) ∧
         num_devices_per_host sub = Z.of_nat (length devs) ∧
         devices sub = replicate (Z.to_nat len) devs ∧
         head_ip sub = head_ip m.
Proof.
  intros Hd Ha Hlen Hfit.
  destruct (host_info m) as [infos|] eqn:Hinfo; last first.
  { destruct (Hd O) as [ip Hip]; [lia|]. by rewrite Hinfo in Hip. }
  assert (Z.of_nat (length (host_ids m)) ≤ Z.of_nat (length infos)) as Hinfos.
  { destruct (Hd (length (host_ids m) - 1)%nat) as [ip Hip]; [lia|].
    rewrite Hinfo in Hip. simpl in Hip.
    destruct (py_index infos _) as [info|] eqn:E; [|done].
    unfold py_index in E. rewrite decide_True in E.
    - destruct (infos !! _) eqn:E'; [|done].
      apply lookup_lt_Some in E'. lia.
    - destruct (decide (0 ≤ Z.of_nat (length (host_ids m) - 1)
                        < Z.of_nat (length infos))); [done|].
      rewrite decide_False in E by lia. done. }
  unfold slice_2d.
  rewrite res_map_py_index_seqZ by lia. simpl.
  unfold host_info_at. rewrite Hinfo.
  rewrite res_map_py_index_seqZ by lia. simpl.
  rewrite map_const_replicate, length_seqZ.
  rewrite (py_index_lookup _ O devs) by (apply lookup_replicate_2; lia).
  simpl. unfold __init__.
  rewrite check_devices_uniform by (rewrite length_take, length_drop; lia).
  simpl.
  edestruct (build_device_strs_total
               (take (Z.to_nat len) (drop (Z.to_nat a) (host_ids m)))
               (Some (take (Z.to_nat len) (drop (Z.to_nat a) infos)))
               (replicate (Z.to_nat len) devs)) as [strs ->].
  - rewrite length_take, length_drop. intros i Hi.
    destruct (Hd (Z.to_nat a + i)%nat) as [ip Hip]; [lia|]. exists ip.
    rewrite Hinfo in Hip. simpl in *.
    destruct (py_index infos _) as [info|] eqn:E; [|done].
    assert (infos !! (Z.to_nat a + i)%nat = Some info) as Hinfo_i.
    { unfold py_index in E. rewrite decide_True in E by lia.
      rewrite Nat2Z.id in E. destruct (infos !! _); by simplify_eq. }
    rewrite (py_index_lookup _ i info); [done|].
    by rewrite lookup_take_lt, lookup_drop by lia.
  - simpl. eexists. split_and!; done.
Qed.

Lemma profiling_submesh_ok m (sh sd i j : Z) :
  hosts_described m → 0 < sh → 0 < sd →
  0 ≤ i < Z.of_nat (length (host_ids m)) `div` sh →
  ∃ sub, profiling_submesh m sh sd i j = Ok sub ∧
         host_ids sub = take (Z.to_nat sh) (drop (Z.to_nat (i * sh)) (host_ids m)) ∧
         devices sub = replicate (Z.to_nat sh) (seqZ (j * sd) sd) ∧
         shape sub = (sh, sd).
Proof.
  intros Hd Hsh Hsd Hi. unfold profiling_submesh, py_range2.
  replace ((i + 1) * sh - i * sh) with sh by lia.
  replace ((j + 1) * sd - j * sd) with sd by lia.
  pose proof (Z.mul_div_le (Z.of_nat (length (host_ids m))) sh Hsh) as Hle.
  destruct (slice_2d_range m (i * sh) sh (seqZ (j * sd) sd))
    as (sub & Hsub & Hhs & Hn & Hdev & _); [done | nia | done | nia |].
  exists sub. split_and!; [done..|].
  unfold shape. rewrite Hhs, Hn, length_take, length_drop, length_seqZ.
  f_equal; [nia | lia].
Qed.

Lemma elem_of_submesh_cells (sh sd i j : Z) (c : Z * Z) :
  c ∈ submesh_cells sh sd i j ↔
  i * sh ≤ c.1 < (i + 1) * sh ∧ j * sd ≤ c.2 < (j + 1) * sd.
Proof.
  unfold submesh_cells, py_range2. rewrite list_elem_of_bind. split.
  - intros (x & (y & ->%list_elem_of_singleton & Hy%elem_of_seqZ)%list_elem_of_bind
              & Hx%elem_of_seqZ). simpl. lia.
  - intros [Hx Hy]. exists c.1. split.
    + apply list_elem_of_bind. exists c.2. split.
      * destruct c. by apply list_elem_of_singleton.
      * apply elem_of_seqZ. lia.
    + apply elem_of_seqZ. lia.
Qed.

(** C6. On a constructed virtual mesh of shape [(H, D)] and for positive
    submesh sizes [sh] and [sd], [slice_profiling_submeshes] returns
    [(H // sh) * (D // sd)] submeshes; the one at position
    [i * (D // sd) + j] (row-major over the submesh grid) is the [slice_2d]
    over the host positions [i * sh, ..., (i + 1) * sh - 1] and the device
    indices [j * sd, ..., (j + 1) * sd - 1], it has shape [(sh, sd)], and the
    cells of two different grid positions are disjoint. *)
Theorem slice_profiling_submeshes_grid host_ids0 host_info0 head_ip0 n devices0
  (m : VirtualPhysicalMesh) (sh sd : Z) :
  __init__ host_ids0 host_info0 head_ip0 n devices0 = Ok m →
  0 < sh → 0 < sd →
  ∃ subs,
    slice_profiling_submeshes m sh sd = Ok subs ∧
    length subs = (Z.to_nat (Z.of_nat (length (host_ids m)) `div` sh)
                   * Z.to_nat (num_devices_per_host m `div` sd))%nat ∧
    (0 ≤ num_devices_per_host m →
     Z.of_nat (length subs)
     = (Z.of_nat (length (host_ids m)) `div` sh)
       * (num_devices_per_host m `div` sd)) ∧
    (∀ i j,
       0 ≤ i < Z.of_nat (length (host_ids m)) `div` sh →
       0 ≤ j < num_devices_per_host m `div` sd →
       ∃ sub,
         subs !! Z.to_nat (i * (num_devices_per_host m `div` sd) + j) = Some sub ∧
         profiling_submesh m sh sd i j = Ok sub ∧
         shape sub = (sh, sd) ∧
         host_ids sub
         = take (Z.to_nat sh) (drop (Z.to_nat (i * sh)) (host_ids m)) ∧
         devices sub = replicate (Z.to_nat sh) (seqZ (j * sd) sd)) ∧
    (∀ i j i' j', (i, j) ≠ (i', j') →
       submesh_cells sh sd i j ## submesh_cells sh sd i' j').
Proof.
  intros Hd%constructed_hosts_described Hsh Hsd.
  set (nh := Z.of_nat (length (host_ids m)) `div` sh).
  set (nd := num_devices_per_host m `div` sd).
  set (F := λ i j, sub_or_empty (profiling_submesh m sh sd i j)).
  assert (∀ i j, 0 ≤ i < nh → profiling_submesh m sh sd i j = Ok (F i j)) as HF.
  { intros i j Hi. unfold F.
    by destruct (profiling_submesh_ok m sh sd i j Hd Hsh Hsd Hi) as (sub & -> & _). }
  exists (flat_map (λ i, map (F i) (seqZ 0 nd)) (seqZ 0 nh)).
  assert (length (flat_map (λ i, map (F i) (seqZ 0 nd)) (seqZ 0 nh))
          = (Z.to_nat nh * Z.to_nat nd)%nat) as Hlen.
  { rewrite (length_flat_map_const _ _ (Z.to_nat nd)).
    - by rewrite length_seqZ.
    - intros i. by rewrite length_map, length_seqZ. }
  split_and!.
  - unfold slice_profiling_submeshes.
    rewrite !decide_False by lia. fold nh nd. unfold py_range.
    rewrite (res_fold_append_nested _ F); [done|].
    intros i j Hi%elem_of_seqZ _. apply HF. lia.
  - exact Hlen.
  - intros HD. rewrite Hlen.
    assert (0 ≤ nh) by (apply Z.div_pos; lia).
    assert (0 ≤ nd) by (apply Z.div_pos; lia).
    lia.
  - intros i j Hi Hj.
    destruct (profiling_submesh_ok m sh sd i j Hd Hsh Hsd Hi)
      as (sub & Hsub & Hhs & Hdev & Hshape).
    exists sub. split_and!; [|done..].
    replace (Z.to_nat (i * nd + j))
      with (Z.to_nat i * Z.to_nat nd + Z.to_nat j)%nat by nia.
    rewrite (lookup_flat_map_uniform _ _ (Z.to_nat nd) _ _ i).
    + change (map ?f ?l) with (f <$> l). rewrite list_lookup_fmap.
      rewrite lookup_seqZ_lt by lia. simpl.
      rewrite Z2Nat.id by lia. rewrite HF in Hsub by done. by simplify_eq.
    + intros y. by rewrite length_map, length_seqZ.
    + rewrite lookup_seqZ_lt by lia. f_equal. lia.
    + lia.
  - intros i j i' j' Hne. apply elem_of_disjoint.
    intros c [Hi Hj]%elem_of_submesh_cells [Hi' Hj']%elem_of_submesh_cells.
    apply Hne. f_equal; nia.
Qed.

(** On the two-host, two-device mesh, submeshes of one host and one
    device. *)
Lemma slice_profiling_submeshes_grid_witness :
  ∃ subs,
    slice_profiling_submeshes Examples.vmesh22_obj 1 1 = Ok subs ∧
    length subs
    = (Z.to_nat (Z.of_nat (length (host_ids Examples.vmesh22_obj)) `div` 1)
       * Z.to_nat (num_devices_per_host Examples.vmesh22_obj `div` 1))%nat ∧
    (0 ≤ num_devices_per_host Examples.vmesh22_obj →
     Z.of_nat (length subs)
     = (Z.of_nat (length (host_ids Examples.vmesh22_obj)) `div` 1)
       * (num_devices_per_host Examples.vmesh22_obj `div` 1)) ∧
    (∀ i j,
       0 ≤ i < Z.of_nat (length (host_ids Examples.vmesh22_obj)) `div` 1 →
       0 ≤ j < num_devices_per_host Examples.vmesh22_obj `div` 1 →
       ∃ sub,
         subs !! Z.to_nat (i * (num_devices_per_host Examples.vmesh22_obj `div` 1)
                           + j) = Some sub ∧
         profiling_submesh Examples.vmesh22_obj 1 1 i j = Ok sub ∧
         shape sub = (1, 1) ∧
         host_ids sub
         = take (Z.to_nat 1) (drop (Z.to_nat (i * 1))
                                (host_ids Examples.vmesh22_obj)) ∧
         devices sub = replicate (Z.to_nat 1) (seqZ (j * 1) 1)) ∧
    (∀ i j i' j', (i, j) ≠ (i', j') →
       submesh_cells 1 1 i j ## submesh_cells 1 1 i' j').
Proof.
  apply (slice_profiling_submeshes_grid
           (Some [0; 1]) (Some Examples.host_info2) (Some "10.0.0.1") 2 None
           Examples.vmesh22_obj 1 1).
  - vm_compute. reflexivity.
  - lia.
  - lia.
Defined.

(** The four submeshes of that example. *)
Lemma slice_vmesh22_by_1_1 :
  (λ subs, map (λ sub, (host_ids sub, devices sub)) subs)
    <$> (match slice_profiling_submeshes Examples.vmesh22_obj 1 1 with
         | Ok subs => Some subs | Raise _ => None end)
  = Some [([0], [[0]]); ([0], [[1]]); ([1], [[0]]); ([1], [[1]])].
Proof. vm_compute. reflexivity. Qed.

End VirtualFacts.

(** ** [shard_args] *)

Module DriverFacts.
Section DriverFacts.
Context `{Numpy NdArray}.
Context {HIndex : Type} `{EqDecision HIndex}.
Variable _hashable_index : Index → HIndex.

Import Driver.
Implicit Types (w : World (NdArray := NdArray)).
Implicit Types (method : M (Worker.MeshHostWorker NdArray) unit).
Implicit Types (shards : list (Shard (NdArray := NdArray))).
Implicit Types (arg : Arg (NdArray := NdArray)).
Implicit Types (a : DArray.DistributedArray NdArray).

Lemma keeps_bind {A B}
  (P : World (NdArray := NdArray) → World (NdArray := NdArray) → Prop)
  (m : M (World (NdArray := NdArray)) A)
  (k : A → M (World (NdArray := NdArray)) B) :
  (∀ w1 w2 w3, P w1 w2 → P w2 w3 → P w1 w3) →
  keeps P m → (∀ x, keeps P (k x)) → keeps P (st_bind m k).
Proof.
  intros Htrans Hm Hk w. unfold st_bind. specialize (Hm w).
  destruct (m w) as [w1 [x|e]]; simpl in *; [|done].
  eapply Htrans; [exact Hm | apply Hk].
Qed.

Lemma same_darrays_trans w1 w2 w3 :
  same_darrays w1 w2 → same_darrays w2 w3 → same_darrays w1 w3.
Proof. unfold same_darrays. congruence. Qed.

Lemma same_core_refl w : same_core w w.
Proof. intros id a Ha. by exists a. Qed.

Lemma same_core_trans w1 w2 w3 :
  same_core w1 w2 → same_core w2 w3 → same_core w1 w3.
Proof.
  intros H12 H23 id a Ha.
  destruct (H12 id a Ha) as (a2 & Ha2 & Hi2 & Hb2).
  destruct (H23 id a2 Ha2) as (a3 & Ha3 & Hi3 & Hb3).
  exists a3. split_and!; congruence.
Qed.

Lemma same_darrays_core w w' : same_darrays w w' → same_core w w'.
Proof. intros Heq id a Ha. exists a. by rewrite Heq. Qed.

Lemma keeps_same_core {A} (c : M (World (NdArray := NdArray)) A) :
  keeps same_darrays c → keeps same_core c.
Proof. intros Hc w. apply same_darrays_core, Hc. Qed.

(** Putting shards on the workers does not touch the array objects. *)
Lemma remote_call_darrays device_mesh host_id method :
  keeps (NdArray := NdArray) same_darrays (remote_call device_mesh host_id method).
Proof.
  intros w. unfold remote_call, st_bind, get_mesh, st_raise, st_lift, set_mesh.
  destruct (meshes w !! device_mesh) as [m|]; simpl; [|done].
  destruct (Physical.workers m) as [ws|]; simpl; [|done].
  destruct (py_position _ _); simpl; [|done].
  destruct (ws !! _); done.
Qed.

Lemma device_mesh_put_loop_darrays device_mesh cells shards pt buf_refs :
  keeps (NdArray := NdArray) same_darrays (device_mesh_put_loop device_mesh cells shards pt buf_refs).
Proof.
  revert pt buf_refs. induction cells as [|[host_id device_id] cells IH];
    intros pt buf_refs; simpl; [done|].
  apply keeps_bind; [apply same_darrays_trans | by intros w | intros shard].
  apply keeps_bind; [apply same_darrays_trans | by intros w | intros uuid].
  apply keeps_bind; [apply same_darrays_trans | by intros w | intros dummy].
  apply keeps_bind; [apply same_darrays_trans | | intros _; apply IH].
  destruct dummy; apply remote_call_darrays.
Qed.

Lemma device_mesh_put_darrays device_mesh shards :
  keeps (NdArray := NdArray) same_darrays (_device_mesh_put device_mesh shards).
Proof.
  apply keeps_bind; [apply same_darrays_trans | by intros w | intros m].
  apply device_mesh_put_loop_darrays.
Qed.

Lemma count_handler_call_darrays : keeps (NdArray := NdArray) same_darrays count_handler_call.
Proof. by intros w. Qed.

Lemma memory_query_darrays self : keeps (NdArray := NdArray) same_darrays (memory_query self).
Proof.
  intros w. unfold memory_query, st_bind, get_mesh, st_raise, st_lift,
    count_memory_query, st_ret.
  destruct (meshes w !! self) as [m|]; simpl; [|done].
  destruct (Physical.workers m) as [ws|]; simpl; [|done].
  destruct (py_index ws 0) as [worker|]; simpl; [|done].
  destruct (Worker.local_devices worker); done.
Qed.

(** Replacing an array object by one with the same indices and remote
    buffers. *)
Lemma set_darray_core id a a' w :
  darrays w !! id = Some a →
  DArray.indices a' = DArray.indices a →
  DArray.remote_buffers a' = DArray.remote_buffers a →
  same_core w (set_darray id a' w).1.
Proof.
  intros Ha Hi Hb id0 a0 Ha0. simpl.
  destruct (decide (id = id0)) as [->|Hne].
  - rewrite lookup_insert_eq. exists a'. split_and!; congruence.
  - rewrite lookup_insert_ne by done. by exists a0.
Qed.

Lemma one_replica_core (a : DArray.DistributedArray NdArray) :
  DArray.indices (DArray.one_replica_buffer_indices _hashable_index a).1
  = DArray.indices a ∧
  DArray.remote_buffers (DArray.one_replica_buffer_indices _hashable_index a).1
  = DArray.remote_buffers a.
Proof.
  unfold DArray.one_replica_buffer_indices.
  by destruct (DArray._one_replica_buffer_indices a).
Qed.

Lemma cache_value_core (a : DArray.DistributedArray NdArray) v :
  DArray.indices (DArray.cache_value _hashable_index a v) = DArray.indices a ∧
  DArray.remote_buffers (DArray.cache_value _hashable_index a v)
  = DArray.remote_buffers a.
Proof. unfold DArray.cache_value. simpl. apply one_replica_core. Qed.

(** Materialising an array only fills its caches. *)
Lemma value_core id : keeps (NdArray := NdArray) same_core (_value _hashable_index id).
Proof.
  intros w. unfold _value, st_bind, get_darray.
  destruct (darrays w !! id) as [a|] eqn:Ha; simpl; [|apply same_core_refl].
  destruct (DArray._npy_value a); simpl; [apply same_core_refl|].
  destruct (DArray.one_replica_buffer_indices _hashable_index a)
    as [a1 one] eqn:E1.
  pose proof (one_replica_core a) as [Hi1 Hb1]. rewrite E1 in Hi1, Hb1.
  simpl in Hi1, Hb1.
  assert (same_core w (set_darray id a1 w).1) as Hw1
    by (by apply (set_darray_core id a)).
  unfold st_bind. simpl. unfold st_lift, get_mesh. simpl.
  destruct (res_map _ one) as [refs|]; simpl; [|exact Hw1].
  destruct (meshes w !! DArray.device_mesh a1) as [mesh|]; simpl; [|exact Hw1].
  destruct (get_remote_buffers mesh refs) as [fetched|]; simpl; [|exact Hw1].
  destruct (fill_value _ _ _ _ _) as [v|]; simpl; [|exact Hw1].
  eapply same_core_trans; [exact Hw1|].
  pose proof (cache_value_core a1 v) as [Hi2 Hb2].
  apply (set_darray_core id a1); [simpl; by rewrite lookup_insert_eq | done | done].
Qed.

(** Materialising a reachable array leaves a reachable array. *)
Lemma value_keeps_reachable id w a :
  darrays w !! id = Some a → DArray.reachable _hashable_index a →
  ∃ a', darrays (_value _hashable_index id w).1 !! id = Some a' ∧
        DArray.reachable _hashable_index a'.
Proof.
  intros Ha Hr. unfold _value, st_bind, get_darray. rewrite Ha. simpl.
  destruct (DArray._npy_value a); simpl; [by exists a|].
  pose proof (DArray.reach_one_replica _ a Hr) as Hr1.
  destruct (DArray.one_replica_buffer_indices _hashable_index a)
    as [a1 one] eqn:E1. simpl in Hr1.
  assert (darrays (set_darray id a1 w).1 !! id = Some a1) as Hw1
    by (simpl; by rewrite lookup_insert_eq).
  unfold st_bind. simpl. unfold st_lift, get_mesh. simpl.
  destruct (res_map _ one) as [refs|]; simpl; [|by exists a1].
  destruct (meshes w !! DArray.device_mesh a1) as [mesh|]; simpl;
    [|by exists a1].
  destruct (get_remote_buffers mesh refs) as [fetched|]; simpl;
    [|by exists a1].
  destruct (fill_value _ _ _ _ _) as [v|]; simpl; [|by exists a1].
  exists (DArray.cache_value _hashable_index a1 v).
  split; [by rewrite lookup_insert_eq | by apply DArray.reach_value].
Qed.

Lemma shard_array_core (x : NdArray) device_mesh indices :
  keeps (NdArray := NdArray) same_core (_shard_array x device_mesh indices).
Proof. apply keeps_same_core, device_mesh_put_darrays. Qed.

Lemma shard_abstract_array_core x device_mesh indices :
  keeps (NdArray := NdArray) same_core (_shard_abstract_array x device_mesh indices).
Proof.
  apply keeps_same_core.
  apply keeps_bind; [apply same_darrays_trans | by intros w | intros dummy].
  destruct dummy; [|by intros w].
  apply keeps_bind; [apply same_darrays_trans | by intros w | intros shards].
  apply device_mesh_put_darrays.
Qed.

Lemma shard_device_array_core (x : NdArray) device_mesh indices :
  keeps (NdArray := NdArray) same_core (_shard_device_array x device_mesh indices).
Proof.
  apply keeps_same_core.
  apply keeps_bind; [apply same_darrays_trans | by intros w | intros dummy].
  destruct dummy; apply device_mesh_put_darrays.
Qed.

Lemma shard_distributed_array_core array device_mesh indices :
  keeps (NdArray := NdArray) same_core (_shard_distributed_array _hashable_index array device_mesh indices).
Proof.
  apply keeps_bind; [apply same_core_trans | apply value_core | intros _].
  apply keeps_bind; [apply same_core_trans | apply value_core | intros v].
  apply keeps_bind; [apply same_core_trans | | intros _; apply shard_array_core].
  apply keeps_same_core, count_handler_call_darrays.
Qed.

Lemma delete_arg_core arg : keeps (NdArray := NdArray) same_core (delete_arg arg).
Proof.
  destruct arg as [id| | | | |]; try (intros w; apply same_core_refl).
  intros w. unfold delete_arg, st_bind, get_darray.
  destruct (darrays w !! id) as [a|] eqn:Ha; simpl; [|apply same_core_refl].
  apply (set_darray_core id a); [done | |]; by rewrite DArrayFacts.delete_eq.
Qed.

Lemma slow_path_core self arg indices donated :
  keeps (NdArray := NdArray) same_core (slow_path _hashable_index self arg indices donated).
Proof.
  unfold slow_path.
  pose proof (λ s, keeps_same_core _ (memory_query_darrays s)) as Hq.
  pose proof (keeps_same_core _ count_handler_call_darrays) as Hc.
  apply keeps_bind; [apply same_core_trans | apply Hq | intros _].
  apply keeps_bind; [apply same_core_trans | apply Hq | intros _].
  apply keeps_bind; [apply same_core_trans | | intros arg'].
  { destruct arg as [| | | | |[]]; intros w; apply same_core_refl. }
  apply keeps_bind; [apply same_core_trans | | intros bufs].
  { destruct arg'; try (intros w; apply same_core_refl);
      (apply keeps_bind; [apply same_core_trans | apply Hc | intros _]).
    - apply shard_distributed_array_core.
    - apply shard_array_core.
    - apply shard_abstract_array_core.
    - apply shard_device_array_core. }
  apply keeps_bind; [apply same_core_trans | | intros _].
  { destruct donated; [apply delete_arg_core | intros w; apply same_core_refl]. }
  apply keeps_bind; [apply same_core_trans | apply Hq | intros _].
  apply keeps_bind; [apply same_core_trans | apply Hq | intros _].
  intros w. apply same_core_refl.
Qed.

Lemma shard_arg_core self arg indices donated :
  keeps (NdArray := NdArray) same_core (shard_arg _hashable_index self arg indices donated).
Proof.
  destruct arg as [id|r| | | |]; try apply slow_path_core.
  - apply keeps_bind; [apply same_core_trans | | intros a].
    { intros w. apply same_core_refl. }
    case_decide; [intros w; apply same_core_refl | apply slow_path_core].
  - simpl. apply keeps_bind; [apply same_core_trans | | intros rid].
    { intros w. apply same_core_refl. }
    apply keeps_bind; [apply same_core_trans | | intros a].
    { intros w. apply same_core_refl. }
    case_decide; intros w; apply same_core_refl.
Qed.

(** The loop of [shard_args] appends one entry per argument. *)
Lemma shard_args_loop_prefix self triples acc w w' out :
  shard_args_loop _hashable_index self triples acc w = (w', Ok out) →
  ∃ tail, out = acc ++ tail ∧ length tail = length triples.
Proof.
  revert acc w. induction triples as [|[[arg idx] d] rest IH]; intros acc w; simpl.
  - intros [= <- <-]. exists []. by rewrite app_nil_r.
  - unfold st_bind at 1.
    destruct (shard_arg _ _ _ _ _ w) as [w1 [b|e]]; [|done].
    intros (tail & -> & Hlen)%IH. exists (b :: tail).
    split; [by rewrite <- app_assoc | simpl; lia].
Qed.

Lemma shard_arg_fast self id a idx donated w :
  darrays w !! id = Some a → DArray.indices a = idx →
  shard_arg _hashable_index self (ArgDistributedArray id) idx donated w
  = (w, Ok (DArray.remote_buffers a)).
Proof.
  intros Ha Hi. unfold shard_arg, st_bind, get_darray. rewrite Ha.
  by rewrite decide_True.
Qed.

Lemma shard_args_loop_all_fast self triples acc w :
  Forall (matching w) triples →
  shard_args_loop _hashable_index self triples acc w
  = (w, Ok (acc ++ (matching_bufs w <$> triples))).
Proof.
  intros Hall. revert acc. induction Hall as [|[[arg idx] d] rest Ht _ IH];
    intros acc; simpl.
  - by rewrite app_nil_r.
  - destruct Ht as (id & a & Harg & Ha & Hi). simpl in *. subst arg.
    unfold st_bind at 1. rewrite (shard_arg_fast _ id a) by done.
    rewrite IH. unfold matching_bufs at 2. simpl. rewrite Ha.
    by rewrite <- app_assoc.
Qed.

Lemma shard_args_loop_position self triples acc w w' out k id idx d a :
  shard_args_loop _hashable_index self triples acc w = (w', Ok out) →
  triples !! k = Some (ArgDistributedArray id, idx, d) →
  darrays w !! id = Some a → DArray.indices a = idx →
  out !! (length acc + k)%nat = Some (DArray.remote_buffers a).
Proof.
  revert acc w k a. induction triples as [|[[arg0 idx0] d0] rest IH];
    intros acc w k a Hloop Hk Ha Hi; [by rewrite lookup_nil in Hk|].
  simpl in Hloop. unfold st_bind at 1 in Hloop.
  destruct k as [|k]; simpl in Hk; simplify_eq.
  - rewrite (shard_arg_fast _ id a) in Hloop by done.
    apply shard_args_loop_prefix in Hloop as (tail & -> & _).
    rewrite Nat.add_0_r, <- app_assoc. by rewrite lookup_app_r, Nat.sub_diag.
  - pose proof (shard_arg_core self arg0 idx0 d0 w) as Hcore.
    destruct (shard_arg _ _ _ _ _ w) as [w1 [b|e]]; [|done]. simpl in Hcore.
    destruct (Hcore id a Ha) as (a1 & Ha1 & Hi1 & Hb1).
    rewrite <- Hb1.
    replace (length acc + S k)%nat with (length (acc ++ [b]) + k)%nat
      by (rewrite length_app; simpl; lia).
    by eapply IH.
Qed.

Lemma lookup_zip3 {A B C} (xs : list A) (ys : list B) (zs : list C) k x y z :
  xs !! k = Some x → ys !! k = Some y → zs !! k = Some z →
  zip3 xs ys zs !! k = Some (x, y, z).
Proof.
  intros Hx Hy Hz. unfold zip3.
  apply lookup_zip_with_Some. exists (x, y), z. split_and!; [done| |done].
  apply lookup_zip_with_Some. by exists x, y.
Qed.

(** C3. In distributed mode, an argument of [shard_args] that is a
    [DistributedArray] whose stored indices equal the requested ones
    (a) is handled by a step that returns its [remote_buffers] and leaves
    the whole state as it is: no handler of [shard_arg_handlers] is called,
    no uuid is drawn for a new buffer, and the buffer map of every worker is
    unchanged; (b) yields its [remote_buffers] at its position of the result
    of the call, whatever the other arguments are; and (c) when every
    argument is of this kind the call changes nothing at all. *)
Theorem shard_args_reuses_matching_buffers :
  (∀ self id a idx donated w,
     darrays w !! id = Some a → DArray.indices a = idx →
     ∃ w', shard_arg _hashable_index self (ArgDistributedArray id) idx donated w
           = (w', Ok (DArray.remote_buffers a)) ∧
           w' = w ∧
           handler_calls w' = handler_calls w ∧
           next_uuid w' = next_uuid w ∧
           worker_buffers w' = worker_buffers w) ∧
  (∀ self arg_indices donated_invars args w w' out k id idx d a,
     shard_args _hashable_index self arg_indices donated_invars args w
     = (w', Ok (Some out)) →
     args !! k = Some (ArgDistributedArray id) →
     arg_indices !! k = Some idx → donated_invars !! k = Some d →
     darrays w !! id = Some a → DArray.indices a = idx →
     out !! k = Some (DArray.remote_buffers a)) ∧
  (∀ self m arg_indices donated_invars args w,
     meshes w !! self = Some m → Physical.is_distributed m = true →
     Forall (matching w) (zip3 args arg_indices donated_invars) →
     shard_args _hashable_index self arg_indices donated_invars args w
     = (w, Ok (Some (matching_bufs w <$> zip3 args arg_indices donated_invars)))).
Proof.
  split_and!.
  - intros self id a idx donated w Ha Hi. exists w.
    split; [by apply shard_arg_fast | done].
  - intros self arg_indices donated_invars args w w' out k id idx d a
      Hcall Harg Hidx Hd Ha Hi.
    unfold shard_args, st_bind, get_mesh in Hcall.
    destruct (meshes w !! self) as [m|]; simpl in Hcall; [|done].
    destruct (Physical.is_distributed m); [|by inversion Hcall].
    destruct (shard_args_loop _ _ _ _ w) as [w1 [bufs|e]] eqn:Hloop;
      [|done].
    unfold st_ret in Hcall. assert (bufs = out) as -> by congruence.
    by apply (shard_args_loop_position _ _ [] _ _ _ k id idx d a Hloop
                (lookup_zip3 _ _ _ _ _ _ _ Harg Hidx Hd)).
  - intros self m arg_indices donated_invars args w Hm Hdist Hall.
    unfold shard_args, st_bind, get_mesh. rewrite Hm. simpl. rewrite Hdist.
    by rewrite shard_args_loop_all_fast.
Qed.

End DriverFacts.

(** [shard_args] in [Examples.world1]: object 5 alone with its own indices,
    and object 5 after a host array that takes the slow path. *)
Lemma shard_args_reuses_matching_buffers_witness :
  (∃ w', Driver.shard_arg DArray.jax_hashable_index 0
           (Driver.ArgDistributedArray 5)
           [Examples.idx03; Examples.idx36] true Examples.world1
         = (w', Ok [Examples.ref100; Examples.ref101]) ∧
         w' = Examples.world1 ∧
         Driver.handler_calls w' = Driver.handler_calls Examples.world1 ∧
         Driver.next_uuid w' = Driver.next_uuid Examples.world1 ∧
         Driver.worker_buffers w' = Driver.worker_buffers Examples.world1) ∧
  Examples.mixed_out !! 1%nat = Some [Examples.ref100; Examples.ref101] ∧
  Driver.shard_args DArray.jax_hashable_index 0
    [[Examples.idx03; Examples.idx36]] [true] [Driver.ArgDistributedArray 5]
    Examples.world1
  = (Examples.world1,
     Ok (Some (Driver.matching_bufs Examples.world1
                 <$> Driver.zip3 [Driver.ArgDistributedArray 5]
                       [[Examples.idx03; Examples.idx36]] [true]))).
Proof.
  destruct (shard_args_reuses_matching_buffers (NdArray := list Z)
              DArray.jax_hashable_index) as (Hstep & Hpos & Hall).
  split; [|split].
  - apply (Hstep 0%nat 5%nat Examples.array5).
    + vm_compute. reflexivity.
    + reflexivity.
  - apply (Hpos 0%nat
             [[Examples.idx36; Examples.idx03]; [Examples.idx03; Examples.idx36]]
             [false; false]
             [Driver.ArgNdarray [1; 2; 3; 4; 5; 6]; Driver.ArgDistributedArray 5]
             Examples.world1 Examples.mixed_call.1 Examples.mixed_out
             1%nat 5%nat [Examples.idx03; Examples.idx36] false Examples.array5).
    + vm_compute. reflexivity.
    + reflexivity.
    + reflexivity.
    + reflexivity.
    + vm_compute. reflexivity.
    + reflexivity.
  - apply (Hall 0%nat Examples.mesh_in_world1).
    + vm_compute. reflexivity.
    + vm_compute. reflexivity.
    + constructor; [|constructor].
      exists 5%nat, Examples.array5. split; [reflexivity|].
      split; [vm_compute; reflexivity | reflexivity].
Defined.

(** The same object asked for at other indices takes the slow path: two
    handlers are called (the one of the distributed array and the one of
    its host value), two uuids are drawn, and the workers hold two more
    buffers. *)
Lemma shard_arg_other_indices :
  let r := Driver.shard_arg DArray.jax_hashable_index 0 (Driver.ArgDistributedArray 5)
             [Examples.idx36; Examples.idx03] false Examples.world1 in
  r.2 = Ok [DArray.mkRef 0 0 0 102 "int64"; DArray.mkRef 0 1 0 103 "int64"] ∧
  Driver.handler_calls r.1 = 2%nat ∧
  Driver.next_uuid r.1 = 104 ∧
  Driver.memory_queries r.1 = 4%nat ∧
  Driver.worker_buffers r.1 ≠ Driver.worker_buffers Examples.world1.
Proof. vm_compute. split_and!; try reflexivity. discriminate. Qed.

End DriverFacts.

(** ** The tree topology of [get_logical_mesh] *)

Module TreeFacts.
Import RingModel.

Lemma lookup_chunks (cols rows : nat) (flat : list Z) (i : nat) :
  (i < rows)%nat →
  chunks cols rows flat !! i = Some (take cols (drop (i * cols) flat)).
Proof.
  revert flat i. induction rows as [|rows IH]; intros flat i Hi; [lia|].
  destruct i as [|i]; simpl; [done|].
  rewrite IH by lia. by rewrite drop_drop.
Qed.

(** The host ids before reshaping: each host [devices_per_host] times. *)
Lemma lookup_tiled (d : nat) (hosts : nat) (a : Z) (k : nat) :
  (k < hosts * d)%nat →
  concat (map (λ h, replicate d h) (seqZ a (Z.of_nat hosts))) !! k
  = Some (a + Z.of_nat k `div` Z.of_nat d).
Proof.
  revert a k. induction hosts as [|hosts IH]; intros a k Hk; [lia|].
  assert (0 < d)%nat by (destruct d; lia).
  rewrite seqZ_cons by lia. simpl.
  replace (Z.pred (Z.of_nat (S hosts))) with (Z.of_nat hosts) by lia.
  destruct (decide (k < d)%nat) as [Hlt|Hge].
  - rewrite lookup_app_l by (by rewrite length_replicate).
    rewrite lookup_replicate_2 by done.
    rewrite Z.div_small by lia. f_equal. lia.
  - rewrite lookup_app_r by (rewrite length_replicate; lia).
    rewrite length_replicate, IH by lia. f_equal.
    replace (Z.of_nat k) with (Z.of_nat (k - d) + 1 * Z.of_nat d) by lia.
    rewrite Z.div_add by lia. lia.
Qed.

Lemma length_tiled (d : nat) (hosts : nat) (a : Z) :
  length (concat (map (λ h, replicate d h) (seqZ a (Z.of_nat hosts))))
  = (hosts * d)%nat.
Proof.
  revert a. induction hosts as [|hosts IH]; intros a; [done|].
  rewrite seqZ_cons by lia. simpl.
  replace (Z.pred (Z.of_nat (S hosts))) with (Z.of_nat hosts) by lia.
  by rewrite length_app, length_replicate, IH.
Qed.

Section Hosts.
Variables (d s0 s1 : Z).

(** *** Step 1: the tally *)

Lemma link_key_min_max (a b : Z) : link_key a b = (Z.min a b, Z.max a b).
Proof. unfold link_key. case_decide; f_equal; lia. Qed.

Lemma link_ct_get_tally_step (dim : nat) ct c key :
  link_ct_get (tally_step d s0 s1 dim ct c) key
  = link_ct_get ct key + link_count (links dim d s0 s1 [c]) key.
Proof.
  unfold tally_step, link_add, links, link_count, link_of, hosts_at. simpl.
  case_decide as Hne; simpl; [|lia].
  rewrite link_key_min_max. unfold link_ct_get.
  rewrite filter_cons. case_decide as Hk.
  - rewrite Hk, lookup_insert_eq. simpl. lia.
  - rewrite lookup_insert_ne by done. simpl. lia.
Qed.

Lemma link_count_app (l1 l2 : list (Z * Z)) key :
  link_count (l1 ++ l2) key = link_count l1 key + link_count l2 key.
Proof. unfold link_count. rewrite filter_app, length_app. lia. Qed.

Lemma links_cons (dim : nat) (c : Z * Z) (cells : list (Z * Z)) :
  links dim d s0 s1 (c :: cells)
  = links dim d s0 s1 [c] ++ links dim d s0 s1 cells.
Proof. unfold links. simpl. by destruct (link_of _ _ _ _ c). Qed.

Lemma link_ct_get_tally (dim : nat) ct cells key :
  link_ct_get (foldl (tally_step d s0 s1 dim) ct cells) key
  = link_ct_get ct key + link_count (links dim d s0 s1 cells) key.
Proof.
  revert ct. induction cells as [|c cells IH]; intros ct; cbn [foldl].
  - unfold link_count. simpl. lia.
  - rewrite IH, link_ct_get_tally_step.
    rewrite (links_cons dim c cells), link_count_app. lia.
Qed.

End Hosts.

(** *** The grid of host ids *)

Section Grid.
Variables (hosts : nat) (d s0 s1 : Z).
Hypothesis Hs0 : 0 < s0.
Hypothesis Hs1 : 0 < s1.
Hypothesis Hsize : Z.of_nat hosts * d = s0 * s1.
Hypothesis Hd : 0 ≤ d.

Lemma tiled_host_ids_ok : tiled_host_ids hosts d (s0, s1) = Ok (host_grid hosts d s0 s1).
Proof.
  unfold tiled_host_ids, np_reshape, np_reshape_shape.
  rewrite decide_False by lia. rewrite length_tiled.
  rewrite decide_False by lia. rewrite decide_False by lia.
  rewrite decide_True by nia. done.
Qed.

(** Inside the grid, a read gives the host of the cell. *)
Lemma grid_get_host (i j : Z) :
  0 ≤ i < s0 → 0 ≤ j < s1 →
  grid_get (host_grid hosts d s0 s1) i j = Ok (host_of d s1 i j).
Proof.
  intros Hi Hj. unfold grid_get, host_grid.
  rewrite (py_index_nonneg _ i
             (take (Z.to_nat s1) (drop (Z.to_nat i * Z.to_nat s1)
                (concat (map (λ h, replicate (Z.to_nat d) h)
                           (seqZ 0 (Z.of_nat hosts)))))));
    [| lia | apply lookup_chunks; lia].
  simpl. apply py_index_nonneg; [lia|].
  rewrite lookup_take_lt, lookup_drop by lia.
  rewrite lookup_tiled by nia.
  unfold host_of. f_equal. rewrite Z.add_0_l. f_equal; nia.
Qed.

Lemma ring_next_in_grid (dim : nat) (c : Z * Z) :
  0 ≤ c.1 < s0 → 0 ≤ c.2 < s1 →
  0 ≤ (ring_next dim s0 s1 c).1 < s0 ∧ 0 ≤ (ring_next dim s0 s1 c).2 < s1.
Proof.
  intros Hi Hj. destruct dim; simpl; split; try done.
  - apply Z.mod_pos_bound. lia.
  - apply Z.mod_pos_bound. lia.
Qed.

Lemma neighbours_hosts (dim : nat) (i j : Z) :
  0 ≤ i < s0 → 0 ≤ j < s1 →
  neighbours dim (host_grid hosts d s0 s1) s0 s1 i j
  = Ok (hosts_at d s0 s1 dim (i, j)).
Proof.
  intros Hi Hj. unfold neighbours, hosts_at.
  rewrite grid_get_host by done. simpl.
  destruct (ring_next_in_grid dim (i, j) Hi Hj) as [Hi' Hj'].
  destruct dim; simpl in *; by rewrite grid_get_host.
Qed.

End Grid.

(** Two nested loops whose body does not raise are a left fold over the
    pairs of the two ranges. *)
Lemma res_fold_nested_pure {A1 A2 C B} (f : B → A1 → A2 → res B)
  (mk : A1 → A2 → C) (g : B → C → B) (l1 : list A1) (l2 : list A2) (b : B) :
  (∀ b' x y, x ∈ l1 → y ∈ l2 → f b' x y = Ok (g b' (mk x y))) →
  res_fold (λ b' x, res_fold (λ b'' y, f b'' x y) l2 b') l1 b
  = Ok (foldl g b (x ← l1; y ← l2; [mk x y])).
Proof.
  intros Hf. revert b. induction l1 as [|x l1 IH]; intros b; simpl; [done|].
  rewrite (res_fold_pure _ (λ b' y, g b' (mk x y)))
    by (intros; apply Hf; [left | done]).
  simpl. rewrite IH by (intros; apply Hf; [by right | done]).
  rewrite foldl_app. f_equal. f_equal.
  clear. revert b. induction l2 as [|y l2 IH]; intros b; simpl; [done|].
  apply IH.
Qed.

Lemma res_fold_fmap {A A' B} (f : B → A' → res B) (h : A → A') (l : list A)
  (b : B) :
  res_fold f (h <$> l) b = res_fold (λ b' x, f b' (h x)) l b.
Proof.
  revert b. induction l as [|x l IH]; intros b; simpl; [done|].
  destruct (f b (h x)); simpl; [apply IH | done].
Qed.

Section Tree.
Variables (hosts : nat) (d s0 s1 : Z).
Hypothesis Hs0 : 0 < s0.
Hypothesis Hs1 : 0 < s1.
Hypothesis Hsize : Z.of_nat hosts * d = s0 * s1.
Hypothesis Hd : 0 ≤ d.

Lemma elem_of_all_cells (dim : nat) (c : Z * Z) :
  c ∈ all_cells dim s0 s1 ↔ 0 ≤ c.1 < s0 ∧ 0 ≤ c.2 < s1.
Proof.
  destruct c as [i j]. unfold all_cells.
  destruct dim; rewrite list_elem_of_bind; simpl; split.
  - intros (y & (x & Hc%list_elem_of_singleton & Hx%elem_of_seqZ)%list_elem_of_bind
              & Hy%elem_of_seqZ). simplify_eq. lia.
  - intros [Hi Hj]. exists j. split; [|apply elem_of_seqZ; lia].
    apply list_elem_of_bind. exists i.
    split; [by apply list_elem_of_singleton | apply elem_of_seqZ; lia].
  - intros (x & (y & Hc%list_elem_of_singleton & Hy%elem_of_seqZ)%list_elem_of_bind
              & Hx%elem_of_seqZ). simplify_eq. lia.
  - intros [Hi Hj]. exists i. split; [|apply elem_of_seqZ; lia].
    apply list_elem_of_bind. exists j.
    split; [by apply list_elem_of_singleton | apply elem_of_seqZ; lia].
Qed.

Lemma elem_of_line_cells (dim : nat) (c : Z * Z) :
  c ∈ line_cells dim s0 s1 → c ∈ all_cells dim s0 s1.
Proof.
  rewrite elem_of_all_cells. unfold line_cells.
  destruct dim; intros (x & -> & Hx%elem_of_seqZ)%list_elem_of_fmap; simpl; lia.
Qed.

(** The dict that the first step of the code builds holds, for each pair of
    hosts, the number of links between them over the whole grid. *)
Lemma count_links_whole_grid (dim : nat) :
  ∃ ct, count_links dim (host_grid hosts d s0 s1) s0 s1 = Ok ct ∧
        ∀ key, link_ct_get ct key
               = link_count (links dim d s0 s1 (all_cells dim s0 s1)) key.
Proof.
  exists (foldl (tally_step d s0 s1 dim) ∅ (all_cells dim s0 s1)). split.
  - unfold count_links, all_cells, py_range. destruct dim as [|dim].
    + apply (res_fold_nested_pure
               (λ ct j i, let? lr := neighbours 0 _ s0 s1 i j in
                          Ok (link_add ct lr.1 lr.2))
               (λ j i, (i, j)) (tally_step d s0 s1 0)).
      intros ct j i Hj%elem_of_seqZ Hi%elem_of_seqZ.
      by rewrite (neighbours_hosts hosts d s0 s1) by (done || lia).
    + apply (res_fold_nested_pure
               (λ ct i j, let? lr := neighbours 1 _ s0 s1 i j in
                          Ok (link_add ct lr.1 lr.2))
               (λ i j, (i, j)) (tally_step d s0 s1 (S dim))).
      intros ct i j Hi%elem_of_seqZ Hj%elem_of_seqZ.
      by rewrite (neighbours_hosts hosts d s0 s1) by (done || lia).
  - intros key. rewrite link_ct_get_tally. unfold link_ct_get.
    rewrite lookup_empty. simpl. lia.
Qed.

(** *** Step 2: the minimum over one line *)

Lemma link_count_pos (l : list (Z * Z)) key : key ∈ l → 0 < link_count l key.
Proof.
  intros Hin. unfold link_count.
  assert (key ∈ filter (λ k, k = key) l) as Hf by (by apply list_elem_of_filter).
  destruct (filter _ l); [by apply elem_of_nil in Hf | simpl; lia].
Qed.

Lemma res_fold_ext {A B} (f g : B → A → res B) (l : list A) (b : B) :
  (∀ b' x, x ∈ l → f b' x = g b' x) → res_fold f l b = res_fold g l b.
Proof.
  revert b. induction l as [|x l IH]; intros b Hfg; simpl; [done|].
  rewrite Hfg by left. destruct (g b x); simpl; [|done].
  apply IH. intros. apply Hfg. by right.
Qed.

(** One step of the minimum, on a cell of the grid. *)
Lemma bandwidth_step_link (dim : nat) ct (c : Z * Z) (bw inter : float) :
  (∀ key, link_ct_get ct key
          = link_count (links dim d s0 s1 (all_cells dim s0 s1)) key) →
  c ∈ all_cells dim s0 s1 →
  bandwidth_step ct (Some inter) (Some bw) (hosts_at d s0 s1 dim c)
  = Ok (Some (foldl (λ b key,
                float_min b (inter / float_of_Z
                  (link_count (links dim d s0 s1 (all_cells dim s0 s1)) key))%float)
              bw (links dim d s0 s1 [c]))).
Proof.
  intros Hct Hc.
  assert (link_of dim d s0 s1 c
          = if decide ((hosts_at d s0 s1 dim c).1 ≠ (hosts_at d s0 s1 dim c).2)
            then Some (link_key (hosts_at d s0 s1 dim c).1
                                (hosts_at d s0 s1 dim c).2)
            else None) as Hlink.
  { unfold link_of, hosts_at. cbn [fst snd]. case_decide; [|done].
    by rewrite link_key_min_max. }
  change (links dim d s0 s1 [c])
    with (match link_of dim d s0 s1 c with Some y => [y] | None => [] end).
  unfold bandwidth_step.
  destruct (decide ((hosts_at d s0 s1 dim c).1 ≠ (hosts_at d s0 s1 dim c).2))
    as [Hne|Heq]; rewrite Hlink; [|done].
  cbn [foldl]. rewrite Hct. unfold bandwidth_div.
  rewrite decide_False; [done|].
  assert (0 < link_count (links dim d s0 s1 (all_cells dim s0 s1))
                (link_key (hosts_at d s0 s1 dim c).1
                          (hosts_at d s0 s1 dim c).2)); [|lia].
  apply link_count_pos. apply list_elem_of_omap. exists c.
  split; [done | exact Hlink].
Qed.

Lemma bandwidth_fold (dim : nat) ct (cells : list (Z * Z)) (bw inter : float) :
  (∀ key, link_ct_get ct key
          = link_count (links dim d s0 s1 (all_cells dim s0 s1)) key) →
  (∀ c, c ∈ cells → c ∈ all_cells dim s0 s1) →
  res_fold (λ b c, bandwidth_step ct (Some inter) b (hosts_at d s0 s1 dim c))
    cells (Some bw)
  = Ok (Some (foldl (λ b key,
                float_min b (inter / float_of_Z
                  (link_count (links dim d s0 s1 (all_cells dim s0 s1)) key))%float)
              bw (links dim d s0 s1 cells))).
Proof.
  intros Hct. revert bw. induction cells as [|c cells IH]; intros bw Hin;
    [done|].
  cbn [res_fold]. rewrite (links_cons d s0 s1 dim c cells), foldl_app.
  rewrite bandwidth_step_link by (done || apply Hin; left).
  cbn [res_bind]. apply IH. intros. apply Hin. by right.
Qed.

Lemma min_bandwidth_line (dim : nat) ct (intra inter : float) :
  (∀ key, link_ct_get ct key
          = link_count (links dim d s0 s1 (all_cells dim s0 s1)) key) →
  min_bandwidth dim (host_grid hosts d s0 s1) s0 s1 ct (Some intra) (Some inter)
  = Ok (Some (ring_bandwidth (links dim d s0 s1 (all_cells dim s0 s1))
                (links dim d s0 s1 (line_cells dim s0 s1)) intra inter)).
Proof.
  intros Hct. unfold ring_bandwidth.
  rewrite <- (bandwidth_fold dim ct) by (done || apply elem_of_line_cells).
  unfold min_bandwidth, line_cells, py_range. destruct dim as [|dim].
  - rewrite res_fold_fmap. apply res_fold_ext.
    intros b i Hi%elem_of_seqZ.
    by rewrite (neighbours_hosts hosts d s0 s1) by (done || lia).
  - rewrite res_fold_fmap. apply res_fold_ext.
    intros b j Hj%elem_of_seqZ.
    by rewrite (neighbours_hosts hosts d s0 s1) by (done || lia).
Qed.

Lemma tree_beta_whole_grid (dim : nat) (intra inter : float) :
  tree_beta dim (host_grid hosts d s0 s1) s0 s1 (Some intra) (Some inter)
  = inverse_bandwidth
      (Some (ring_bandwidth (links dim d s0 s1 (all_cells dim s0 s1))
               (links dim d s0 s1 (line_cells dim s0 s1)) intra inter)).
Proof.
  unfold tree_beta.
  destruct (count_links_whole_grid dim) as (ct & -> & Hct). simpl.
  by rewrite min_bandwidth_line.
Qed.

End Tree.

Section GetLogicalMesh.
Context `{Numpy NdArray}.

(** C4, amended. With [mesh_topology = "tree"], no [alpha]/[beta] supplied
    and float bandwidths, on a grid of positive shape [(s0, s1)] that the
    devices and the hosts fill, [get_logical_mesh] sets [alpha = [1, 1]] and
    [beta[0] = 1 / bandwidth], where the links between hosts are tallied per
    unordered host pair over every column of the grid while walking the
    ring of rows, and the bandwidth is the minimum, from
    [intra_host_bandwidth] on, of [inter_host_bandwidth / link_count] over
    the boundary crossings of column 0; [beta[1]] likewise, tallied over
    every row and minimised over row 0. A bandwidth of zero raises
    [ZeroDivisionError]. *)
Theorem tree_topology_tallies_whole_grid
  (m : Physical.PhysicalDeviceMesh NdArray) (s0 s1 : Z) (n : nat)
  (intra inter : float) :
  0 < s0 → 0 < s1 →
  Physical.num_devices m = Ok n → Z.of_nat n = s0 * s1 →
  Z.of_nat (Physical.num_hosts m) * Physical.num_devices_per_host m = s0 * s1 →
  Physical.get_logical_mesh m (s0, s1) None None (Some "tree")
    (Some intra) (Some inter)
  = (let? beta := beta_whole_grid (Physical.num_devices_per_host m) s0 s1
                    intra inter in
     Ok (mkLogical m (chunks (Z.to_nat s1) (Z.to_nat s0) (seqZ 0 (Z.of_nat n)))
           (Some [PyInt 1; PyInt 1]) (Some beta))).
Proof.
  intros Hs0 Hs1 Hn Hsize Hhosts.
  assert (0 ≤ Physical.num_devices_per_host m) as Hd by nia.
  unfold Physical.get_logical_mesh. rewrite Hn. cbn [res_bind].
  rewrite MeshFacts.arange_reshape_ok by lia. cbn [res_bind].
  rewrite decide_True by done. cbn [bool_decide decide_rel].
  rewrite !bool_decide_eq_true_2 by done.
  rewrite (tiled_host_ids_ok _ _ s0 s1) by done. cbn [res_bind fst snd].
  rewrite !(tree_beta_whole_grid _ _ s0 s1) by done.
  unfold beta_whole_grid, beta_of.
  generalize (inverse_bandwidth
    (Some (ring_bandwidth
       (links 0 (Physical.num_devices_per_host m) s0 s1 (all_cells 0 s0 s1))
       (links 0 (Physical.num_devices_per_host m) s0 s1 (line_cells 0 s0 s1))
       intra inter))).
  generalize (inverse_bandwidth
    (Some (ring_bandwidth
       (links 1 (Physical.num_devices_per_host m) s0 s1 (all_cells 1 s0 s1))
       (links 1 (Physical.num_devices_per_host m) s0 s1 (line_cells 1 s0 s1))
       intra inter))).
  by intros [beta1|] [beta0|].
Qed.

End GetLogicalMesh.

(** C4, as stated, fails. On the mesh of two hosts with two devices each,
    reshaped to [(2, 2)], the rows are the hosts: each of the two columns
    crosses the host boundary twice on its ring, so the code counts 4 links
    between the hosts 0 and 1 and, with [inter_host_bandwidth = 4] and
    [intra_host_bandwidth = 100], gets [beta[0] = 1 / (4 / 4) = 1]. Tallied
    over column 0 only there are 2 links and [beta[0]] would be
    [1 / (4 / 2) = 0.5]. *)
Lemma tree_topology_column0_tally_fails :
  mesh_beta <$> (match Physical.get_logical_mesh Examples.mesh22 (2, 2) None None
                         (Some "tree") (Some 100%float) (Some 4%float) with
                 | Ok lm => Some lm | Raise _ => None end)
  = Some (Some [PyFloat 1; PyFloat 0.01]) ∧
  beta_line_only 2 2 2 100 4 = Ok [PyFloat 0.5; PyFloat 0.01] ∧
  [PyFloat 1; PyFloat 0.01] ≠ [PyFloat 0.5; PyFloat 0.01].
Proof.
  split; [vm_compute; reflexivity|]. split; [vm_compute; reflexivity|].
  intros E. apply (f_equal (λ l, float_value <$> head l)) in E. simpl in E.
  assert (PrimFloat.eqb 1 0.5 = true) as Heq.
  { apply (f_equal (λ o, match o with
                         | Some x => PrimFloat.eqb x 0.5
                         | None => false
                         end)) in E.
    exact E. }
  vm_compute in Heq. exact (Bool.diff_false_true Heq).
Qed.

(** The amended statement on the same input: the whole-grid tally gives
    [beta = [1, 0.01]]. *)
Lemma tree_topology_tallies_whole_grid_witness :
  Physical.get_logical_mesh Examples.mesh22 (2, 2) None None (Some "tree")
    (Some 100%float) (Some 4%float)
  = (let? beta := beta_whole_grid
                    (Physical.num_devices_per_host Examples.mesh22) 2 2 100 4 in
     Ok (mkLogical Examples.mesh22
           (chunks (Z.to_nat 2) (Z.to_nat 2) (seqZ 0 (Z.of_nat 4)))
           (Some [PyInt 1; PyInt 1]) (Some beta))).
Proof.
  apply (tree_topology_tallies_whole_grid Examples.mesh22 2 2 4 100 4).
  - lia.
  - lia.
  - reflexivity.
  - reflexivity.
  - reflexivity.
Defined.

End TreeFacts.

(** * Further properties of the runtime *)

(** ** MeshHostWorker: overwriting, reading lists, waiting *)

Lemma res_map_same_outcome {A B C} (f : A → res B) (g : A → res C) (l : list A) :
  (∀ x, x ∈ l → (let? _ := f x in Ok tt) = (let? _ := g x in Ok tt)) →
  (let? _ := res_map f l in Ok tt) = (let? _ := res_map g l in Ok tt).
Proof.
  induction l as [|x l IH]; intros Hfg; simpl; [done|].
  pose proof (Hfg x (list_elem_of_here _ _)) as Hx.
  destruct (f x) as [y|e], (g x) as [z|e']; simpl in *; simplify_eq; [|done].
  specialize (IH (λ y Hy, Hfg y (list_elem_of_further _ _ _ Hy))).
  destruct (res_map f l), (res_map g l); simpl in *; by simplify_eq.
Qed.

Module WorkerOpsFacts.
Section WorkerOpsFacts.
Context `{Numpy NdArray}.
Implicit Types (w : Worker.MeshHostWorker NdArray) (u d : Z) (us : list Z).

Import Worker.

Lemma get_buffers_list_lookup w us :
  Forall (λ u, is_Some (buffers w !! u)) us →
  ∃ bs, get_buffers_list w us = Ok bs ∧ length bs = length us ∧
        ∀ i u, us !! i = Some u → bs !! i = buffers w !! u.
Proof.
  induction 1 as [|u us [b Hb] _ (bs & Hbs & Hlen & Hlook)]; simpl.
  - exists []. split_and!; [done..|]. intros i u Hi. by rewrite lookup_nil in Hi.
  - unfold buffers_getitem. rewrite Hb, Hbs. simpl. exists (b :: bs).
    split_and!; [done | simpl; lia |].
    intros [|i] u' Hi; simplify_eq/=; [done | by apply Hlook].
Qed.

Lemma get_buffers_list_first_absent w (pre post : list Z) u :
  Forall (λ x, is_Some (buffers w !! x)) pre → buffers w !! u = None →
  get_buffers_list w (pre ++ u :: post) = Raise (KeyError (KInt u)).
Proof.
  induction 1 as [|x pre [b Hb] _ IH]; intros Hu; simpl.
  - unfold buffers_getitem. by rewrite Hu.
  - unfold buffers_getitem at 1. rewrite Hb. simpl. by rewrite IH.
Qed.


(** X2. [get_buffers] on a list returns the buffers in the order of the
    uuids, one per uuid, when every uuid is present; otherwise it raises
    [KeyError] for the first uuid that is absent. *)
Theorem get_buffers_list_in_order w us :
  (Forall (λ u, is_Some (buffers w !! u)) us →
     ∃ bs, get_buffers (Many us) w = Ok (FetchedMany bs) ∧
           length bs = length us ∧
           ∀ i u, us !! i = Some u → bs !! i = buffers w !! u) ∧
  (∀ pre u post, us = pre ++ u :: post →
     Forall (λ x, is_Some (buffers w !! x)) pre → buffers w !! u = None →
     get_buffers (Many us) w = Raise (KeyError (KInt u))).
Proof.
  split.
  - intros (bs & Hbs & Hlen & Hlook)%get_buffers_list_lookup.
    exists bs. unfold get_buffers. by rewrite Hbs.
  - intros pre u post -> Hpre Hu. unfold get_buffers.
    by rewrite get_buffers_list_first_absent.
Qed.

Lemma block_one w u :
  WorkerReady.buffer_block_until_ready u w
  = (w, let? _ := buffers_getitem w u in Ok tt).
Proof.
  unfold WorkerReady.buffer_block_until_ready.
  by destruct (buffers_getitem w u).
Qed.

Lemma block_many w us :
  st_for us WorkerReady.buffer_block_until_ready w
  = (w, let? _ := get_buffers_list w us in Ok tt).
Proof.
  induction us as [|u us IH]; simpl; [done|].
  unfold st_bind. rewrite block_one.
  destruct (buffers_getitem w u) as [b|e]; simpl; [|done].
  rewrite IH. by destruct (get_buffers_list w us).
Qed.

Lemma block_until_ready_buffers_eq w (uuids : Uuids) :
  WorkerReady.block_until_ready_buffers uuids w
  = (w, let? _ := get_buffers uuids w in Ok tt).
Proof.
  destruct uuids as [u|us]; simpl.
  - rewrite block_one. by destruct (buffers_getitem w u).
  - rewrite block_many. by destruct (get_buffers_list w us).
Qed.

(** X3. Waiting for buffers reads them and nothing more: on a worker,
    [block_until_ready_buffers] leaves the worker as it is and succeeds or
    raises exactly as [get_buffers] does on the same uuids; on a mesh,
    [block_until_ready_remote_buffers] succeeds or raises exactly as
    [get_remote_buffers] does on the same references. *)
Theorem block_until_ready_as_get :
  (∀ w (uuids : Uuids),
     WorkerReady.block_until_ready_buffers uuids w
     = (w, let? _ := get_buffers uuids w in Ok tt)) ∧
  (∀ (m : Physical.PhysicalDeviceMesh NdArray) refs,
     PhysicalOps.block_until_ready_remote_buffers m refs
     = (let? _ := Driver.get_remote_buffers m refs in Ok tt)).
Proof.
  split; [apply block_until_ready_buffers_eq|].
  intros m refs.
  unfold PhysicalOps.block_until_ready_remote_buffers, Driver.get_remote_buffers.
  destruct (Physical.workers m) as [ws|]; [|by destruct refs].
  destruct (res_map _ refs) as [targets|e]; simpl; [|done].
  symmetry. apply res_map_same_outcome. intros [wk u] _. simpl.
  rewrite block_one. unfold get_buffers.
  by destruct (buffers_getitem wk u).
Qed.

Lemma delete_buffers_all_present w us :
  NoDup us → Forall (λ u, is_Some (buffers w !! u)) us →
  delete_buffers (Many us) w
  = (set_buffers w (foldl (λ m x, delete x m) (buffers w) us), Ok tt).
Proof.
  revert w. induction us as [|x us IH]; intros w Hnd Hall; simpl.
  - by rewrite WorkerFacts.set_buffers_id.
  - apply NoDup_cons in Hnd as [Hx Hnd].
    apply Forall_cons in Hall as [[b Hb] Hall].
    unfold st_bind at 1. unfold buffers_delitem at 1. rewrite Hb.
    specialize (IH (set_buffers w (delete x (buffers w))) Hnd).
    simpl in IH. rewrite IH; [done|].
    apply Forall_forall. intros y Hy. rewrite Forall_forall in Hall. simpl.
    rewrite lookup_delete_ne; [by apply Hall | by intros ->].
Qed.

Lemma delete_buffers_ok_inv w us w' :
  delete_buffers (Many us) w = (w', Ok tt) →
  NoDup us ∧ Forall (λ u, is_Some (buffers w !! u)) us.
Proof.
  revert w. induction us as [|x us IH]; intros w; simpl.
  - intros _. split; constructor.
  - unfold st_bind at 1. unfold buffers_delitem at 1.
    destruct (buffers w !! x) as [b|] eqn:Hx; [|done].
    intros [Hnd Hall]%IH. simpl in Hall. rewrite Forall_forall in Hall.
    assert (x ∉ us) as Hx_us.
    { intros Hin. destruct (Hall x Hin) as [? Hs].
      by rewrite lookup_delete_eq in Hs. }
    split; [by apply NoDup_cons|].
    apply Forall_cons. split; [by eexists|].
    apply Forall_forall. intros y Hy. destruct (Hall y Hy) as [by' Hby].
    rewrite lookup_delete_ne in Hby by (by intros ->). by eexists.
Qed.

(** X4. [delete_buffers] on a list succeeds exactly when the uuids are
    distinct and all present; it then removes these uuids and no other. *)
Theorem delete_buffers_list_succeeds w us :
  (NoDup us → Forall (λ u, is_Some (buffers w !! u)) us →
     ∃ w', delete_buffers (Many us) w = (w', Ok tt) ∧
           ∀ y, buffers w' !! y = if decide (y ∈ us) then None
                                  else buffers w !! y) ∧
  (∀ w', delete_buffers (Many us) w = (w', Ok tt) →
     NoDup us ∧ Forall (λ u, is_Some (buffers w !! u)) us).
Proof.
  split.
  - intros Hnd Hall. eexists. split; [by apply delete_buffers_all_present|].
    intros y. simpl. apply WorkerFacts.lookup_foldl_delete.
  - apply delete_buffers_ok_inv.
Qed.

End WorkerOpsFacts.


Lemma get_buffers_list_in_order_witness :
  (∃ bs, Worker.get_buffers (Worker.Many [2; 1; 2]) Examples.worker12
         = Ok (Worker.FetchedMany bs) ∧
         length bs = length [2; 1; 2] ∧
         ∀ i u, [2; 1; 2] !! i = Some u →
                bs !! i = Worker.buffers Examples.worker12 !! u) ∧
  Worker.get_buffers (Worker.Many [2; 7; 1; 8]) Examples.worker12
  = Raise (KeyError (KInt 7)).
Proof.
  split.
  - apply (proj1 (get_buffers_list_in_order Examples.worker12 [2; 1; 2])).
    compute_done.
  - apply (proj2 (get_buffers_list_in_order Examples.worker12 [2; 7; 1; 8])
             [2] 7 [1; 8]).
    + reflexivity.
    + compute_done.
    + reflexivity.
Defined.

Lemma delete_buffers_list_succeeds_witness :
  (∃ w', Worker.delete_buffers (Worker.Many [2; 1]) Examples.worker12
         = (w', Ok tt) ∧
         ∀ y, Worker.buffers w' !! y
              = if decide (y ∈ [2; 1]) then None
                else Worker.buffers Examples.worker12 !! y) ∧
  (NoDup [2; 1] ∧
   Forall (λ u, is_Some (Worker.buffers Examples.worker12 !! u)) [2; 1]).
Proof.
  destruct (delete_buffers_list_succeeds Examples.worker12 [2; 1])
    as [Hok Hinv].
  assert (NoDup [2; 1]) as Hnd by compute_done.
  assert (Forall (λ u, is_Some (Worker.buffers Examples.worker12 !! u)) [2; 1])
    as Hall by compute_done.
  split.
  - exact (Hok Hnd Hall).
  - destruct (Hok Hnd Hall) as (w' & Hw' & _). exact (Hinv w' Hw').
Defined.

End WorkerOpsFacts.

(** ** PhysicalDeviceMesh: launch, shutdown and the single-host mesh *)

Module LifecycleFacts.
Section LifecycleFacts.
Context `{Numpy NdArray}.
Implicit Types (m : Physical.PhysicalDeviceMesh NdArray).

Import PhysicalOps.



Lemma launch_workers_map m :
  map (new_worker m) (seq 0 (Physical.num_hosts m))
  = Physical.launch_workers (Physical.num_hosts m)
      (Physical.num_devices_per_host m).
Proof. done. Qed.


(** X6. A single-host mesh is built from the devices alone: the other
    arguments of the constructor are ignored, the shape is one host with
    all the devices, and the mesh is not distributed. It has no host
    descriptors, so [host_ips] raises [TypeError] and so does
    [launch_xla_servers]; [shutdown] does nothing. *)
Theorem single_host_mesh devices host_ids host_info head_ip n m :
  Physical.__init__ devices host_ids host_info head_ip n false = Ok m →
  (∀ host_ids' host_info' head_ip' n',
     Physical.__init__ devices host_ids' host_info' head_ip' n' false = Ok m) ∧
  (∃ ds, devices = Some (Physical.LocalDevices ds) ∧
         Physical.shape m = (1, Z.of_nat (length ds)) ∧
         Physical.num_devices m = Ok (length ds) ∧
         length (Physical.device_strs m) = length ds) ∧
  Physical.is_distributed m = false ∧
  host_ips m = Raise TypeError ∧
  (launch_xla_servers m).2 = Raise TypeError ∧
  (∀ forced, shutdown forced m = (m, Ok tt)).
Proof.
  simpl. unfold Physical.init_local. intros Hm.
  destruct devices as [[[|d ds]|[|? ?]]|]; simplify_eq.
  split_and!; try done.
  exists (d :: ds). split_and!; try done. simpl. by rewrite length_map.
Qed.

End LifecycleFacts.

Import PhysicalOps.


Lemma single_host_mesh_witness :
  ∃ m : Physical.PhysicalDeviceMesh (list Z),
    Physical.__init__
      (Some (Physical.LocalDevices [Worker.GpuDevice 0; Worker.GpuDevice 1]))
      (Some [4; 5; 6]) None None 7 false = Ok m ∧
    Physical.shape m = (1, 2) ∧
    Physical.is_distributed m = false ∧
    host_ips m = Raise TypeError ∧
    (launch_xla_servers m).2 = Raise TypeError ∧
    (∀ forced, shutdown forced m = (m, Ok tt)).
Proof.
  eexists. split; [reflexivity|].
  edestruct (single_host_mesh (NdArray := list Z)
               (Some (Physical.LocalDevices [Worker.GpuDevice 0; Worker.GpuDevice 1]))
               (Some [4; 5; 6]) None None 7)
    as (_ & _ & Hdist & Hips & Hlaunch & Hdown); [reflexivity|].
  split; [reflexivity|]. split_and!; [exact Hdist | exact Hips | exact Hlaunch | exact Hdown].
Defined.

End LifecycleFacts.

(** ** VirtualPhysicalMesh: conversion and slicing along one dimension *)

Lemma check_devices_pass {A} (ids : list (list Z)) (hs : list A) (n : Z) msg :
  length ids = length hs → Forall (λ l, Z.of_nat (length l) = n) ids →
  check_devices ids hs n msg = Ok tt.
Proof.
  intros Hlen Hall. unfold check_devices. rewrite decide_False by lia.
  assert (forallb (λ ids0, bool_decide (Z.of_nat (length ids0) = n)) ids = true)
    as ->; [|done].
  apply forallb_forall. intros l Hl%list_elem_of_In.
  rewrite Forall_forall in Hall. apply bool_decide_eq_true. by apply Hall.
Qed.

Lemma default_devices_uniform {A} (hs : list A) (n : Z) :
  0 ≤ n →
  length (default_devices hs n) = length hs ∧
  Forall (λ l, Z.of_nat (length l) = n) (default_devices hs n).
Proof.
  intros Hn. unfold default_devices. split; [by rewrite length_map|].
  apply Forall_forall. intros l (x & -> & _)%list_elem_of_fmap.
  unfold py_range. rewrite length_seqZ. lia.
Qed.

(** Reading the positions [xs] of the list [0, ..., n - 1]. *)
Lemma res_map_py_index_identity (n : Z) (xs ys : list Z) :
  Forall (λ x, 0 ≤ x) xs →
  res_map (py_index (seqZ 0 n)) xs = Ok ys → ys = xs.
Proof.
  intros Hpos. revert ys. induction Hpos as [|x xs Hx _ IH]; intros ys; simpl.
  - by intros [= <-].
  - destruct (py_index (seqZ 0 n) x) as [y|] eqn:Hy; simpl; [|done].
    destruct (res_map _ xs) as [ys'|]; simpl; [|done].
    intros [= <-]. f_equal; [|by apply IH].
    unfold py_index in Hy. rewrite length_seqZ in Hy.
    destruct (decide (0 ≤ x < Z.of_nat (Z.to_nat n))) as [Hin|Hout].
    + rewrite lookup_seqZ_lt in Hy by lia. simplify_eq. lia.
    + rewrite decide_False in Hy by lia. done.
Qed.

Module VirtualOpsFacts.
Section VirtualOpsFacts.
Context `{Numpy NdArray}.

Import Virtual VirtualOps.

(** X7. A constructed virtual mesh with a number of devices per host that
    is not negative converts to a physical mesh: [get_physical_mesh]
    succeeds, the cluster mesh it returns has the same hosts, descriptors,
    head address, per-host device ids, device strings, shape and number of
    devices, and it is launched with one worker per host. With a negative
    [num_devices_per_host] and at least one host the virtual mesh can be
    built, with no device, but its conversion raises [RuntimeError]. *)
Theorem virtual_mesh_to_physical :
  (∀ host_ids0 host_info0 head_ip0 n devices0 (vm : VirtualPhysicalMesh),
     __init__ host_ids0 host_info0 head_ip0 n devices0 = Ok vm →
     0 ≤ num_devices_per_host vm →
     ∃ pm : Physical.PhysicalDeviceMesh NdArray,
       get_physical_mesh vm = Ok pm ∧
       Physical.use_ray pm = true ∧
       Physical.host_ids pm = host_ids vm ∧
       Physical.host_info pm = host_info vm ∧
       Physical.head_ip pm = head_ip vm ∧
       Physical.num_devices_per_host pm = num_devices_per_host vm ∧
       Physical.devices pm = Physical.HostDeviceIds (devices vm) ∧
       Physical.device_strs pm = device_strs vm ∧
       Physical.shape pm = shape vm ∧
       Physical.num_devices pm = Ok (num_devices vm) ∧
       Physical.launched pm = true ∧
       Physical.workers pm
       = Some (Physical.launch_workers (num_hosts vm) (num_devices_per_host vm))) ∧
  (∀ h hs host_info0 head_ip0 n (vm : VirtualPhysicalMesh),
     __init__ (Some (h :: hs)) host_info0 head_ip0 n None = Ok vm → n < 0 →
     num_devices vm = O ∧
     get_physical_mesh (NdArray := NdArray) vm
     = Raise (RuntimeError
                "Devices specified for each host does not align with `num_devices_per_host`.")).
Proof.
  split.
  - intros host_ids0 host_info0 head_ip0 n devices0 vm Hvm Hn.
    apply MeshFacts.virtual_init_inv in Hvm
      as (hs & ids & strs & -> & Hstrs & -> & Hids).
    simpl in Hn.
    assert (length ids = length hs ∧ Forall (λ l, Z.of_nat (length l) = n) ids)
      as [Hlen Hall].
    { destruct Hids as [->|?]; [by apply default_devices_uniform | done]. }
    unfold get_physical_mesh. simpl.
    rewrite check_devices_pass by done. simpl. rewrite Hstrs. simpl.
    eexists. split; [done|]. split_and!; done.
  - intros h hs host_info0 head_ip0 n vm Hvm Hn.
    unfold __init__ in Hvm. simpl in Hvm.
    destruct (build_device_strs _ _ _) as [strs|]; simpl in Hvm; [|done].
    injection Hvm as <-.
    split.
    + unfold num_devices, default_devices, py_range. simpl.
      rewrite seqZ_nil by lia. simpl. clear.
      induction hs as [|x hs IH]; simpl; done.
    + unfold get_physical_mesh, Physical.__init__, Physical.init_ray,
        check_devices.
      cbn [devices host_ids num_devices_per_host].
      rewrite decide_False; last first.
      { intros Hl. apply Hl. unfold default_devices. simpl. f_equal.
        apply length_map. }
      cbn [forallb].
      rewrite (bool_decide_eq_false_2 (Z.of_nat (length (py_range n)) = n))
        by (unfold py_range; rewrite length_seqZ; lia).
      done.
Qed.

(** X8. [get_1d_logical_mesh] succeeds on every virtual mesh: the logical
    mesh has a single row with the device numbers [0, ..., n - 1] for the
    [n] device ids of the mesh, and [alpha = beta = (1.0, 1.0)]. *)
Theorem get_1d_logical_mesh_single_row (vm : VirtualPhysicalMesh) :
  get_1d_logical_mesh vm
  = Ok (mkLogical vm [seqZ 0 (Z.of_nat (num_devices vm))]
          (Some [PyFloat 1; PyFloat 1]) (Some [PyFloat 1; PyFloat 1])).
Proof.
  unfold get_1d_logical_mesh, get_logical_mesh.
  rewrite MeshFacts.arange_reshape_ok by lia. simpl.
  rewrite Nat2Z.id.
  rewrite firstn_all2 by (rewrite length_seqZ; lia). done.
Qed.

(** X9. [slice_1d] is [slice_2d] with the other dimension left whole.
    Along the hosts ([dim = 0]), on a mesh whose host ids are their own
    positions [0, ..., H - 1], selecting the positions [xs] (not negative,
    at least one) gives what [slice_2d] gives for [xs] and all device
    indices of each host. Along the devices, on a mesh with one descriptor
    per host, it gives what [slice_2d] gives for all host positions and the
    same device rows. Errors included. *)
Theorem slice_1d_as_slice_2d (vm : VirtualPhysicalMesh) :
  (∀ xs,
     host_ids vm = py_range (Z.of_nat (length (host_ids vm))) →
     0 ≤ num_devices_per_host vm → xs ≠ [] → Forall (λ x, 0 ≤ x) xs →
     slice_1d vm 0 (HostIndices xs)
     = slice_2d vm xs (map (λ _, py_range (num_devices_per_host vm)) xs)) ∧
  (∀ dim rows infos,
     dim ≠ 0 → host_info vm = Some infos →
     length infos = length (host_ids vm) →
     slice_1d vm dim (DeviceIndices rows)
     = slice_2d vm (py_range (Z.of_nat (length (host_ids vm)))) rows).
Proof.
  split.
  - intros xs Hhs Hn Hne Hpos. unfold slice_1d, slice_2d.
    rewrite decide_True by done.
    destruct (res_map (py_index (host_ids vm)) xs) as [ys|e] eqn:Hys;
      simpl; [|done].
    assert (ys = xs) as ->.
    { rewrite Hhs in Hys. by eapply res_map_py_index_identity. }
    destruct (res_map (host_info_at vm) xs) as [infos|e] eqn:Hinfos;
      simpl; [|done].
    destruct xs as [|x xs]; [done|]. simpl.
    change (py_index (py_range (num_devices_per_host vm) :: ?l) 0)
      with (Ok (A := list Z) (py_range (num_devices_per_host vm))).
    simpl.
    assert (Z.of_nat (length (py_range (num_devices_per_host vm)))
            = num_devices_per_host vm) as ->.
    { unfold py_range. rewrite length_seqZ. lia. }
    rewrite check_devices_pass; [done | simpl; by rewrite length_map |].
    apply (default_devices_uniform (x :: xs)). done.
  - intros dim rows infos Hdim Hinfo Hlen. unfold slice_1d, slice_2d.
    rewrite decide_False by done. unfold py_range.
    rewrite res_map_py_index_seqZ by lia. simpl.
    unfold host_info_at. rewrite Hinfo.
    rewrite res_map_py_index_seqZ by lia. simpl.
    rewrite Nat2Z.id, !drop_0.
    rewrite (firstn_all2 (host_ids vm)) by lia.
    rewrite (firstn_all2 infos) by lia. done.
Qed.

(** X10. Along the hosts, [slice_1d] reads the descriptor of a selected
    host at the position given by the host's id, not at the position the
    host was selected from: the [k]-th host of the result is
    [host_ids[xs[k]]], and its descriptor is [host_info[host_ids[xs[k]]]]. *)
Theorem slice_1d_reads_host_info_by_id (vm sub : VirtualPhysicalMesh) (xs : list Z) :
  slice_1d vm 0 (HostIndices xs) = Ok sub →
  length (host_ids sub) = length xs ∧
  ∀ k x, xs !! k = Some x →
    ∃ h info, py_index (host_ids vm) x = Ok h ∧
              host_ids sub !! k = Some h ∧
              host_info_at vm h = Ok info ∧
              host_info sub ≫= (λ infos, infos !! k) = Some info.
Proof.
  unfold slice_1d. rewrite decide_True by done.
  destruct (res_map (py_index (host_ids vm)) xs) as [ys|e] eqn:Hys;
    simpl; [|done].
  destruct (res_map (host_info_at vm) ys) as [infos|e] eqn:Hinfos;
    simpl; [|done].
  destruct (build_device_strs _ _ _) as [strs|]; simpl; [|done].
  intros [= <-]. simpl. split; [by eapply res_map_length|].
  intros k x Hk.
  destruct (res_map_lookup _ _ _ Hys k x Hk) as (h & Hh & Hyk).
  destruct (res_map_lookup _ _ _ Hinfos k h Hyk) as (info & Hinfo & Hik).
  by exists h, info.
Qed.

End VirtualOpsFacts.

Lemma vmesh_swapped_built :
  Virtual.__init__ (Some [1; 0]) (Some Examples.host_info2) (Some "10.0.0.1")
    2 None
  = Ok Examples2.vmesh_swapped.
Proof. vm_compute. reflexivity. Qed.

Lemma virtual_mesh_to_physical_witness :
  ∃ pm : Physical.PhysicalDeviceMesh (list Z),
    VirtualOps.get_physical_mesh Examples.vmesh22_obj = Ok pm ∧
    Physical.use_ray pm = true ∧
    Physical.host_ids pm = Virtual.host_ids Examples.vmesh22_obj ∧
    Physical.host_info pm = Virtual.host_info Examples.vmesh22_obj ∧
    Physical.head_ip pm = Virtual.head_ip Examples.vmesh22_obj ∧
    Physical.num_devices_per_host pm
    = Virtual.num_devices_per_host Examples.vmesh22_obj ∧
    Physical.devices pm
    = Physical.HostDeviceIds (Virtual.devices Examples.vmesh22_obj) ∧
    Physical.device_strs pm = Virtual.device_strs Examples.vmesh22_obj ∧
    Physical.shape pm = Virtual.shape Examples.vmesh22_obj ∧
    Physical.num_devices pm = Ok (Virtual.num_devices Examples.vmesh22_obj) ∧
    Physical.launched pm = true ∧
    Physical.workers pm
    = Some (Physical.launch_workers (Virtual.num_hosts Examples.vmesh22_obj)
              (Virtual.num_devices_per_host Examples.vmesh22_obj)).
Proof.
  apply (proj1 (virtual_mesh_to_physical (NdArray := list Z))
           (Some [0; 1]) (Some Examples.host_info2) (Some "10.0.0.1") 2 None
           Examples.vmesh22_obj).
  - vm_compute. reflexivity.
  - simpl. lia.
Defined.

(** Both halves of [slice_1d_as_slice_2d] on the two-host mesh. *)
Lemma slice_1d_as_slice_2d_witness :
  VirtualOps.slice_1d Examples.vmesh22_obj 0 (VirtualOps.HostIndices [1])
  = Virtual.slice_2d Examples.vmesh22_obj [1]
      (map (λ _, py_range (Virtual.num_devices_per_host Examples.vmesh22_obj))
         [1]) ∧
  VirtualOps.slice_1d Examples.vmesh22_obj 1
    (VirtualOps.DeviceIndices [[1]; [1]])
  = Virtual.slice_2d Examples.vmesh22_obj
      (py_range (Z.of_nat (length (Virtual.host_ids Examples.vmesh22_obj))))
      [[1]; [1]].
Proof.
  destruct (slice_1d_as_slice_2d Examples.vmesh22_obj) as [Hhosts Hdevices].
  split.
  - apply Hhosts; [reflexivity | simpl; lia | done | compute_done].
  - apply (Hdevices 1 [[1]; [1]] Examples.host_info2); [done | reflexivity..].
Defined.

(** On the mesh with the hosts [[1, 0]], position 0 selects host 1, and the
    result describes it by [host_info[1]], the address 10.0.0.2, whereas
    the mesh had it under 10.0.0.1. *)
Lemma slice_1d_reads_host_info_by_id_witness :
  VirtualOps.slice_1d Examples2.vmesh_swapped 0 (VirtualOps.HostIndices [0])
  = Ok Examples2.vmesh_host1 ∧
  length (Virtual.host_ids Examples2.vmesh_host1) = length [0] ∧
  ∀ k x, [0] !! k = Some x →
    ∃ h info,
      py_index (Virtual.host_ids Examples2.vmesh_swapped) x = Ok h ∧
      Virtual.host_ids Examples2.vmesh_host1 !! k = Some h ∧
      Virtual.host_info_at Examples2.vmesh_swapped h = Ok info ∧
      Virtual.host_info Examples2.vmesh_host1 ≫= (λ infos, infos !! k)
      = Some info.
Proof.
  split; [vm_compute; reflexivity|].
  apply (slice_1d_reads_host_info_by_id Examples2.vmesh_swapped
           Examples2.vmesh_host1 [0]).
  vm_compute. reflexivity.
Defined.

End VirtualOpsFacts.

(** ** DeviceCluster: selecting hosts and devices *)

Module ClusterFacts.
Section ClusterFacts.
Context `{Numpy NdArray}.

Import Cluster.

Lemma check_hosts_ok (c : DeviceCluster) (nd : Z) (hs : list Z) :
  res_fold (check_host c nd) hs tt = Ok tt →
  ∀ h, h ∈ hs → ∃ k, py_index (num_devices c) h = Ok k ∧ nd ≤ k.
Proof.
  induction hs as [|x hs IH]; simpl.
  - intros _ h Hh. by apply elem_of_nil in Hh.
  - unfold check_host at 1.
    destruct (py_index (num_devices c) x) as [k|] eqn:Hk; simpl; [|done].
    case_decide as Hge; simpl; [|done].
    intros Hrest h [->|Hh]%elem_of_cons; [exists k; split; [done|lia]|].
    by apply IH.
Qed.

Lemma select_inv (c : DeviceCluster) host_ids n hs infos nd :
  select c host_ids n = Ok (hs, infos, nd) →
  hs = hosts_or_all c host_ids ∧
  res_map (py_index (host_info c)) hs = Ok infos ∧
  devices_or_first c hs n = Ok nd ∧
  ∀ h, h ∈ hs → ∃ k, py_index (num_devices c) h = Ok k ∧ nd ≤ k.
Proof.
  unfold select.
  destruct (res_map _ (hosts_or_all c host_ids)) as [infos'|] eqn:Hinfos;
    simpl; [|done].
  destruct (devices_or_first _ _ _) as [nd'|] eqn:Hnd; simpl; [|done].
  destruct (res_fold _ _ tt) as [[]|] eqn:Hcheck; simpl; [|done].
  intros [= <- <- <-]. split_and!; [done..|].
  by apply check_hosts_ok.
Qed.

(** X11. The virtual and the physical mesh of a cluster are the same
    selection: when [get_virtual_physical_mesh] returns a mesh (with a
    number of devices per host that is not negative), converting it with
    [VirtualPhysicalMesh.get_physical_mesh] gives exactly what
    [DeviceCluster.get_physical_mesh] gives for the same arguments; and
    when it raises, [get_physical_mesh] raises the same exception. *)
Theorem cluster_virtual_then_physical (c : DeviceCluster)
  (host_ids : option (list Z)) (n : option Z) :
  (∀ vm, get_virtual_physical_mesh c host_ids n = Ok vm →
     0 ≤ Virtual.num_devices_per_host vm →
     VirtualOps.get_physical_mesh (NdArray := NdArray) vm
     = get_physical_mesh c host_ids n) ∧
  (∀ e, get_virtual_physical_mesh c host_ids n = Raise e →
     get_physical_mesh (NdArray := NdArray) c host_ids n = Raise e).
Proof.
  unfold get_virtual_physical_mesh, get_physical_mesh.
  destruct (select c host_ids n) as [[[hs infos] nd]|e0]; simpl;
    [|split; [done | by intros e [= <-]]].
  unfold Virtual.__init__. simpl.
  destruct (build_device_strs hs (Some infos) (default_devices hs nd))
    as [strs|e0] eqn:Hstrs; simpl; [split; [|done] | split; [done | by intros e [= <-]]].
  intros vm [= <-] Hnd. simpl in Hnd.
  unfold VirtualOps.get_physical_mesh. simpl.
  destruct (default_devices_uniform hs nd Hnd) as [Hlen Hall].
  rewrite check_devices_pass by done. simpl. by rewrite Hstrs.
Qed.

(** X12. What [get_virtual_physical_mesh] selects. The hosts are the given
    ones, or all hosts of the cluster when [host_ids] is [None] or empty;
    the descriptor at each position is the cluster's descriptor of the host
    at that position; the number of devices per host is the given one, or,
    when it is [None] or 0, the number of devices of the first selected
    host; every selected host has at least that many devices; and each host
    gets the device ids [0, ..., num_devices_per_host - 1]. *)
Theorem cluster_selection (c : DeviceCluster) (host_ids : option (list Z))
  (n : option Z) (vm : Virtual.VirtualPhysicalMesh) :
  get_virtual_physical_mesh c host_ids n = Ok vm →
  Virtual.host_ids vm = hosts_or_all c host_ids ∧
  Virtual.head_ip vm = Some (head_ip c) ∧
  Virtual.devices vm
  = default_devices (Virtual.host_ids vm) (Virtual.num_devices_per_host vm) ∧
  (∀ k h, Virtual.host_ids vm !! k = Some h →
     ∃ info nd,
       py_index (host_info c) h = Ok info ∧
       Virtual.host_info vm ≫= (λ infos, infos !! k) = Some info ∧
       py_index (num_devices c) h = Ok nd ∧
       Virtual.num_devices_per_host vm ≤ nd) ∧
  (n = None ∨ n = Some 0 →
     ∃ first, py_index (Virtual.host_ids vm) 0 = Ok first ∧
              py_index (num_devices c) first
              = Ok (Virtual.num_devices_per_host vm)) ∧
  (∀ k, n = Some k → k ≠ 0 → Virtual.num_devices_per_host vm = k).
Proof.
  unfold get_virtual_physical_mesh.
  destruct (select c host_ids n) as [[[hs infos] nd]|e0] eqn:Hsel; simpl;
    [|done].
  apply select_inv in Hsel as (Hhs & Hinfos & Hnd & Hcheck).
  unfold Virtual.__init__. simpl.
  destruct (build_device_strs _ _ _) as [strs|]; simpl; [|done].
  intros [= <-]. simpl. split_and!; [done..| | |].
  - intros k h Hk.
    destruct (res_map_lookup _ _ _ Hinfos k h Hk) as (info & Hinfo & Hik).
    destruct (Hcheck h) as (nd' & Hnd' & Hle);
      [by eapply list_elem_of_lookup_2|].
    by exists info, nd'.
  - unfold devices_or_first in Hnd. intros [->| ->];
      (destruct (py_index hs 0) as [first|]; simpl in Hnd; [|done];
       by exists first).
  - intros k -> Hk. unfold devices_or_first in Hnd.
    destruct k; by simplify_eq.
Qed.

End ClusterFacts.

(** On [Examples2.cluster3]: the hosts 2 and 0 have four GPUs each; host 1
    has two, fewer than the four of host 0. *)
Lemma cluster3_hosts_2_0 :
  Cluster.get_virtual_physical_mesh Examples2.cluster3 (Some [2; 0]) None
  = Ok Examples2.vmesh_hosts_2_0.
Proof. vm_compute. reflexivity. Qed.

Lemma cluster_virtual_then_physical_witness :
  VirtualOps.get_physical_mesh (NdArray := list Z) Examples2.vmesh_hosts_2_0
  = Cluster.get_physical_mesh Examples2.cluster3 (Some [2; 0]) None ∧
  Cluster.get_physical_mesh (NdArray := list Z) Examples2.cluster3
    (Some [0; 1]) None
  = Raise AssertionError.
Proof.
  split.
  - apply (proj1 (cluster_virtual_then_physical (NdArray := list Z)
                    Examples2.cluster3 (Some [2; 0]) None)).
    + vm_compute. reflexivity.
    + simpl. lia.
  - apply (proj2 (cluster_virtual_then_physical (NdArray := list Z)
                    Examples2.cluster3 (Some [0; 1]) None)).
    vm_compute. reflexivity.
Defined.

Lemma cluster_selection_witness :
  Virtual.host_ids Examples2.vmesh_hosts_2_0
  = Cluster.hosts_or_all Examples2.cluster3 (Some [2; 0]) ∧
  Virtual.head_ip Examples2.vmesh_hosts_2_0
  = Some (Cluster.head_ip Examples2.cluster3) ∧
  Virtual.devices Examples2.vmesh_hosts_2_0
  = default_devices (Virtual.host_ids Examples2.vmesh_hosts_2_0)
      (Virtual.num_devices_per_host Examples2.vmesh_hosts_2_0) ∧
  (∀ k h, Virtual.host_ids Examples2.vmesh_hosts_2_0 !! k = Some h →
     ∃ info nd,
       py_index (Cluster.host_info Examples2.cluster3) h = Ok info ∧
       Virtual.host_info Examples2.vmesh_hosts_2_0 ≫= (λ infos, infos !! k)
       = Some info ∧
       py_index (Cluster.num_devices Examples2.cluster3) h = Ok nd ∧
       Virtual.num_devices_per_host Examples2.vmesh_hosts_2_0 ≤ nd) ∧
  (@None Z = None ∨ @None Z = Some 0 →
     ∃ first,
       py_index (Virtual.host_ids Examples2.vmesh_hosts_2_0) 0 = Ok first ∧
       py_index (Cluster.num_devices Examples2.cluster3) first
       = Ok (Virtual.num_devices_per_host Examples2.vmesh_hosts_2_0)) ∧
  (∀ k, @None Z = Some k → k ≠ 0 →
     Virtual.num_devices_per_host Examples2.vmesh_hosts_2_0 = k).
Proof.
  apply (cluster_selection Examples2.cluster3 (Some [2; 0]) None
           Examples2.vmesh_hosts_2_0).
  vm_compute. reflexivity.
Defined.

End ClusterFacts.

(** ** Logical meshes: device numbers, and the tree topology on one host *)


Module LogicalMeshFacts.
Section LogicalMeshFacts.
Context `{Numpy NdArray}.
Implicit Types (m : Physical.PhysicalDeviceMesh NdArray).

Import RingModel.


Lemma line_cells_in_grid (dim : nat) (s0 s1 : Z) (c : Z * Z) :
  0 < s0 → 0 < s1 → c ∈ line_cells dim s0 s1 →
  0 ≤ c.1 < s0 ∧ 0 ≤ c.2 < s1.
Proof.
  intros Hs0 Hs1. unfold line_cells.
  destruct dim; intros (x & -> & Hx%elem_of_seqZ)%list_elem_of_fmap; simpl; lia.
Qed.

Lemma all_cells_in_grid (dim : nat) (s0 s1 : Z) (c : Z * Z) :
  c ∈ all_cells dim s0 s1 → 0 ≤ c.1 < s0 ∧ 0 ≤ c.2 < s1.
Proof.
  destruct c as [i j]. unfold all_cells.
  destruct dim; rewrite list_elem_of_bind; simpl.
  - intros (y & (x & Hc%list_elem_of_singleton & Hx%elem_of_seqZ)%list_elem_of_bind
              & Hy%elem_of_seqZ). simplify_eq. lia.
  - intros (x & (y & Hc%list_elem_of_singleton & Hy%elem_of_seqZ)%list_elem_of_bind
              & Hx%elem_of_seqZ). simplify_eq. lia.
Qed.

(** On one host no cell of the grid has a neighbour on another host. *)
Lemma links_single_host (dim : nat) (d s0 s1 : Z) (cells : list (Z * Z)) :
  0 < s0 → 0 < s1 → d = s0 * s1 →
  (∀ c, c ∈ cells → 0 ≤ c.1 < s0 ∧ 0 ≤ c.2 < s1) →
  links dim d s0 s1 cells = [].
Proof.
  intros Hs0 Hs1 Hd Hcells.
  assert (∀ c, 0 ≤ c.1 < s0 ∧ 0 ≤ c.2 < s1 → link_of dim d s0 s1 c = None)
    as Hnone.
  { intros c [Hi Hj].
    assert (∀ i j, 0 ≤ i < s0 → 0 ≤ j < s1 → host_of d s1 i j = 0) as Hhost.
    { intros i j Hi' Hj'. unfold host_of. apply Z.div_small. nia. }
    assert (0 ≤ (ring_next dim s0 s1 c).1 < s0 ∧
            0 ≤ (ring_next dim s0 s1 c).2 < s1) as [Hi' Hj'].
    { destruct dim; simpl; split; try done; apply Z.mod_pos_bound; lia. }
    unfold link_of. rewrite !Hhost by done.
    by rewrite decide_False by (by intros ?). }
  unfold links. induction cells as [|c cells IH]; [done|].
  simpl. rewrite Hnone by (apply Hcells; left).
  apply IH. intros. apply Hcells. by right.
Qed.

(** X14. The tree topology on one host. On a mesh with a single host whose
    devices fill a grid of positive shape [(s0, s1)], no ring crosses a
    host boundary, so [inter_host_bandwidth] plays no role: both entries of
    [beta] are [1 / intra_host_bandwidth], and [alpha = [1, 1]]. With
    [intra_host_bandwidth = 0] the call raises [ZeroDivisionError]. *)
Theorem tree_topology_single_host m (n : nat) (s0 s1 : Z) (intra inter : float) :
  0 < s0 → 0 < s1 →
  Physical.num_hosts m = 1%nat →
  Physical.num_devices m = Ok n → Z.of_nat n = s0 * s1 →
  Physical.num_devices_per_host m = s0 * s1 →
  Physical.get_logical_mesh m (s0, s1) None None (Some "tree")
    (Some intra) (Some inter)
  = (let? b := inverse_bandwidth (Some intra) in
     Ok (mkLogical m (chunks (Z.to_nat s1) (Z.to_nat s0) (seqZ 0 (Z.of_nat n)))
           (Some [PyInt 1; PyInt 1]) (Some [b; b]))).
Proof.
  intros Hs0 Hs1 Hhosts Hn Hsize Hd.
  unfold Physical.get_logical_mesh. rewrite Hn. cbn [res_bind].
  rewrite MeshFacts.arange_reshape_ok by lia. cbn [res_bind].
  rewrite decide_True by done. cbn [bool_decide decide_rel].
  rewrite !bool_decide_eq_true_2 by done.
  rewrite (TreeFacts.tiled_host_ids_ok _ _ s0 s1) by (rewrite ?Hhosts; lia).
  cbn [res_bind fst snd].
  rewrite !(TreeFacts.tree_beta_whole_grid _ _ s0 s1)
    by (rewrite ?Hhosts; lia).
  rewrite !links_single_host; try done.
  - unfold ring_bandwidth. cbn [foldl].
    by destruct (inverse_bandwidth (Some intra)).
  - intros c. by apply line_cells_in_grid.
  - intros c. apply all_cells_in_grid.
  - intros c. by apply line_cells_in_grid.
  - intros c. apply all_cells_in_grid.
Qed.

End LogicalMeshFacts.


(** On the same mesh with the tree topology: [beta = [1/100, 1/100]],
    whatever the inter-host bandwidth. *)
Lemma tree_topology_single_host_witness :
  Physical.get_logical_mesh Examples2.mesh_local4 (2, 2) None None (Some "tree")
    (Some 100%float) (Some 4%float)
  = (let? b := inverse_bandwidth (Some 100%float) in
     Ok (mkLogical Examples2.mesh_local4
           (chunks (Z.to_nat 2) (Z.to_nat 2) (seqZ 0 (Z.of_nat 4)))
           (Some [PyInt 1; PyInt 1]) (Some [b; b]))).
Proof.
  apply (tree_topology_single_host Examples2.mesh_local4 4 2 2 100 4);
    [lia | lia | reflexivity | reflexivity | reflexivity | reflexivity].
Defined.

End LogicalMeshFacts.

(** ** ReplicatedDistributedArray: the first replica, and [add_replica] *)

Lemma py_index_head {A} (x : A) (l : list A) : py_index (x :: l) 0 = Ok x.
Proof. unfold py_index. rewrite decide_True by (simpl; lia). done. Qed.

Lemma default_last_cons {A} (a x : A) (l : list A) :
  default a (last (x :: l)) = default x (last l).
Proof.
  destruct l as [|y l _] using rev_ind; [done|].
  by rewrite app_comm_cons, !last_snoc.
Qed.

Module ReplicaFacts.
Section ReplicaFacts.
Context `{Numpy NdArray}.
Implicit Types (self : Replicated.ReplicatedDistributedArray).

Import Replicated.

(** The first key of the mesh-to-array map keeps its place through the
    loop of [__init__]; its value is the array of the last pair with that
    mesh. *)
Lemma init_loop_first (rest : list (nat * nat)) (m0 a : nat) d am av :
  ∃ d' am',
    init_loop rest (mkReplicated ((m0, a) :: d) am av)
    = mkReplicated
        ((m0, default a (last (snd <$> filter (λ p, p.1 = m0) rest))) :: d')
        am' av.
Proof.
  revert a d am. induction rest as [|[m x] rest IH]; intros a d am.
  - by exists d, am.
  - cbn [init_loop _mesh_array_map _array_mesh_map Replicated.aval dict_set].
    rewrite filter_cons. simpl. destruct (decide (m0 = m)) as [->|Hne].
    + rewrite decide_True by done.
      destruct (IH x d (dict_set x m am)) as (d' & am' & ->).
      exists d', am'. by rewrite fmap_cons, default_last_cons.
    + rewrite decide_False by done.
      destruct (IH a (dict_set m x d) (dict_set x m am)) as (d' & am' & ->).
      by exists d', am'.
Qed.

(** X15. The replica that the constructor takes the [aval] from. With no
    mesh or no array the constructor raises [IndexError]. Otherwise the
    first replica is the one registered for the first mesh; when that mesh
    is given several times it is the array given with its last occurrence.
    The object takes its [aval] from that array, and
    [get_replica_on_mesh] returns it for the first mesh. *)
Theorem replicated_init_first_replica
  (heap : gmap nat (DArray.DistributedArray NdArray))
  (device_meshes arrays : list nat) :
  (device_meshes = [] ∨ arrays = [] →
     __init__ heap device_meshes arrays = Raise IndexError) ∧
  (∀ m0 a0 rest r,
     zip device_meshes arrays = (m0, a0) :: rest →
     __init__ heap device_meshes arrays = Ok r →
     ∃ a darr,
       a = default a0 (last (snd <$> filter (λ p, p.1 = m0) rest)) ∧
       replica r = Ok a ∧
       get_replica_on_mesh r m0 = Ok a ∧
       heap !! a = Some darr ∧
       aval r = Some (DArray.aval darr)).
Proof.
  split.
  - intros Hempty. unfold __init__.
    assert (zip device_meshes arrays = []) as ->; [|done].
    destruct Hempty as [-> | ->]; [done | by destruct device_meshes].
  - intros m0 a0 rest r Hzip. unfold __init__. rewrite Hzip.
    cbn [init_loop _mesh_array_map _array_mesh_map Replicated.aval dict_set].
    destruct (init_loop_first rest m0 a0 [] [(a0, m0)] None)
      as (d' & am' & ->).
    unfold replica at 1. cbn [_mesh_array_map dict_values map snd].
    rewrite py_index_head. cbn [res_bind].
    destruct (heap !! _) as [darr|] eqn:Hheap; [|done].
    intros [= <-]. eexists _, darr. split; [done|].
    split_and!; [| | done | done].
    + unfold replica. simpl. by rewrite py_index_head.
    + unfold get_replica_on_mesh, is_replicated_on_mesh, dict_contains. simpl.
      by rewrite decide_True by done.
Qed.

Lemma dict_set_fresh_head {V} (k : nat) (v : V) (p : nat * V) (d : PyDict V) :
  dict_get k (p :: d) = None → ∃ d', dict_set k v (p :: d) = p :: d'.
Proof.
  destruct p as [k' v']. simpl. destruct (decide (k' = k)); [done|].
  intros _. by eexists.
Qed.

(** X16. [add_replica] checks before it writes. When it succeeds the new
    mesh holds the new array, the replicas of the other meshes are as
    before, maps that were inverse to each other still are, the first
    replica (when there was one) is the same, and registering the same
    pair again raises "Replica exists."; when it raises, the object is
    unchanged and the error is one of the two [RuntimeError]s. *)
Theorem add_replica_registers self (mesh array : nat) :
  (∀ self', add_replica mesh array self = (self', Ok tt) →
     get_replica_on_mesh self' mesh = Ok array ∧
     is_replicated_on_mesh self' mesh = true ∧
     (∀ m, m ≠ mesh →
        get_replica_on_mesh self' m = get_replica_on_mesh self m) ∧
     (mutual_inverses self → mutual_inverses self') ∧
     (_mesh_array_map self ≠ [] → replica self' = replica self) ∧
     add_replica mesh array self'
     = (self', Raise (RuntimeError "Replica exists."))) ∧
  (∀ self' e, add_replica mesh array self = (self', Raise e) →
     self' = self ∧
     (e = RuntimeError "Replica exists." ∨ e = RuntimeError "Mesh exists.")).
Proof.
  split.
  - intros self' Hadd.
    pose proof (ReplicatedFacts.add_replica_preserves self mesh array) as Hinv.
    rewrite Hadd in Hinv. simpl in Hinv.
    unfold add_replica in Hadd.
    destruct (dict_contains array _) eqn:Ea; [done|].
    destruct (dict_contains mesh _) eqn:Em; [done|].
    injection Hadd as <-.
    apply dict_contains_false in Ea, Em.
    split_and!.
    + unfold get_replica_on_mesh, is_replicated_on_mesh, dict_contains. simpl.
      rewrite dict_get_set_eq.
      rewrite bool_decide_eq_true_2 by (by eexists). done.
    + unfold is_replicated_on_mesh, dict_contains. simpl.
      rewrite dict_get_set_eq.
      rewrite bool_decide_eq_true_2 by (by eexists). done.
    + intros m Hm.
      unfold get_replica_on_mesh, is_replicated_on_mesh, dict_contains. simpl.
      by rewrite dict_get_set_ne by done.
    + intros Hself. by apply Hinv.
    + intros Hne. unfold replica. simpl.
      destruct (_mesh_array_map self) as [|p d] eqn:Hmap; [done|].
      destruct (dict_set_fresh_head mesh array p d Em) as [d' ->].
      simpl. by rewrite !py_index_head.
    + apply ReplicatedFacts.add_replica_replica_exists. simpl.
      rewrite dict_get_set_eq. by eexists.
  - intros self' e. unfold add_replica.
    destruct (dict_contains array _); [intros [= <- <-]; by split; [|left]|].
    destruct (dict_contains mesh _); [intros [= <- <-]; by split; [|right]|].
    done.
Qed.

End ReplicaFacts.

(** With [Examples.heap5]: the mesh 0 is given twice, first with the array
    9 and then with the array 5, and the first replica is the array 5. *)
Lemma replicated_init_first_replica_witness :
  Replicated.__init__ Examples.heap5 [] [5%nat] = Raise IndexError ∧
  ∃ r a darr,
    Replicated.__init__ Examples.heap5 [0; 1; 0]%nat [9; 7; 5]%nat = Ok r ∧
    a = default 9%nat
          (last (snd <$> filter (λ p, p.1 = 0%nat) [(1, 7); (0, 5)]%nat)) ∧
    Replicated.replica r = Ok a ∧
    Replicated.get_replica_on_mesh r 0 = Ok a ∧
    Examples.heap5 !! a = Some darr ∧
    Replicated.aval r = Some (DArray.aval darr).
Proof.
  destruct (replicated_init_first_replica Examples.heap5 [] [5%nat])
    as [Hempty _].
  destruct (replicated_init_first_replica Examples.heap5
              [0; 1; 0]%nat [9; 7; 5]%nat) as [_ Hfirst].
  split; [apply Hempty; by left|].
  eexists.
  edestruct (Hfirst 0%nat 9%nat [(1, 7); (0, 5)]%nat) as (a & darr & Ha);
    [reflexivity | reflexivity |].
  exists a, darr. split; [reflexivity | exact Ha].
Defined.

(** Adding the array 7 on the mesh 1 to the object built from the mesh 0
    and the array 5. *)
Lemma add_replica_registers_witness :
  ∃ self self',
    Replicated.__init__ Examples.heap5 [0%nat] [5%nat] = Ok self ∧
    Replicated.add_replica 1 7 self = (self', Ok tt) ∧
    Replicated.get_replica_on_mesh self' 1 = Ok 7%nat ∧
    Replicated.replica self' = Ok 5%nat ∧
    Replicated.add_replica 1 7 self'
    = (self', Raise (RuntimeError "Replica exists.")) ∧
    Replicated.add_replica 0 8 self = (self, Raise (RuntimeError "Mesh exists.")) ∧
    (self = self ∧
     (RuntimeError "Mesh exists." = RuntimeError "Replica exists." ∨
      RuntimeError "Mesh exists." = RuntimeError "Mesh exists.")).
Proof.
  eexists _, _. split; [reflexivity|]. split; [reflexivity|].
  edestruct (add_replica_registers
               (Replicated.mkReplicated [(0, 5)]%nat [(5, 0)]%nat
                  (Some Examples.aval6)) 1 7)
    as [Hok _].
  edestruct (Hok _ eq_refl) as (Hget & _ & _ & _ & Hrep & Hagain).
  split; [exact Hget|]. split; [apply Hrep; done|]. split; [exact Hagain|].
  split; [reflexivity|].
  edestruct (add_replica_registers
               (Replicated.mkReplicated [(0, 5)]%nat [(5, 0)]%nat
                  (Some Examples.aval6)) 0 8)
    as [_ Hfail].
  apply Hfail. reflexivity.
Defined.

End ReplicaFacts.

(** ** The driver: putting shards, reading them back, deleting them *)

Lemma py_position_nonneg (n : nat) (h : Z) :
  0 ≤ h < Z.of_nat n → py_position n h = Ok (Z.to_nat h).
Proof. intros Hh. unfold py_position. by rewrite decide_True. Qed.

Lemma py_position_lt (n : nat) (h : Z) (pos : nat) :
  py_position n h = Ok pos → (pos < n)%nat.
Proof.
  unfold py_position. repeat case_decide; intros ?; simplify_eq; lia.
Qed.

Lemma py_index_position {A} (l : list A) (i : Z) (pos : nat) (x : A) :
  py_position (length l) i = Ok pos → l !! pos = Some x → py_index l i = Ok x.
Proof.
  unfold py_position, py_index. repeat case_decide; intros ? Hx; simplify_eq;
    by rewrite Hx.
Qed.

Module PutFacts.
Section PutFacts.
Context `{Numpy NdArray}.

Import Driver RemoteOps.
Implicit Types (w : World (NdArray := NdArray)).
Implicit Types (m : Physical.PhysicalDeviceMesh NdArray).
Implicit Types (ws : list (Worker.MeshHostWorker NdArray)).
Implicit Types (method : M (Worker.MeshHostWorker NdArray) unit).
Implicit Types (shards : list (Shard (NdArray := NdArray))).

(** *** Worker methods that touch one uuid *)

Lemma put_buffer_touches (uuid d : Z) (x : NdArray) :
  touches_only uuid (Worker.put_buffer uuid d x).
Proof.
  intros worker. unfold Worker.put_buffer. case_decide; [done|].
  destruct (py_index _ d); [|done]. simpl. split; [done|].
  intros u Hu. by rewrite lookup_insert_ne.
Qed.

Lemma put_non_zero_buffer_touches (uuid d : Z) shape dtype :
  touches_only uuid (Worker.put_non_zero_buffer uuid d shape dtype).
Proof.
  intros worker. unfold Worker.put_non_zero_buffer.
  destruct (py_index _ d); [|done]. simpl. split; [done|].
  intros u Hu. by rewrite lookup_insert_ne.
Qed.

Lemma worker_put_buffer_touches (uuid d : Z) (s : Shard (NdArray := NdArray)) :
  touches_only uuid (worker_put_buffer uuid d s).
Proof. destruct s; [apply put_buffer_touches | done]. Qed.

Lemma delete_one_touches (uuid : Z) :
  touches_only (NdArray := NdArray) uuid
    (Worker.delete_buffers (Worker.One uuid)).
Proof.
  intros worker. simpl. unfold Worker.buffers_delitem.
  destruct (Worker.buffers worker !! uuid); [|done]. simpl. split; [done|].
  intros u Hu. by rewrite lookup_delete_ne.
Qed.

(** *** One remote call *)

Lemma set_workers_same m ws : Physical.workers m = Some ws → set_workers m ws = m.
Proof. destruct m. simpl. by intros ->. Qed.

Lemma set_workers_twice m ws ws' :
  set_workers (set_workers m ws) ws' = set_workers m ws'.
Proof. done. Qed.

Lemma with_workers_same w self m ws :
  meshes w !! self = Some m → Physical.workers m = Some ws →
  with_workers w self m ws (next_uuid w) = w.
Proof.
  intros Hm Hws. unfold with_workers.
  rewrite set_workers_same, insert_id by done. by destruct w.
Qed.

Lemma remote_call_step self (h : Z) method w m ws pos :
  meshes w !! self = Some m → Physical.workers m = Some ws →
  py_position (length ws) h = Ok pos →
  ∃ worker, ws !! pos = Some worker ∧
    remote_call self h method w
    = (with_workers w self m (<[pos := (method worker).1]> ws) (next_uuid w),
       Ok tt).
Proof.
  intros Hm Hws Hpos.
  destruct (lookup_lt_is_Some_2 ws pos) as [worker Hw];
    [by eapply py_position_lt|].
  exists worker. split; [done|].
  unfold remote_call, st_bind, get_mesh, st_lift. rewrite Hm. simpl.
  rewrite Hws, Hpos. simpl. by rewrite Hw.
Qed.

(** What one remote call of a method that touches only [uuid] does to the
    workers. *)
Lemma touched_workers uuid method ws pos worker :
  touches_only uuid method → ws !! pos = Some worker →
  length (<[pos := (method worker).1]> ws) = length ws ∧
  (∀ p, devices_of (<[pos := (method worker).1]> ws) p = devices_of ws p) ∧
  (∀ p u, u ≠ uuid →
     buffer_of (<[pos := (method worker).1]> ws) p u = buffer_of ws p u) ∧
  (∀ p, p ≠ pos →
     buffer_of (<[pos := (method worker).1]> ws) p uuid = buffer_of ws p uuid) ∧
  buffer_of (<[pos := (method worker).1]> ws) pos uuid
  = Worker.buffers (method worker).1 !! uuid.
Proof.
  intros Hm Hw. destruct (Hm worker) as [Hdev Hbuf].
  pose proof (lookup_lt_Some _ _ _ Hw) as Hlt.
  split_and!.
  - apply length_insert.
  - intros p. unfold devices_of. destruct (decide (p = pos)) as [->|Hne].
    + rewrite list_lookup_insert_eq, Hw by done. simpl. by rewrite Hdev.
    + by rewrite list_lookup_insert_ne.
  - intros p u Hu. unfold buffer_of. destruct (decide (p = pos)) as [->|Hne].
    + rewrite list_lookup_insert_eq, Hw by done. simpl. by apply Hbuf.
    + by rewrite list_lookup_insert_ne.
  - intros p Hp. unfold buffer_of. by rewrite list_lookup_insert_ne.
  - unfold buffer_of. by rewrite list_lookup_insert_eq.
Qed.

(** *** The loop of [_device_mesh_put] *)

Lemma with_workers_again w self m ws ws' (u u' : Z) :
  with_workers (with_workers w self m ws u) self (set_workers m ws) ws' u'
  = with_workers w self m ws' u'.
Proof. unfold with_workers. simpl. by rewrite insert_insert_eq. Qed.

Lemma put_loop_spec self shards (cells : list (Z * Z)) :
  ∀ pt acc w m ws,
    meshes w !! self = Some m → Physical.workers m = Some ws →
    Forall (λ c : Z * Z, 0 ≤ c.1 < Z.of_nat (length ws)) cells →
    0 ≤ pt → pt + Z.of_nat (length cells) ≤ Z.of_nat (length shards) →
    ∃ ws' tail,
      device_mesh_put_loop self cells shards pt acc w
      = (with_workers w self m ws' (next_uuid w + Z.of_nat (length cells)),
         Ok (acc ++ tail)) ∧
      length tail = length cells ∧
      (∀ k c s,
         cells !! k = Some c →
         shards !! Z.to_nat (pt + Z.of_nat k) = Some s →
         tail !! k = Some (DArray.mkRef self c.1 c.2 (next_uuid w + Z.of_nat k)
                             (shard_dtype s))) ∧
      length ws' = length ws ∧
      (∀ p, devices_of ws' p = devices_of ws p) ∧
      (∀ p u,
         (∀ k c, cells !! k = Some c →
                 ¬ (Z.to_nat c.1 = p ∧ next_uuid w + Z.of_nat k = u)) →
         buffer_of ws' p u = buffer_of ws p u) ∧
      (use_dummy_value_for_benchmarking w = false →
       (∀ p u, next_uuid w ≤ u → buffer_of ws p u = None) →
       ∀ k c x dev,
         cells !! k = Some c →
         shards !! Z.to_nat (pt + Z.of_nat k) = Some (ShardArray x) →
         (devs ← devices_of ws (Z.to_nat c.1); Some (py_index devs c.2))
         = Some (Ok dev) →
         buffer_of ws' (Z.to_nat c.1) (next_uuid w + Z.of_nat k)
         = Some (Worker.mkDeviceBuffer dev x)).
Proof.
  induction cells as [|[h d] rest IH]; intros pt acc w m ws Hm Hws Hcells Hpt Hlen.
  - exists ws, []. simpl. rewrite Z.add_0_r, with_workers_same by done.
    rewrite app_nil_r. split_and!; try done.
    all: intros;
      match goal with Hk : [] !! _ = Some _ |- _ => by rewrite lookup_nil in Hk end.
  - apply Forall_cons in Hcells as [Hh Hrest]. simpl in Hh, Hlen.
    destruct (lookup_lt_is_Some_2 shards (Z.to_nat pt)) as [shard Hshard];
      [lia|].
    set (uuid := next_uuid w).
    set (method := if use_dummy_value_for_benchmarking w
                   then Worker.put_non_zero_buffer uuid d (shard_shape shard)
                          (shard_dtype shard)
                   else worker_put_buffer uuid d shard).
    assert (touches_only uuid method) as Htouch.
    { unfold method. destruct (use_dummy_value_for_benchmarking w);
        [apply put_non_zero_buffer_touches | apply worker_put_buffer_touches]. }
    set (w1 := mkWorld (meshes w) (darrays w) (next_uuid w + 1)
                 (use_dummy_value_for_benchmarking w) (handler_calls w)
                 (memory_queries w)).
    destruct (remote_call_step self h method w1 m ws (Z.to_nat h))
      as (worker & Hworker & Hcall); [done | done | by apply py_position_nonneg|].
    set (ws1 := <[Z.to_nat h := (method worker).1]> ws) in *.
    destruct (touched_workers uuid method ws (Z.to_nat h) worker Htouch Hworker)
      as (Hlen1 & Hdev1 & Hother1 & Hpos1 & Hhere1).
    fold ws1 in Hlen1, Hdev1, Hother1, Hpos1, Hhere1.
    destruct (IH (pt + 1)
                (acc ++ [DArray.mkRef self h d uuid (shard_dtype shard)])
                (with_workers w1 self m ws1 (next_uuid w1))
                (set_workers m ws1) ws1)
      as (ws' & tail & Hloop & Htail & Hrefs & Hlen' & Hdev' & Hold' & Hnew');
      [by simpl; rewrite lookup_insert_eq | done
      | by rewrite Hlen1 | lia | lia |].
    exists ws', (DArray.mkRef self h d uuid (shard_dtype shard) :: tail).
    split_and!.
    + cbn [device_mesh_put_loop]. unfold st_bind at 1, st_lift.
      rewrite (py_index_nonneg _ _ _ Hpt Hshard).
      unfold st_bind at 1, fresh_uuid. unfold st_bind at 1, dummy_flag.
      cbn [use_dummy_value_for_benchmarking].
      unfold st_bind at 1.
      assert ((if use_dummy_value_for_benchmarking w
               then remote_call self h
                      (Worker.put_non_zero_buffer (next_uuid w) d
                         (shard_shape shard) (shard_dtype shard))
               else remote_call self h
                      (worker_put_buffer (next_uuid w) d shard))
              = remote_call self h method) as ->.
      { unfold method, uuid. by destruct (use_dummy_value_for_benchmarking w). }
      fold w1. rewrite Hcall. fold uuid. rewrite Hloop.
      rewrite with_workers_again, <- app_assoc. simpl.
      do 2 f_equal. lia.
    + simpl. by rewrite Htail.
    + intros [|k] c s Hk Hs; simplify_eq/=.
      * rewrite Z.add_0_r in *. by simplify_eq.
      * rewrite (Hrefs k c s Hk); [do 2 f_equal; lia|].
        rewrite <- Hs. f_equal. lia.
    + by rewrite Hlen'.
    + intros p. by rewrite Hdev'.
    + intros p u Hu. rewrite Hold'.
      * destruct (decide (u = uuid)) as [->|Hne]; [|by apply Hother1].
        apply Hpos1. intros ->. apply (Hu O (h, d)); [done|].
        simpl. unfold uuid. split; [done | lia].
      * intros k c Hk [Hp Hku]. apply (Hu (S k) c); [done|].
        simpl in *. split; [done | lia].
    + intros Hdummy Hfresh [|k] c x dev Hk Hs Hdevs; simplify_eq/=.
      * rewrite Z.add_0_r in *. simplify_eq. fold uuid.
        rewrite Hold' by (intros k c _ [_ Hku]; simpl in Hku; unfold uuid in Hku; lia).
        rewrite Hhere1.
        unfold devices_of in Hdevs. rewrite Hworker in Hdevs. simpl in Hdevs.
        unfold method. rewrite Hdummy. simpl.
        assert (Worker.buffers worker !! uuid = None) as Hnone.
        { specialize (Hfresh (Z.to_nat h) uuid). unfold buffer_of in Hfresh.
          rewrite Hworker in Hfresh. simpl in Hfresh. apply Hfresh.
          unfold uuid. lia. }
        rewrite (WorkerFacts.put_buffer_fresh _ _ _ _ dev) by (done || congruence).
        simpl. by rewrite lookup_insert_eq.
      * replace (uuid + Z.of_nat (S k))
          with (next_uuid w + 1 + Z.of_nat k) by (unfold uuid; lia).
        apply (Hnew' Hdummy) with (c := c).
        -- intros p u Hu. simpl in Hu.
           rewrite Hother1 by (unfold uuid; lia). apply Hfresh. lia.
        -- done.
        -- rewrite <- Hs. f_equal. lia.
        -- by rewrite Hdev1.
Qed.

(** *** The cells of a mesh *)

Lemma mesh_cells_flat_map (hosts : nat) (devs : Z) :
  mesh_cells hosts devs
  = flat_map (λ h, map (λ d, (h, d)) (seqZ 0 devs)) (seqZ 0 (Z.of_nat hosts)).
Proof.
  unfold mesh_cells, py_range.
  induction (seqZ 0 (Z.of_nat hosts)) as [|h l IH]; [done|].
  cbn [flat_map]. rewrite <- IH. clear IH.
  change ((h :: l) ≫= ?f) with (f h ++ (l ≫= f)). f_equal.
Qed.

Lemma length_mesh_cells (hosts : nat) (devs : Z) :
  length (mesh_cells hosts devs) = (hosts * Z.to_nat devs)%nat.
Proof.
  rewrite mesh_cells_flat_map.
  rewrite (length_flat_map_const _ _ (Z.to_nat devs)).
  - by rewrite length_seqZ, Nat2Z.id.
  - intros h. by rewrite length_map, length_seqZ.
Qed.

Lemma lookup_mesh_cells (hosts : nat) (devs h d : Z) :
  0 ≤ h < Z.of_nat hosts → 0 ≤ d < devs →
  mesh_cells hosts devs !! Z.to_nat (h * devs + d) = Some (h, d).
Proof.
  intros Hh Hd. rewrite mesh_cells_flat_map.
  replace (Z.to_nat (h * devs + d))
    with (Z.to_nat h * Z.to_nat devs + Z.to_nat d)%nat by nia.
  rewrite (lookup_flat_map_uniform _ _ (Z.to_nat devs) _ _ h).
  - change (map ?f ?l) with (f <$> l). rewrite list_lookup_fmap.
    rewrite lookup_seqZ_lt by lia. simpl. do 2 f_equal. lia.
  - intros y. by rewrite length_map, length_seqZ.
  - rewrite lookup_seqZ_lt by lia. f_equal. lia.
  - lia.
Qed.

Lemma elem_of_mesh_cells (hosts : nat) (devs : Z) (c : Z * Z) :
  c ∈ mesh_cells hosts devs → 0 ≤ c.1 < Z.of_nat hosts ∧ 0 ≤ c.2 < devs.
Proof.
  unfold mesh_cells, py_range. rewrite list_elem_of_bind.
  intros (h & (d & ->%list_elem_of_singleton & Hd%elem_of_seqZ)%list_elem_of_bind
            & Hh%elem_of_seqZ). simpl. lia.
Qed.

(** The cell at a position of the list. *)
Lemma mesh_cells_position (hosts : nat) (devs : Z) (k : nat) (c : Z * Z) :
  mesh_cells hosts devs !! k = Some c →
  0 ≤ c.1 < Z.of_nat hosts ∧ 0 ≤ c.2 < devs ∧
  Z.of_nat k = c.1 * devs + c.2.
Proof.
  intros Hk.
  pose proof (elem_of_mesh_cells _ _ _ (list_elem_of_lookup_2 _ _ _ Hk))
    as [Hh Hd].
  split; [done|]. split; [done|].
  pose proof (lookup_lt_Some _ _ _ Hk) as Hlt.
  rewrite length_mesh_cells in Hlt.
  set (h := Z.of_nat k `div` devs). set (d := Z.of_nat k `mod` devs).
  assert (0 < devs) by lia.
  assert (0 ≤ d < devs) by (apply Z.mod_pos_bound; lia).
  assert (Z.of_nat k = h * devs + d) as Hkhd.
  { unfold h, d. rewrite (Z.div_mod (Z.of_nat k) devs) at 1 by lia. lia. }
  assert (0 ≤ h < Z.of_nat hosts).
  { split; [apply Z.div_pos; lia|]. apply Z.div_lt_upper_bound; nia. }
  pose proof (lookup_mesh_cells hosts devs h d) as Hlook.
  rewrite <- Hkhd, Nat2Z.id, Hk in Hlook.
  specialize (Hlook ltac:(done) ltac:(done)). simplify_eq. simpl. done.
Qed.

(** *** [_device_mesh_put] *)

Lemma st_bind_assoc {S A B C} (c : M S A) (k : A → M S B) (k' : B → M S C) s :
  st_bind (st_bind c k) k' s = st_bind c (λ x, st_bind (k x) k') s.
Proof. unfold st_bind. by destruct (c s) as [s1 [x|e]]. Qed.

Lemma st_bind_ext {S A B} (c : M S A) (k k' : A → M S B) s :
  (∀ x s', k x s' = k' x s') → st_bind c k s = st_bind c k' s.
Proof. intros Hk. unfold st_bind. destruct (c s) as [s1 [x|e]]; [apply Hk | done]. Qed.

Lemma put_loop_app self shards (pre post : list (Z * Z)) :
  ∀ pt acc w,
    device_mesh_put_loop self (pre ++ post) shards pt acc w
    = st_bind (device_mesh_put_loop self pre shards pt acc)
        (λ acc1, device_mesh_put_loop self post shards
                   (pt + Z.of_nat (length pre)) acc1) w.
Proof.
  induction pre as [|[h d] pre IH]; intros pt acc w.
  - simpl. by rewrite Z.add_0_r.
  - cbn [app device_mesh_put_loop]. rewrite !st_bind_assoc.
    apply st_bind_ext. intros shard w1. rewrite !st_bind_assoc.
    apply st_bind_ext. intros uuid w2. rewrite !st_bind_assoc.
    apply st_bind_ext. intros dummy w3. rewrite !st_bind_assoc.
    apply st_bind_ext. intros [] w4. rewrite IH. simpl length.
    replace (pt + 1 + Z.of_nat (length pre))
      with (pt + Z.of_nat (S (length pre))) by lia.
    done.
Qed.

Lemma py_index_out {A} (l : list A) : py_index l (Z.of_nat (length l)) = Raise IndexError.
Proof.
  unfold py_index. rewrite decide_False by lia. by rewrite decide_False by lia.
Qed.

(** X17. [_device_mesh_put] on a mesh whose workers are launched. With at
    least one shard per device it returns one reference per device, in
    host-major order: the reference for device [d] of host [h] is at
    position [h * D + d], names that host and device, carries the dtype of
    the shard at that position, and has the uuid drawn at that position;
    the uuid counter advances by the number of devices, the array objects
    are untouched, and no buffer with an earlier uuid changes. Shards
    beyond the number of devices are ignored. With fewer shards than devices
    the call raises [IndexError], after one uuid was drawn for each shard
    given. *)
Theorem device_mesh_put_refs self shards w m ws :
  meshes w !! self = Some m → Physical.workers m = Some ws →
  (Physical.num_hosts m ≤ length ws)%nat →
  ((length (mesh_cells (Physical.num_hosts m) (Physical.num_devices_per_host m))
    ≤ length shards)%nat →
   ∃ w' refs,
     _device_mesh_put self shards w = (w', Ok refs) ∧
     length refs
     = (Physical.num_hosts m * Z.to_nat (Physical.num_devices_per_host m))%nat ∧
     next_uuid w' = next_uuid w + Z.of_nat (length refs) ∧
     darrays w' = darrays w ∧
     (∀ h d s,
        0 ≤ h < Z.of_nat (Physical.num_hosts m) →
        0 ≤ d < Physical.num_devices_per_host m →
        shards !! Z.to_nat (h * Physical.num_devices_per_host m + d) = Some s →
        refs !! Z.to_nat (h * Physical.num_devices_per_host m + d)
        = Some (DArray.mkRef self h d
                  (next_uuid w + (h * Physical.num_devices_per_host m + d))
                  (shard_dtype s))) ∧
     (∀ p u, u < next_uuid w → buffer_at w' self p u = buffer_at w self p u)) ∧
  ((length shards
    < length (mesh_cells (Physical.num_hosts m) (Physical.num_devices_per_host m)))%nat →
   ∃ w', _device_mesh_put self shards w = (w', Raise IndexError) ∧
         next_uuid w' = next_uuid w + Z.of_nat (length shards)).
Proof.
  intros Hm Hws Hhosts.
  set (cells := mesh_cells (Physical.num_hosts m)
                  (Physical.num_devices_per_host m)).
  assert (_device_mesh_put self shards w
          = device_mesh_put_loop self cells shards 0 [] w) as Hput.
  { unfold _device_mesh_put, st_bind, get_mesh. by rewrite Hm. }
  assert (Forall (λ c : Z * Z, 0 ≤ c.1 < Z.of_nat (length ws)) cells) as Hcells.
  { apply Forall_forall. intros c [Hh _]%elem_of_mesh_cells. lia. }
  split.
  - intros Hlen.
    destruct (put_loop_spec self shards cells 0 [] w m ws)
      as (ws' & refs & Hloop & Hrefs_len & Hrefs & Hlen' & _ & Hold & _);
      [done | done | done | lia | lia |].
    eexists _, refs. split; [by rewrite Hput, Hloop|].
    split_and!.
    + rewrite Hrefs_len. apply length_mesh_cells.
    + simpl. by rewrite Hrefs_len.
    + done.
    + intros h d s Hh Hd Hs.
      rewrite (Hrefs _ (h, d) s).
      * simpl. do 2 f_equal. nia.
      * by apply lookup_mesh_cells.
      * rewrite <- Hs. f_equal. lia.
    + intros p u Hu. unfold buffer_at, mesh_workers. simpl.
      rewrite lookup_insert_eq, Hm. simpl. rewrite Hws. simpl.
      apply Hold. intros k c _ [_ Hku]. lia.
  - intros Hlen.
    set (n := length shards) in *.
    assert (cells = take n cells ++ drop n cells) as Hsplit
      by (by rewrite take_drop).
    destruct (drop n cells) as [|[h d] post] eqn:Hdrop.
    { apply (f_equal length) in Hdrop. rewrite length_drop in Hdrop.
      simpl in Hdrop. lia. }
    destruct (put_loop_spec self shards (take n cells) 0 [] w m ws)
      as (ws' & refs & Hloop & _);
      [done | done | by apply Forall_take | lia
      | rewrite length_take; unfold n; lia |].
    eexists. rewrite Hput, Hsplit, put_loop_app. unfold st_bind at 1.
    rewrite Hloop. rewrite length_take, Nat.min_l by lia.
    cbn [device_mesh_put_loop]. unfold st_bind at 1, st_lift.
    rewrite Z.add_0_l. unfold n. rewrite py_index_out.
    split; [done|]. simpl. lia.
Qed.

(** *** Reading the shards back *)

Lemma get_remote_buffers_lookup m ws (refs : list DArray.RemoteBufferRef)
  (xs : list NdArray) :
  Physical.workers m = Some ws →
  length xs = length refs →
  (∀ k r, refs !! k = Some r →
     ∃ pos b, py_position (length ws) (DArray.ref_host_id r) = Ok pos ∧
              buffer_of ws pos (DArray.ref_uuid r) = Some b ∧
              xs !! k = Some (Worker.buf_value b)) →
  get_remote_buffers m refs = Ok xs.
Proof.
  intros Hws Hlen Hk. unfold get_remote_buffers. rewrite Hws.
  revert xs Hlen Hk. induction refs as [|r refs IH]; intros xs Hlen Hk.
  - by destruct xs.
  - destruct xs as [|x xs]; [done|].
    destruct (Hk O r) as (pos & b & Hpos & Hb & Hx); [done|].
    simpl in Hx. simplify_eq.
    specialize (IH xs ltac:(by simplify_eq/=) (λ k r', Hk (S k) r')).
    unfold buffer_of in Hb. destruct (ws !! pos) as [worker|] eqn:Hw; [|done].
    simpl in Hb. cbn [res_map].
    rewrite (py_index_position _ _ pos worker) by done. cbn [res_bind].
    destruct (res_map _ refs) as [targets|]; [|done].
    cbn [res_bind res_map fst snd] in *.
    unfold Worker.get_buffers at 1, Worker.buffers_getitem at 1.
    rewrite Hb. cbn [res_bind]. by rewrite IH.
Qed.

(** X18. Shards that are put are read back. With the benchmarking flag
    off, on a launched mesh each of whose workers has a device for every
    device index, and whose workers hold no buffer under a uuid that is
    still to be drawn, [_device_mesh_put] of one array per device followed
    by [get_remote_buffers] on the references it returned gives the arrays
    back, in order. *)
Theorem device_mesh_put_then_get self (xs : list NdArray) w m ws :
  meshes w !! self = Some m → Physical.workers m = Some ws →
  (Physical.num_hosts m ≤ length ws)%nat →
  use_dummy_value_for_benchmarking w = false →
  length xs
  = length (mesh_cells (Physical.num_hosts m) (Physical.num_devices_per_host m)) →
  (∀ p devs d, devices_of ws p = Some devs →
               0 ≤ d < Physical.num_devices_per_host m →
               ∃ dev, py_index devs d = Ok dev) →
  (∀ p u, next_uuid w ≤ u → buffer_of ws p u = None) →
  ∃ w' refs m',
    _device_mesh_put self (ShardArray <$> xs) w = (w', Ok refs) ∧
    meshes w' !! self = Some m' ∧
    get_remote_buffers m' refs = Ok xs.
Proof.
  intros Hm Hws Hhosts Hdummy Hlen Hdevs Hfresh.
  set (cells := mesh_cells (Physical.num_hosts m)
                  (Physical.num_devices_per_host m)) in *.
  assert (Forall (λ c : Z * Z, 0 ≤ c.1 < Z.of_nat (length ws)) cells) as Hcells.
  { apply Forall_forall. intros c [Hh _]%elem_of_mesh_cells. lia. }
  destruct (put_loop_spec self (ShardArray <$> xs) cells 0 [] w m ws)
    as (ws' & refs & Hloop & Hrefs_len & Hrefs & Hlen' & _ & _ & Hnew);
    [done | done | done | lia | rewrite length_fmap; lia |].
  eexists _, refs, (set_workers m ws'). split_and!.
  - unfold _device_mesh_put, st_bind, get_mesh. rewrite Hm. exact Hloop.
  - simpl. by rewrite lookup_insert_eq.
  - apply (get_remote_buffers_lookup _ ws'); [done | lia |].
    intros k r Hr.
    destruct (lookup_lt_is_Some_2 cells k) as [c Hc];
      [rewrite <- Hrefs_len; by eapply lookup_lt_Some|].
    destruct (lookup_lt_is_Some_2 xs k) as [x Hx];
      [rewrite Hlen; by eapply lookup_lt_Some|].
    assert ((ShardArray <$> xs) !! Z.to_nat (0 + Z.of_nat k)
            = Some (ShardArray (NdArray := NdArray) x)) as Hs.
    { rewrite Z.add_0_l, Nat2Z.id, list_lookup_fmap, Hx. done. }
    rewrite (Hrefs k c _ Hc Hs) in Hr. injection Hr as <-. simpl.
    pose proof (elem_of_mesh_cells _ _ _ (list_elem_of_lookup_2 _ _ _ Hc))
      as [Hh Hd].
    destruct (lookup_lt_is_Some_2 ws (Z.to_nat c.1)) as [worker Hworker];
      [lia|].
    destruct (Hdevs (Z.to_nat c.1) (Worker.local_devices worker) c.2)
      as [dev Hdev]; [by unfold devices_of; rewrite Hworker | done |].
    exists (Z.to_nat c.1), (Worker.mkDeviceBuffer dev x). split_and!.
    + apply py_position_nonneg. lia.
    + apply (Hnew Hdummy Hfresh k c x dev Hc Hs).
      unfold devices_of. rewrite Hworker. simpl. by rewrite Hdev.
    + done.
Qed.

(** *** [delete_remote_buffers] *)

Lemma delete_loop_spec self (refs : list DArray.RemoteBufferRef) :
  ∀ w m ws,
    meshes w !! self = Some m → Physical.workers m = Some ws →
    Forall (λ r, 0 ≤ DArray.ref_host_id r < Z.of_nat (length ws)) refs →
    ∃ ws',
      st_for refs (λ buf_ref,
        remote_call self (DArray.ref_host_id buf_ref)
          (Worker.delete_buffers (Worker.One (DArray.ref_uuid buf_ref)))) w
      = (with_workers w self m ws' (next_uuid w), Ok tt) ∧
      length ws' = length ws ∧
      (∀ p, devices_of ws' p = devices_of ws p) ∧
      (∀ r, r ∈ refs →
         buffer_of ws' (Z.to_nat (DArray.ref_host_id r)) (DArray.ref_uuid r)
         = None) ∧
      (∀ p u, buffer_of ws p u = None → buffer_of ws' p u = None) ∧
      (∀ p u,
         (∀ r, r ∈ refs →
               ¬ (Z.to_nat (DArray.ref_host_id r) = p ∧ DArray.ref_uuid r = u)) →
         buffer_of ws' p u = buffer_of ws p u).
Proof.
  induction refs as [|r refs IH]; intros w m ws Hm Hws Hrefs.
  - exists ws. simpl. rewrite with_workers_same by done.
    split_and!; try done. intros r Hr. by apply elem_of_nil in Hr.
  - apply Forall_cons in Hrefs as [Hr Hrefs].
    set (uuid := DArray.ref_uuid r). set (pos := Z.to_nat (DArray.ref_host_id r)).
    set (method := Worker.delete_buffers (NdArray := NdArray) (Worker.One uuid)).
    destruct (remote_call_step self (DArray.ref_host_id r) method w m ws pos)
      as (worker & Hworker & Hcall); [done | done | by apply py_position_nonneg|].
    destruct (touched_workers uuid method ws pos worker
                (delete_one_touches uuid) Hworker)
      as (Hlen1 & Hdev1 & Hother1 & Hpos1 & Hhere1).
    set (ws1 := <[pos := (method worker).1]> ws) in *.
    assert (buffer_of ws1 pos uuid = None) as Hgone.
    { rewrite Hhere1. apply WorkerFacts.delitem_absent_after. }
    assert (∀ p u, buffer_of ws p u = None → buffer_of ws1 p u = None) as Habs1.
    { intros p u Hnone. destruct (decide (u = uuid)) as [->|Hne].
      - destruct (decide (p = pos)) as [->|Hp]; [done|]. by rewrite Hpos1.
      - by rewrite Hother1. }
    destruct (IH (with_workers w self m ws1 (next_uuid w))
                (set_workers m ws1) ws1)
      as (ws' & Hloop & Hlen' & Hdev' & Hdel' & Habs' & Hkeep');
      [by simpl; rewrite lookup_insert_eq | done | by rewrite Hlen1 |].
    exists ws'. split_and!.
    + cbn [st_for]. unfold st_bind at 1. fold uuid method. rewrite Hcall.
      rewrite Hloop. by rewrite with_workers_again.
    + by rewrite Hlen'.
    + intros p. by rewrite Hdev'.
    + intros r' [->|Hr']%elem_of_cons; [by apply Habs' | by apply Hdel'].
    + intros p u Hnone. by apply Habs', Habs1.
    + intros p u Hu. rewrite Hkeep' by (intros r' Hr'; apply Hu; by right).
      destruct (decide (u = uuid)) as [->|Hne]; [|by apply Hother1].
      apply Hpos1. intros ->. by apply (Hu r); [left|].
Qed.

Lemma delete_loop_noop self (refs : list DArray.RemoteBufferRef) w m ws :
  meshes w !! self = Some m → Physical.workers m = Some ws →
  Forall (λ r, 0 ≤ DArray.ref_host_id r < Z.of_nat (length ws)) refs →
  (∀ r, r ∈ refs →
     buffer_of ws (Z.to_nat (DArray.ref_host_id r)) (DArray.ref_uuid r) = None) →
  st_for refs (λ buf_ref,
    remote_call self (DArray.ref_host_id buf_ref)
      (Worker.delete_buffers (Worker.One (DArray.ref_uuid buf_ref)))) w
  = (w, Ok tt).
Proof.
  intros Hm Hws Hrefs Hnone. induction refs as [|r refs IH]; [done|].
  apply Forall_cons in Hrefs as [Hr Hrefs].
  destruct (remote_call_step self (DArray.ref_host_id r)
              (Worker.delete_buffers (Worker.One (DArray.ref_uuid r)))
              w m ws (Z.to_nat (DArray.ref_host_id r)))
    as (worker & Hworker & Hcall); [done | done | by apply py_position_nonneg|].
  cbn [st_for]. unfold st_bind at 1. rewrite Hcall.
  assert (Worker.buffers worker !! DArray.ref_uuid r = None) as Habsent.
  { specialize (Hnone r ltac:(left)). unfold buffer_of in Hnone.
    by rewrite Hworker in Hnone. }
  assert ((Worker.delete_buffers (Worker.One (DArray.ref_uuid r)) worker).1
          = worker) as ->.
  { simpl. unfold Worker.buffers_delitem. by rewrite Habsent. }
  rewrite list_insert_id, with_workers_same by done.
  apply IH; [done|]. intros r' Hr'. apply Hnone. by right.
Qed.

(** X19. [delete_remote_buffers] on a launched mesh, for references whose
    host index is one of the workers, never raises, not even for a uuid
    that no worker holds: afterwards no reference names a buffer any more,
    the buffers that no reference names are as before, the array objects
    and the uuid counter are untouched, and a second call changes nothing.
    On a mesh without workers, and when ray is not initialized, the call
    does nothing. *)
Theorem delete_remote_buffers_spec self (refs : list DArray.RemoteBufferRef)
  w m :
  meshes w !! self = Some m →
  (∀ ws, Physical.workers m = Some ws →
     Forall (λ r, 0 ≤ DArray.ref_host_id r < Z.of_nat (length ws)) refs →
     ∃ w', delete_remote_buffers true self refs w = (w', Ok tt) ∧
           darrays w' = darrays w ∧ next_uuid w' = next_uuid w ∧
           (∀ r, r ∈ refs →
              buffer_at w' self (Z.to_nat (DArray.ref_host_id r))
                (DArray.ref_uuid r) = None) ∧
           (∀ p u,
              (∀ r, r ∈ refs →
                    ¬ (Z.to_nat (DArray.ref_host_id r) = p ∧
                       DArray.ref_uuid r = u)) →
              buffer_at w' self p u = buffer_at w self p u) ∧
           delete_remote_buffers true self refs w' = (w', Ok tt)) ∧
  (Physical.workers m = None →
     ∀ ray_is_initialized,
       delete_remote_buffers ray_is_initialized self refs w = (w, Ok tt)) ∧
  delete_remote_buffers false self refs w = (w, Ok tt).
Proof.
  intros Hm. split_and!.
  - intros ws Hws Hrefs.
    destruct (delete_loop_spec self refs w m ws Hm Hws Hrefs)
      as (ws' & Hloop & Hlen' & _ & Hdel & _ & Hkeep).
    assert (∀ w0 p u, buffer_at (with_workers w0 self m ws' (next_uuid w)) self p u
                      = buffer_of ws' p u) as Hat'.
    { intros w0 p u. unfold buffer_at, mesh_workers. simpl.
      by rewrite lookup_insert_eq. }
    assert (∀ p u, buffer_at w self p u = buffer_of ws p u) as Hat.
    { intros p u. unfold buffer_at, mesh_workers. by rewrite Hm, Hws. }
    eexists. split_and!.
    + unfold delete_remote_buffers, st_bind, get_mesh. rewrite Hm.
      cbn [negb]. rewrite Hws. exact Hloop.
    + done.
    + done.
    + intros r Hr. rewrite Hat'. by apply Hdel.
    + intros p u Hu. rewrite Hat', Hat. by apply Hkeep.
    + unfold delete_remote_buffers, st_bind, get_mesh. simpl.
      rewrite lookup_insert_eq. simpl.
      apply (delete_loop_noop self refs _ (set_workers m ws') ws').
      * simpl. by rewrite lookup_insert_eq.
      * done.
      * by rewrite Hlen'.
      * done.
  - intros Hws ri. unfold delete_remote_buffers, st_bind, get_mesh.
    by rewrite Hm, Hws.
  - unfold delete_remote_buffers, st_bind, get_mesh. rewrite Hm. simpl.
    by destruct (Physical.workers m).
Qed.

(** X20. Putting and then deleting restores the workers. On a launched
    mesh whose workers hold no buffer under a uuid that is still to be
    drawn, [_device_mesh_put] (with at least one shard per device, in
    either benchmarking mode) followed by [delete_remote_buffers] on the
    references it returned leaves every worker of the mesh with the buffers
    it had before. *)
Theorem device_mesh_put_then_delete self shards w m ws :
  meshes w !! self = Some m → Physical.workers m = Some ws →
  (Physical.num_hosts m ≤ length ws)%nat →
  (length (mesh_cells (Physical.num_hosts m) (Physical.num_devices_per_host m))
   ≤ length shards)%nat →
  (∀ p u, next_uuid w ≤ u → buffer_of ws p u = None) →
  ∃ w1 refs w2,
    _device_mesh_put self shards w = (w1, Ok refs) ∧
    delete_remote_buffers true self refs w1 = (w2, Ok tt) ∧
    ∀ p u, buffer_at w2 self p u = buffer_at w self p u.
Proof.
  intros Hm Hws Hhosts Hlen Hfresh.
  set (cells := mesh_cells (Physical.num_hosts m)
                  (Physical.num_devices_per_host m)) in *.
  assert (Forall (λ c : Z * Z, 0 ≤ c.1 < Z.of_nat (length ws)) cells) as Hcells.
  { apply Forall_forall. intros c [Hh _]%elem_of_mesh_cells. lia. }
  destruct (put_loop_spec self shards cells 0 [] w m ws)
    as (ws1 & refs & Hloop & Hrefs_len & Hrefs & Hlen1 & _ & Hold & _);
    [done | done | done | lia | lia |].
  assert (∀ k r, refs !! k = Some r →
            ∃ c, cells !! k = Some c ∧ DArray.ref_host_id r = c.1 ∧
                 DArray.ref_uuid r = next_uuid w + Z.of_nat k) as Href.
  { intros k r Hr. pose proof (lookup_lt_Some _ _ _ Hr) as Hk.
    destruct (lookup_lt_is_Some_2 cells k) as [c Hc]; [lia|].
    destruct (lookup_lt_is_Some_2 shards (Z.to_nat (0 + Z.of_nat k)))
      as [s Hs]; [lia|].
    rewrite (Hrefs k c s Hc Hs) in Hr. injection Hr as <-. by exists c. }
  set (w1 := with_workers w self m ws1
               (next_uuid w + Z.of_nat (length cells))) in *.
  destruct (delete_loop_spec self refs w1 (set_workers m ws1) ws1)
    as (ws2 & Hdel_loop & _ & _ & Hdel & _ & Hkeep).
  { simpl. by rewrite lookup_insert_eq. }
  { done. }
  { apply Forall_forall. intros r [k Hr]%list_elem_of_lookup_1.
    destruct (Href k r Hr) as (c & Hc & -> & _).
    rewrite Forall_forall in Hcells. rewrite Hlen1.
    apply Hcells. by eapply list_elem_of_lookup_2. }
  eexists w1, refs, _. split_and!.
  - unfold _device_mesh_put, st_bind, get_mesh. rewrite Hm. exact Hloop.
  - unfold delete_remote_buffers, st_bind, get_mesh. simpl.
    rewrite lookup_insert_eq. simpl. exact Hdel_loop.
  - intros p u. unfold buffer_at, mesh_workers. simpl.
    rewrite lookup_insert_eq, Hm, Hws. simpl.
    assert ((∃ k c, cells !! k = Some c ∧ Z.to_nat c.1 = p ∧
                    next_uuid w + Z.of_nat k = u) ∨
            ¬ (∃ k c, cells !! k = Some c ∧ Z.to_nat c.1 = p ∧
                      next_uuid w + Z.of_nat k = u))
      as [(k & c & Hc & Hp & Hu)|Hnot].
    { destruct (cells !! Z.to_nat (u - next_uuid w)) as [c|] eqn:Hc.
      - destruct (decide (Z.to_nat c.1 = p ∧ next_uuid w ≤ u)) as [[Hp Hu]|Hno].
        + left. exists (Z.to_nat (u - next_uuid w)), c. split_and!; [done..|lia].
        + right. intros (k & c' & Hc' & Hp & Hu).
          replace (Z.to_nat (u - next_uuid w)) with k in Hc by lia.
          simplify_eq. apply Hno. split; [done | lia].
      - right. intros (k & c' & Hc' & Hp & Hu).
        replace (Z.to_nat (u - next_uuid w)) with k in Hc by lia.
        congruence. }
    + destruct (lookup_lt_is_Some_2 refs k) as [r Hr];
        [rewrite Hrefs_len; by eapply lookup_lt_Some|].
      destruct (Href k r Hr) as (c' & Hc' & Hhost & Huuid). simplify_eq.
      rewrite <- Hhost, <- Huuid.
      rewrite (Hdel r) by (by eapply list_elem_of_lookup_2).
      symmetry. apply Hfresh. lia.
    + rewrite Hkeep, Hold; [done | |].
      * intros k c Hc [Hp Hu]. apply Hnot. by exists k, c.
      * intros r [k Hr]%list_elem_of_lookup_1 [Hp Hu].
        destruct (Href k r Hr) as (c & Hc & Hhost & Huuid).
        apply Hnot. exists k, c. split_and!; congruence.
Qed.

End PutFacts.

(** In [Examples.world0], whose mesh 0 has two hosts with one device each,
    no buffer, and the uuid counter at 100. *)
Lemma world0_fresh (p : nat) (u : Z) :
  RemoteOps.buffer_of (NdArray := list Z) (Physical.launch_workers 2 1) p u = None.
Proof. destruct p as [|[|p]]; done. Qed.

Lemma world0_devices (p : nat) (devs : list Worker.Device) (d : Z) :
  RemoteOps.devices_of (NdArray := list Z) (Physical.launch_workers 2 1) p
  = Some devs →
  0 ≤ d < 1 → ∃ dev, py_index devs d = Ok dev.
Proof.
  intros Hdevs Hd. assert (d = 0) as -> by lia.
  destruct p as [|[|p]]; vm_compute in Hdevs; simplify_eq;
    exists (Worker.GpuDevice 0); reflexivity.
Qed.

Lemma device_mesh_put_refs_witness :
  (∃ w' refs,
     Driver._device_mesh_put 0
       [Driver.ShardArray [1; 2; 3]; Driver.ShardArray [4; 5; 6]]
       Examples.world0 = (w', Ok refs) ∧
     refs = [Examples.ref100; Examples.ref101] ∧
     Driver.next_uuid w' = 102) ∧
  (∃ w',
     Driver._device_mesh_put 0 [Driver.ShardArray [1; 2; 3]] Examples.world0
     = (w', Raise IndexError) ∧
     Driver.next_uuid w' = 101).
Proof.
  split.
  - destruct (device_mesh_put_refs (NdArray := list Z) 0
                [Driver.ShardArray [1; 2; 3]; Driver.ShardArray [4; 5; 6]]
                Examples.world0 Examples.mesh21 (Physical.launch_workers 2 1))
      as [Hok _]; [reflexivity | reflexivity | vm_compute; lia |].
    destruct Hok as (w' & refs & Hput & _ & Huuid & _); [vm_compute; lia|].
    exists w', refs. split; [exact Hput|].
    vm_compute in Hput. injection Hput as <- <-. split; reflexivity.
  - destruct (device_mesh_put_refs (NdArray := list Z) 0
                [Driver.ShardArray [1; 2; 3]]
                Examples.world0 Examples.mesh21 (Physical.launch_workers 2 1))
      as [_ Hfail]; [reflexivity | reflexivity | vm_compute; lia |].
    destruct Hfail as (w' & Hput & Huuid); [vm_compute; lia|].
    exists w'. split; [exact Hput | exact Huuid].
Defined.

Lemma device_mesh_put_then_get_witness :
  ∃ w' refs m',
    Driver._device_mesh_put 0
      (Driver.ShardArray <$> [[1; 2; 3]; [4; 5; 6]]) Examples.world0
    = (w', Ok refs) ∧
    Driver.meshes w' !! 0%nat = Some m' ∧
    Driver.get_remote_buffers m' refs = Ok [[1; 2; 3]; [4; 5; 6]].
Proof.
  apply (device_mesh_put_then_get (NdArray := list Z) 0
           [[1; 2; 3]; [4; 5; 6]] Examples.world0 Examples.mesh21
           (Physical.launch_workers 2 1)).
  - reflexivity.
  - reflexivity.
  - vm_compute. lia.
  - reflexivity.
  - reflexivity.
  - apply world0_devices.
  - intros p u _. apply world0_fresh.
Defined.

(** In [Examples.world1] the workers hold the buffers 100 and 101. *)
Lemma delete_remote_buffers_spec_witness :
  ∃ w',
    RemoteOps.delete_remote_buffers true 0 [Examples.ref100; Examples.ref101]
      Examples.world1 = (w', Ok tt) ∧
    RemoteOps.buffer_at Examples.world1 0 0 100
    = Some (Worker.mkDeviceBuffer (Worker.GpuDevice 0) [1; 2; 3]) ∧
    RemoteOps.buffer_at w' 0 0 100 = None ∧
    RemoteOps.buffer_at w' 0 1 101 = None ∧
    RemoteOps.delete_remote_buffers true 0 [Examples.ref100; Examples.ref101] w'
    = (w', Ok tt).
Proof.
  destruct (delete_remote_buffers_spec (NdArray := list Z) 0
              [Examples.ref100; Examples.ref101] Examples.world1
              Examples.mesh_in_world1) as [Hmain _]; [reflexivity|].
  edestruct Hmain as (w' & Hdel & _ & _ & Hgone & _ & Hagain);
    [reflexivity | |].
  { repeat constructor; simpl; lia. }
  exists w'. split; [exact Hdel|]. split; [reflexivity|].
  split; [apply (Hgone Examples.ref100); by left|].
  split; [apply (Hgone Examples.ref101); right; by left | exact Hagain].
Defined.

Lemma device_mesh_put_then_delete_witness :
  ∃ w1 refs w2,
    Driver._device_mesh_put 0
      [Driver.ShardArray [1; 2; 3]; Driver.ShardArray [4; 5; 6]]
      Examples.world0 = (w1, Ok refs) ∧
    RemoteOps.delete_remote_buffers true 0 refs w1 = (w2, Ok tt) ∧
    ∀ p u, RemoteOps.buffer_at w2 0 p u
           = RemoteOps.buffer_at Examples.world0 0 p u.
Proof.
  apply (device_mesh_put_then_delete (NdArray := list Z) 0
           [Driver.ShardArray [1; 2; 3]; Driver.ShardArray [4; 5; 6]]
           Examples.world0 Examples.mesh21 (Physical.launch_workers 2 1)).
  - reflexivity.
  - reflexivity.
  - vm_compute. lia.
  - vm_compute. lia.
  - intros p u _. apply world0_fresh.
Defined.

End PutFacts.

(** ** Shards of abstract arrays, and the shape of a [shard_args] call *)


Module ShardFacts.
Section ShardFacts.
Context `{Numpy NdArray}.
Context {HIndex : Type} `{EqDecision HIndex}.
Variable _hashable_index : Index → HIndex.

Import Driver.
Implicit Types (w : World (NdArray := NdArray)).
Implicit Types (arg : Arg (NdArray := NdArray)).




(** X22. [shard_args] zips its three sequences. A successful call in
    distributed mode returns one entry per argument up to the shortest of
    [args], [arg_indices] and [donated_invars]; what lies beyond is
    ignored. *)
Theorem shard_args_zips self arg_indices donated_invars args w w' out :
  shard_args _hashable_index self arg_indices donated_invars args w
  = (w', Ok (Some out)) →
  length out
  = ((length args `min` length arg_indices) `min` length donated_invars)%nat ∧
  ∃ m, meshes w !! self = Some m ∧ Physical.is_distributed m = true.
Proof.
  unfold shard_args, st_bind, get_mesh.
  destruct (meshes w !! self) as [m|]; simpl; [|done].
  destruct (Physical.is_distributed m) eqn:Hdist; [|by intros [= _ ?]].
  destruct (shard_args_loop _ _ _ _ w) as [w1 [bufs|e]] eqn:Hloop; [|done].
  unfold st_ret. intros [= <- <-].
  apply DriverFacts.shard_args_loop_prefix in Hloop as (tail & -> & Hlen).
  split; [|by exists m]. simpl. rewrite Hlen. unfold zip3.
  by rewrite !length_zip.
Qed.

(** X23. A [ReplicatedDistributedArray] argument of [shard_args] is never
    resharded. In distributed mode: without a replica on the mesh the call
    raises [RuntimeError]; with a replica whose indices are the requested
    ones it returns the replica's [remote_buffers]; with a replica of other
    indices it raises [AssertionError]. In all three cases nothing
    changes, and the donation flag plays no role. *)
Theorem shard_args_replicated self m (r : Replicated.ReplicatedDistributedArray)
  (idx : list Index) (donated : bool) w :
  meshes w !! self = Some m → Physical.is_distributed m = true →
  (Replicated.is_replicated_on_mesh r self = false →
     shard_args _hashable_index self [idx] [donated] [ArgReplicated r] w
     = (w, Raise (RuntimeError "No replica found on this mesh."))) ∧
  (∀ rid a,
     Replicated.get_replica_on_mesh r self = Ok rid →
     darrays w !! rid = Some a →
     (DArray.indices a = idx →
        shard_args _hashable_index self [idx] [donated] [ArgReplicated r] w
        = (w, Ok (Some [DArray.remote_buffers a]))) ∧
     (¬ DArray.indices a = idx →
        shard_args _hashable_index self [idx] [donated] [ArgReplicated r] w
        = (w, Raise AssertionError))).
Proof.
  intros Hm Hdist.
  assert (∀ res,
            shard_arg _hashable_index self (ArgReplicated r) idx donated w
            = (w, res) →
            shard_args _hashable_index self [idx] [donated] [ArgReplicated r] w
            = (w, match res with
                  | Ok bufs => Ok (Some [bufs])
                  | Raise e => Raise e
                  end)) as Hone.
  { intros res Harg. unfold shard_args, get_mesh. unfold st_bind at 1.
    rewrite Hm. cbn -[shard_arg st_bind]. rewrite Hdist.
    unfold st_bind at 1 2. rewrite Harg. by destruct res. }
  split.
  - intros Hno. apply (Hone (Raise _)).
    unfold shard_arg, st_bind, st_lift, Replicated.get_replica_on_mesh.
    by rewrite Hno.
  - intros rid a Hrid Ha. split.
    + intros Hidx. apply (Hone (Ok _)).
      unfold shard_arg, st_bind, st_lift, get_darray. rewrite Hrid, Ha.
      by rewrite decide_True.
    + intros Hidx. apply (Hone (Raise _)).
      unfold shard_arg, st_bind, st_lift, get_darray. rewrite Hrid, Ha.
      by rewrite decide_False.
Qed.

End ShardFacts.


(** Two arguments, one list of indices: [shard_args] handles one. *)
Lemma shard_args_zips_witness :
  Driver.shard_args DArray.jax_hashable_index 0
    [[Examples.idx03; Examples.idx36]] [true; false]
    [Driver.ArgDistributedArray 5; Driver.ArgDistributedArray 5]
    Examples.world1
  = (Examples.world1, Ok (Some [[Examples.ref100; Examples.ref101]])) ∧
  length [[Examples.ref100; Examples.ref101]] = 1%nat.
Proof.
  assert (Driver.shard_args DArray.jax_hashable_index 0
            [[Examples.idx03; Examples.idx36]] [true; false]
            [Driver.ArgDistributedArray 5; Driver.ArgDistributedArray 5]
            Examples.world1
          = (Examples.world1, Ok (Some [[Examples.ref100; Examples.ref101]])))
    as Hcall by (vm_compute; reflexivity).
  split; [exact Hcall|].
  exact (proj1 (shard_args_zips (NdArray := list Z) DArray.jax_hashable_index
                  _ _ _ _ _ _ _ Hcall)).
Defined.

(** A replicated array whose replica on mesh 0 is object 5 of
    [Examples.world1], asked for at the indices of object 5 and at other
    ones, and a replicated array with a replica on mesh 1 only. *)
Lemma shard_args_replicated_witness :
  Driver.shard_args DArray.jax_hashable_index 0
    [[Examples.idx03; Examples.idx36]] [true]
    [Driver.ArgReplicated
       (Replicated.mkReplicated [(0, 5)]%nat [(5, 0)]%nat (Some Examples.aval6))]
    Examples.world1
  = (Examples.world1, Ok (Some [[Examples.ref100; Examples.ref101]])) ∧
  Driver.shard_args DArray.jax_hashable_index 0
    [[Examples.idx36; Examples.idx03]] [false]
    [Driver.ArgReplicated
       (Replicated.mkReplicated [(0, 5)]%nat [(5, 0)]%nat (Some Examples.aval6))]
    Examples.world1
  = (Examples.world1, Raise AssertionError) ∧
  Driver.shard_args DArray.jax_hashable_index 0
    [[Examples.idx03; Examples.idx36]] [false]
    [Driver.ArgReplicated
       (Replicated.mkReplicated [(1, 5)]%nat [(5, 1)]%nat (Some Examples.aval6))]
    Examples.world1
  = (Examples.world1, Raise (RuntimeError "No replica found on this mesh.")).
Proof.
  split; [|split].
  - destruct (shard_args_replicated (NdArray := list Z)
                DArray.jax_hashable_index 0 Examples.mesh_in_world1
                (Replicated.mkReplicated [(0, 5)]%nat [(5, 0)]%nat
                   (Some Examples.aval6))
                [Examples.idx03; Examples.idx36] true Examples.world1)
      as [_ Hrep]; [reflexivity | reflexivity |].
    destruct (Hrep 5%nat Examples.array5) as [Hsame _];
      [reflexivity | reflexivity |].
    by apply Hsame.
  - destruct (shard_args_replicated (NdArray := list Z)
                DArray.jax_hashable_index 0 Examples.mesh_in_world1
                (Replicated.mkReplicated [(0, 5)]%nat [(5, 0)]%nat
                   (Some Examples.aval6))
                [Examples.idx36; Examples.idx03] false Examples.world1)
      as [_ Hrep]; [reflexivity | reflexivity |].
    destruct (Hrep 5%nat Examples.array5) as [_ Hother];
      [reflexivity | reflexivity |].
    by apply Hother.
  - destruct (shard_args_replicated (NdArray := list Z)
                DArray.jax_hashable_index 0 Examples.mesh_in_world1
                (Replicated.mkReplicated [(1, 5)]%nat [(5, 1)]%nat
                   (Some Examples.aval6))
                [Examples.idx03; Examples.idx36] false Examples.world1)
      as [Hno _]; [reflexivity | reflexivity |].
    by apply Hno.
Defined.

End ShardFacts.

(** ** The outputs handler, and outputs fed back as inputs *)

Lemma res_map_ok_exists {A B} (f : A → res B) (l : list A) :
  (∀ x, x ∈ l → ∃ y, f x = Ok y) → ∃ r, res_map f l = Ok r.
Proof.
  induction l as [|x l IH]; intros Hf; simpl; [by eexists|].
  destruct (Hf x) as [y ->]; [by left|].
  destruct IH as [r ->]; [intros z Hz; apply Hf; by right|].
  by eexists.
Qed.

Lemma res_map_all_raise {A B} (f : A → res B) (l : list A) (e : exn) :
  (∀ x, x ∈ l → f x = Raise e ∨ ∃ y, f x = Ok y) →
  (∃ x, x ∈ l ∧ f x = Raise e) →
  res_map f l = Raise e.
Proof.
  induction l as [|x l IH]; intros Hf (z & Hz & Hfz).
  { by apply elem_of_nil in Hz. }
  simpl. destruct (Hf x) as [->|[y Hy]]; [by left | done |].
  rewrite Hy. simpl. rewrite IH; [done | |].
  - intros x' Hx'. apply Hf. by right.
  - apply elem_of_cons in Hz as [->|Hz]; [congruence|]. by exists z.
Qed.

Lemma py_index_short {A} (l : list A) (i : nat) :
  (length l ≤ i)%nat → py_index l (Z.of_nat i) = Raise IndexError.
Proof.
  intros Hi. unfold py_index.
  rewrite decide_False by lia. by rewrite decide_False by lia.
Qed.

Module OutputFacts.
Section OutputFacts.
Context `{Numpy NdArray}.
Context {HIndex : Type} `{EqDecision HIndex}.
Variable _hashable_index : Index → HIndex.
Variable spec_to_indices : list Z → nat → list Index.

Import Driver RemoteOps.
Implicit Types (w : World (NdArray := NdArray)).
Implicit Types (arrays : list (DArray.DistributedArray NdArray)).

Lemma lookup_output_indices (avals : list Aval) (sharding_specs : list nat)
  i aval spec :
  avals !! i = Some aval → sharding_specs !! i = Some spec →
  output_indices spec_to_indices avals sharding_specs !! i
  = Some (spec_to_indices (aval_shape aval) spec).
Proof.
  intros Ha Hs. unfold output_indices.
  change (map ?f ?l) with (f <$> l). rewrite list_lookup_fmap.
  assert (zip avals sharding_specs !! i = Some (aval, spec)) as ->; [|done].
  apply lookup_zip_with_Some. by exists aval, spec.
Qed.

Lemma outs_handler_ok self (avals : list Aval) (sharding_specs : list nat)
  (bufs : list (list DArray.RemoteBufferRef)) :
  (length avals ≤ length sharding_specs)%nat →
  (length avals ≤ length bufs)%nat →
  ∃ arrays,
    outs_handler (NdArray := NdArray) self avals sharding_specs
      (output_indices spec_to_indices avals sharding_specs) bufs = Ok arrays ∧
    length arrays = length avals ∧
    ∀ i aval spec b,
      avals !! i = Some aval → sharding_specs !! i = Some spec →
      bufs !! i = Some b →
      arrays !! i
      = Some (DArray.__init__ self aval spec b
                (spec_to_indices (aval_shape aval) spec)).
Proof.
  intros Hspecs Hbufs. unfold outs_handler.
  assert (∀ i aval spec b,
            avals !! i = Some aval → sharding_specs !! i = Some spec →
            bufs !! i = Some b →
            (let? aval := py_index avals (Z.of_nat i) in
             let? sharding_spec := py_index sharding_specs (Z.of_nat i) in
             let? remote_buffers := py_index bufs (Z.of_nat i) in
             let? index := py_index (output_indices spec_to_indices avals sharding_specs)
                             (Z.of_nat i) in
             Ok (DArray.__init__ (NdArray := NdArray) self aval sharding_spec
                   remote_buffers index))
            = Ok (DArray.__init__ self aval spec b
                    (spec_to_indices (aval_shape aval) spec))) as Hstep.
  { intros i aval spec b Ha Hs Hb.
    rewrite (py_index_lookup _ _ _ Ha), (py_index_lookup _ _ _ Hs),
      (py_index_lookup _ _ _ Hb). simpl.
    by rewrite (py_index_lookup _ i (spec_to_indices (aval_shape aval) spec))
      by (by apply lookup_output_indices). }
  destruct (res_map_ok_exists
              (λ i : nat,
                 let? aval := py_index avals (Z.of_nat i) in
                 let? sharding_spec := py_index sharding_specs (Z.of_nat i) in
                 let? remote_buffers := py_index bufs (Z.of_nat i) in
                 let? index := py_index (output_indices spec_to_indices avals sharding_specs)
                                 (Z.of_nat i) in
                 Ok (DArray.__init__ (NdArray := NdArray) self aval
                       sharding_spec remote_buffers index))
              (seq 0 (length avals))) as [arrays Harrays].
  { intros i [_ Hi]%elem_of_seq. simpl in Hi.
    destruct (lookup_lt_is_Some_2 avals i) as [aval Ha]; [lia|].
    destruct (lookup_lt_is_Some_2 sharding_specs i) as [spec Hs]; [lia|].
    destruct (lookup_lt_is_Some_2 bufs i) as [b Hb]; [lia|].
    eexists. by apply Hstep. }
  exists arrays. split; [done|].
  pose proof (res_map_length _ _ _ Harrays) as Hlen.
  rewrite length_seq in Hlen. split; [done|].
  intros i aval spec b Ha Hs Hb.
  destruct (res_map_lookup _ _ _ Harrays i i) as (y & Hy & ->).
  { apply lookup_seq. split; [done|]. by eapply lookup_lt_Some. }
  rewrite (Hstep i aval spec b) in Hy by done. by injection Hy as <-.
Qed.

Lemma outs_handler_short self (avals : list Aval) (sharding_specs : list nat)
  (bufs : list (list DArray.RemoteBufferRef)) :
  (length sharding_specs < length avals)%nat ∨
  (length bufs < length avals)%nat →
  outs_handler (NdArray := NdArray) self avals sharding_specs
    (output_indices spec_to_indices avals sharding_specs) bufs = Raise IndexError.
Proof.
  intros Hshort. unfold outs_handler.
  assert (∀ i, (i < length avals)%nat →
            (length sharding_specs `min` length bufs ≤ i)%nat →
            (let? aval := py_index avals (Z.of_nat i) in
             let? sharding_spec := py_index sharding_specs (Z.of_nat i) in
             let? remote_buffers := py_index bufs (Z.of_nat i) in
             let? index := py_index (output_indices spec_to_indices avals sharding_specs)
                             (Z.of_nat i) in
             Ok (DArray.__init__ (NdArray := NdArray) self aval sharding_spec
                   remote_buffers index))
            = Raise IndexError) as Hbad.
  { intros i Hi Hmin.
    destruct (lookup_lt_is_Some_2 avals i) as [aval Ha]; [lia|].
    rewrite (py_index_lookup _ _ _ Ha). simpl.
    destruct (decide (length sharding_specs ≤ i)%nat) as [Hs|Hs].
    { by rewrite py_index_short. }
    destruct (lookup_lt_is_Some_2 sharding_specs i) as [spec Hspec]; [lia|].
    rewrite (py_index_lookup _ _ _ Hspec). simpl.
    by rewrite py_index_short by lia. }
  apply res_map_all_raise.
  - intros i [_ Hi]%elem_of_seq. simpl in Hi.
    destruct (decide (length sharding_specs `min` length bufs ≤ i)%nat)
      as [Hmin|Hmin]; [left; by apply Hbad|].
    right.
    destruct (lookup_lt_is_Some_2 avals i) as [aval Ha]; [lia|].
    destruct (lookup_lt_is_Some_2 sharding_specs i) as [spec Hs]; [lia|].
    destruct (lookup_lt_is_Some_2 bufs i) as [b Hb]; [lia|].
    rewrite (py_index_lookup _ _ _ Ha), (py_index_lookup _ _ _ Hs),
      (py_index_lookup _ _ _ Hb). simpl.
    rewrite (py_index_lookup _ i (spec_to_indices (aval_shape aval) spec))
      by (by apply lookup_output_indices).
    by eexists.
  - exists (length sharding_specs `min` length bufs)%nat. split.
    + apply elem_of_seq. lia.
    + apply Hbad; lia.
Qed.

(** X24. The outputs handler of a cluster mesh. [get_outputs_handler]
    returns alpa's own handler exactly in distributed mode. Called on the
    buffer lists [bufs], the handler returns one [DistributedArray] per
    abstract value when there are at least as many sharding specs and
    buffer lists as abstract values: the array at position [i] lives on
    this mesh, has the [i]-th abstract value, sharding spec and buffer
    list, the indices that [spec_to_indices] gives for its shape and spec,
    and no cached host value. With fewer specs or buffer lists the handler
    raises [IndexError]; surplus ones are ignored. *)
Theorem outputs_handler_arrays self (m : Physical.PhysicalDeviceMesh NdArray)
  (avals : list Aval) (sharding_specs : list nat) :
  (Physical.is_distributed m = false →
   get_outputs_handler spec_to_indices self m avals sharding_specs = None) ∧
  (Physical.is_distributed m = true →
   ∃ handler,
     get_outputs_handler spec_to_indices self m avals sharding_specs
     = Some handler ∧
     ∀ bufs : list (list DArray.RemoteBufferRef),
       ((length avals ≤ length sharding_specs)%nat →
        (length avals ≤ length bufs)%nat →
        ∃ arrays,
          handler bufs = Ok arrays ∧ length arrays = length avals ∧
          ∀ i aval spec b,
            avals !! i = Some aval → sharding_specs !! i = Some spec →
            bufs !! i = Some b →
            ∃ a, arrays !! i = Some a ∧
                 DArray.device_mesh a = self ∧ DArray.aval a = aval ∧
                 DArray.sharding_spec a = spec ∧
                 DArray.remote_buffers a = b ∧
                 DArray.indices a = spec_to_indices (aval_shape aval) spec ∧
                 DArray._npy_value a = None) ∧
       ((length sharding_specs < length avals)%nat ∨
        (length bufs < length avals)%nat →
        handler bufs = Raise IndexError)).
Proof.
  unfold get_outputs_handler. split; intros ->; [done|].
  eexists. split; [done|]. intros bufs. split.
  - intros Hspecs Hbufs.
    destruct (outs_handler_ok self avals sharding_specs bufs Hspecs Hbufs)
      as (arrays & Hok & Hlen & Hlook).
    exists arrays. split_and!; [done..|].
    intros i aval spec b Ha Hs Hb. eexists. split; [by eapply Hlook|done].
  - apply outs_handler_short.
Qed.

Lemma store_arrays_meshes ids arrays w :
  meshes (store_arrays ids arrays w) = meshes w.
Proof.
  unfold store_arrays. generalize (zip ids arrays). intros l. revert w.
  induction l as [|[id a] l IH]; intros w; simpl; [done|]. by rewrite IH.
Qed.

Lemma store_arrays_lookup ids arrays w k id a :
  NoDup ids → ids !! k = Some id → arrays !! k = Some a →
  darrays (store_arrays ids arrays w) !! id = Some a.
Proof.
  unfold store_arrays. intros Hnd. revert arrays w k.
  induction Hnd as [|id0 ids Hnotin Hnd IH]; intros arrays w k Hk Ha;
    [by rewrite lookup_nil in Hk|].
  destruct arrays as [|a0 arrays]; [by rewrite lookup_nil in Ha|].
  destruct k as [|k]; simpl in *.
  - simplify_eq.
    assert (∀ (l : list (nat * DArray.DistributedArray NdArray)) w',
              id ∉ l.*1 →
              darrays (foldl (λ w p, (set_darray p.1 p.2 w).1) w' l) !! id
              = darrays w' !! id) as Hkeep.
    { induction l as [|[i x] l IHl]; intros w' Hl; simpl; [done|].
      simpl in Hl. apply not_elem_of_cons in Hl as [Hne Hl].
      rewrite IHl by done. simpl. by apply lookup_insert_ne. }
    rewrite Hkeep.
    + simpl. by rewrite lookup_insert_eq.
    + intros Hin. apply Hnotin.
      apply list_elem_of_fmap in Hin as ([i x] & -> & Hin).
      apply elem_of_zip_l in Hin. done.
  - by eapply IH.
Qed.

(** X25. Outputs fed back as inputs. When the arrays that the outputs
    handler returned are stored under pairwise different identities and
    handed to [shard_args] of the same mesh with the indices of their
    sharding specs, [shard_args] returns the buffer lists the handler was
    called on, one per abstract value, and changes nothing: no buffer is
    copied, no uuid is drawn and no array is deleted, whatever the
    donation flags say. *)
Theorem outputs_feed_shard_args self (m : Physical.PhysicalDeviceMesh NdArray)
  (avals : list Aval) (sharding_specs : list nat)
  (bufs : list (list DArray.RemoteBufferRef)) handler arrays
  (ids : list nat) (donated_invars : list bool) w :
  meshes w !! self = Some m →
  get_outputs_handler spec_to_indices self m avals sharding_specs
  = Some handler →
  handler bufs = Ok arrays →
  NoDup ids → length ids = length arrays →
  length donated_invars = length arrays →
  shard_args _hashable_index self (output_indices spec_to_indices avals sharding_specs)
    donated_invars (ArgDistributedArray <$> ids) (store_arrays ids arrays w)
  = (store_arrays ids arrays w, Ok (Some (take (length avals) bufs))).
Proof.
  intros Hm Hhandler Hcall Hnd Hids Hdon.
  unfold get_outputs_handler in Hhandler.
  destruct (Physical.is_distributed m) eqn:Hdist; [|done].
  injection Hhandler as <-.
  destruct (decide (length avals ≤ length sharding_specs)%nat) as [Hs|Hs];
    [|by rewrite outs_handler_short in Hcall by lia].
  destruct (decide (length avals ≤ length bufs)%nat) as [Hb|Hb];
    [|by rewrite outs_handler_short in Hcall by lia].
  destruct (outs_handler_ok self avals sharding_specs bufs Hs Hb)
    as (arrays' & Hok & Hlen & Hlook).
  rewrite Hok in Hcall. injection Hcall as ->.
  set (w' := store_arrays ids arrays w).
  set (triples := zip3 (ArgDistributedArray (NdArray := NdArray) <$> ids)
                    (output_indices spec_to_indices avals sharding_specs) donated_invars).
  assert (length triples = length avals) as Htriples.
  { unfold triples, zip3, output_indices.
    rewrite !length_zip, length_fmap, length_map, length_zip. lia. }
  assert (∀ k t, triples !! k = Some t →
            ∃ id aval spec b,
              ids !! k = Some id ∧ avals !! k = Some aval ∧
              sharding_specs !! k = Some spec ∧ bufs !! k = Some b ∧
              t.1.1 = ArgDistributedArray id ∧
              t.1.2 = spec_to_indices (aval_shape aval) spec ∧
              darrays w' !! id
              = Some (DArray.__init__ self aval spec b
                        (spec_to_indices (aval_shape aval) spec))) as Hk.
  { intros k [[arg idx] d] Ht. unfold triples, zip3 in Ht.
    apply lookup_zip_with_Some in Ht as ([arg' idx'] & d' & [= <- <- <-] & Ht & _).
    apply lookup_zip_with_Some in Ht as (arg' & idx' & [= <- <-] & Harg & Hidx).
    rewrite list_lookup_fmap in Harg.
    destruct (ids !! k) as [id|] eqn:Hid; [|done]. injection Harg as <-.
    unfold output_indices in Hidx.
    change (map ?f ?l) with (f <$> l) in Hidx.
    rewrite list_lookup_fmap in Hidx.
    destruct (zip avals sharding_specs !! k) as [[aval spec]|] eqn:Hz; [|done].
    injection Hidx as <-.
    apply lookup_zip_with_Some in Hz as (? & ? & [= <- <-] & Ha & Hspec).
    destruct (lookup_lt_is_Some_2 bufs k) as [b Hbk].
    { apply lookup_lt_Some in Ha. lia. }
    exists id, aval, spec, b. split_and!; [done..|].
    by apply (store_arrays_lookup _ _ _ k), Hlook. }
  unfold shard_args, st_bind, get_mesh.
  fold w'. unfold w' at 1. rewrite store_arrays_meshes, Hm. simpl.
  rewrite Hdist. fold triples.
  rewrite (DriverFacts.shard_args_loop_all_fast _hashable_index self triples []).
  - simpl. unfold st_ret. do 3 f_equal.
    apply list_eq. intros k. rewrite list_lookup_fmap.
    destruct (triples !! k) as [t|] eqn:Ht; simpl.
    + destruct (Hk k t Ht) as (id & aval & spec & b & _ & Ha & _ & Hbk & Harg
                               & _ & Hdarr).
      unfold matching_bufs. rewrite Harg, Hdarr. simpl.
      rewrite lookup_take_lt; [done|]. by eapply lookup_lt_Some.
    + apply lookup_ge_None in Ht. symmetry. apply lookup_ge_None.
      rewrite length_take. lia.
  - apply Forall_lookup. intros k t Ht.
    destruct (Hk k t Ht) as (id & aval & spec & b & _ & _ & _ & _ & Harg
                             & Hidx & Hdarr).
    exists id. eexists. split; [done|]. split; [exact Hdarr|]. by rewrite Hidx.
Qed.

End OutputFacts.

(** The handler of mesh 0 of [Examples.world1] for one output of shape
    [(6,)], with a [spec_to_indices] that cuts it in two halves. *)
Lemma outputs_handler_arrays_witness :
  ∃ handler,
    RemoteOps.get_outputs_handler
      (λ _ _, [Examples.idx03; Examples.idx36]) 0 Examples.mesh_in_world1
      [Examples.aval6] [0%nat] = Some handler ∧
    (∃ arrays,
       handler [[Examples.ref100; Examples.ref101]; []] = Ok arrays ∧
       length arrays = 1%nat) ∧
    handler [] = Raise IndexError.
Proof.
  destruct (outputs_handler_arrays (NdArray := list Z)
              (λ _ _, [Examples.idx03; Examples.idx36]) 0
              Examples.mesh_in_world1 [Examples.aval6] [0%nat])
    as [_ Hdist].
  destruct Hdist as (handler & Hget & Hcall); [reflexivity|].
  exists handler. split; [exact Hget|]. split.
  - destruct (Hcall [[Examples.ref100; Examples.ref101]; []])
      as [Hok _].
    destruct Hok as (arrays & Harrays & Hlen & _); [simpl; lia | simpl; lia |].
    by exists arrays.
  - destruct (Hcall []) as [_ Hshort]. apply Hshort. right. simpl. lia.
Defined.

(** The output of that handler, stored as object 7 and donated to
    [shard_args]. *)
Lemma outputs_feed_shard_args_witness :
  Driver.shard_args DArray.jax_hashable_index 0
    (RemoteOps.output_indices (λ _ _, [Examples.idx03; Examples.idx36])
       [Examples.aval6] [0%nat])
    [true] (Driver.ArgDistributedArray <$> [7%nat])
    (RemoteOps.store_arrays [7%nat] [Examples.array5] Examples.world1)
  = (RemoteOps.store_arrays [7%nat] [Examples.array5] Examples.world1,
     Ok (Some (take (length [Examples.aval6])
                 [[Examples.ref100; Examples.ref101]]))).
Proof.
  apply (outputs_feed_shard_args (NdArray := list Z) DArray.jax_hashable_index
           (λ _ _, [Examples.idx03; Examples.idx36]) 0 Examples.mesh_in_world1
           [Examples.aval6] [0%nat] [[Examples.ref100; Examples.ref101]]
           (RemoteOps.outs_handler 0 [Examples.aval6] [0%nat]
              (RemoteOps.output_indices (λ _ _, [Examples.idx03; Examples.idx36])
                 [Examples.aval6] [0%nat]))
           [Examples.array5] [7%nat] [true] Examples.world1).
  - reflexivity.
  - reflexivity.
  - reflexivity.
  - apply NoDup_singleton.
  - reflexivity.
  - reflexivity.
Defined.

End OutputFacts.

(** ** The host value of a distributed array *)

Module ValueFacts.
Section ValueFacts.
Context `{Numpy NdArray}.
Context {HIndex : Type} `{EqDecision HIndex}.
Variable _hashable_index : Index → HIndex.

Import Driver RemoteOps.
Implicit Types (w : World (NdArray := NdArray)).
Implicit Types (a : DArray.DistributedArray NdArray).

Lemma value_cached_hit id a (v : NdArray) w :
  darrays w !! id = Some a → DArray._npy_value a = Some v →
  _value _hashable_index id w = (w, Ok v).
Proof.
  intros Ha Hv. unfold _value, st_bind, get_darray. by rewrite Ha, Hv.
Qed.

(** What a successful fetch leaves behind. *)
Lemma value_fetch id a w w1 (v : NdArray) :
  darrays w !! id = Some a → DArray._npy_value a = None →
  _value _hashable_index id w = (w1, Ok v) →
  ∃ a1 one refs mesh fetched,
    DArray.one_replica_buffer_indices _hashable_index a = (a1, one) ∧
    res_map (λ i, py_index (DArray.remote_buffers a1) (Z.of_nat i)) one
    = Ok refs ∧
    meshes w !! DArray.device_mesh a1 = Some mesh ∧
    get_remote_buffers mesh refs = Ok fetched ∧
    fill_value (DArray.indices a1) fetched 0 one
      (np_empty (aval_shape (DArray.aval a)) (aval_dtype (DArray.aval a)))
    = Ok v ∧
    w1 = (set_darray id (DArray.cache_value _hashable_index a1 v)
            (set_darray id a1 w).1).1.
Proof.
  intros Ha Hv. unfold _value, st_bind at 1, get_darray. rewrite Ha, Hv.
  destruct (DArray.one_replica_buffer_indices _hashable_index a)
    as [a1 one] eqn:E1.
  unfold st_bind. simpl. unfold st_lift, get_mesh. simpl.
  destruct (res_map _ one) as [refs|] eqn:Hrefs; simpl; [|done].
  destruct (meshes w !! DArray.device_mesh a1) as [mesh|] eqn:Hmesh; simpl;
    [|done].
  destruct (get_remote_buffers mesh refs) as [fetched|] eqn:Hget; simpl;
    [|done].
  destruct (fill_value _ _ _ _ _) as [v'|] eqn:Hfill; simpl; [|done].
  intros [= <- <-]. by exists a1, one, refs, mesh, fetched.
Qed.

Lemma value_sets_cache id w w1 (v : NdArray) :
  _value _hashable_index id w = (w1, Ok v) →
  ∃ a, darrays w1 !! id = Some a ∧ DArray._npy_value a = Some v.
Proof.
  intros Hval.
  destruct (darrays w !! id) as [a|] eqn:Ha;
    [|by unfold _value, st_bind, get_darray in Hval; rewrite Ha in Hval].
  destruct (DArray._npy_value a) as [v0|] eqn:Hv.
  - rewrite (value_cached_hit id a v0) in Hval by done.
    injection Hval as <- <-. by exists a.
  - destruct (value_fetch id a w w1 v Ha Hv Hval)
      as (a1 & one & refs & mesh & fetched & _ & _ & _ & _ & _ & ->).
    eexists. split; [simpl; by rewrite lookup_insert_eq | done].
Qed.

Lemma delete_remote_buffers_darrays ray_is_initialized self refs :
  keeps (NdArray := NdArray) same_darrays
    (delete_remote_buffers ray_is_initialized self refs).
Proof.
  unfold delete_remote_buffers.
  apply DriverFacts.keeps_bind;
    [apply DriverFacts.same_darrays_trans | by intros w | intros m].
  destruct (Physical.workers m); [|by intros w].
  destruct (negb ray_is_initialized); [by intros w|].
  induction refs as [|r refs IH]; [by intros w|]. simpl.
  apply DriverFacts.keeps_bind;
    [apply DriverFacts.same_darrays_trans | | by intros _].
  apply DriverFacts.remote_call_darrays.
Qed.

(** X26. The host value of an array is fetched once. After a successful
    [_value] the value is cached in the object: reading it again returns
    the same value and changes nothing, and this stays so after any call
    of [delete_remote_buffers], whatever it frees on the workers. *)
Theorem value_is_cached id w w1 (v : NdArray) :
  _value _hashable_index id w = (w1, Ok v) →
  _value _hashable_index id w1 = (w1, Ok v) ∧
  ∀ ray_is_initialized self refs w2 r,
    delete_remote_buffers ray_is_initialized self refs w1 = (w2, r) →
    _value _hashable_index id w2 = (w2, Ok v).
Proof.
  intros (a & Ha & Hv)%value_sets_cache. split.
  - by apply (value_cached_hit id a).
  - intros b self refs w2 r Hdel.
    apply (value_cached_hit id a); [|done].
    pose proof (delete_remote_buffers_darrays b self refs w1) as Hsame.
    rewrite Hdel in Hsame. unfold same_darrays in Hsame. simpl in Hsame.
    by rewrite Hsame.
Qed.

(** X27. [delete()] drops only the cached value. When [_value] fetched the
    value [v] of an array from the workers, [delete()] on the array
    succeeds, unsets the cache and keeps the references; as the buffers
    are still on the workers, the next [_value] fetches [v] again. *)
Theorem value_after_delete id a w w1 (v : NdArray) :
  darrays w !! id = Some a → DArray._npy_value a = None →
  _value _hashable_index id w = (w1, Ok v) →
  ∃ w2 a2 w3,
    RemoteOps.delete id w1 = (w2, Ok tt) ∧
    darrays w2 !! id = Some a2 ∧
    DArray._npy_value a2 = None ∧
    DArray.remote_buffers a2 = DArray.remote_buffers a ∧
    meshes w2 = meshes w ∧
    _value _hashable_index id w2 = (w3, Ok v) ∧
    _value _hashable_index id w3 = (w3, Ok v).
Proof.
  intros Ha Hv Hval.
  destruct (value_fetch id a w w1 v Ha Hv Hval)
    as (a1 & one & refs & mesh & fetched & E1 & Hrefs & Hmesh & Hget & Hfill
        & ->).
  assert (DArray._one_replica_buffer_indices a1 = Some one ∧
          DArray.remote_buffers a1 = DArray.remote_buffers a ∧
          DArray.indices a1 = DArray.indices a ∧
          DArray.device_mesh a1 = DArray.device_mesh a ∧
          DArray.aval a1 = DArray.aval a) as (Hone & Hbufs & Hidx & Hdm & Hav).
  { unfold DArray.one_replica_buffer_indices in E1.
    destruct (DArray._one_replica_buffer_indices a) eqn:Hc;
      injection E1 as <- <-; by rewrite ?Hc. }
  set (a2 := (DArray.delete (DArray.cache_value _hashable_index a1 v)).1).
  assert (DArray._npy_value a2 = None ∧
          DArray._one_replica_buffer_indices a2 = Some one ∧
          DArray.remote_buffers a2 = DArray.remote_buffers a1 ∧
          DArray.indices a2 = DArray.indices a1 ∧
          DArray.device_mesh a2 = DArray.device_mesh a1 ∧
          DArray.aval a2 = DArray.aval a1) as (Hv2 & Hone2 & Hb2 & Hi2 & Hd2 & Hav2).
  { unfold a2. rewrite DArrayFacts.delete_eq. simpl.
    unfold DArray.one_replica_buffer_indices. by rewrite Hone. }
  set (w1 := (set_darray id (DArray.cache_value _hashable_index a1 v)
                (set_darray id a1 w).1).1).
  set (w2 := (set_darray id a2 w1).1).
  assert (RemoteOps.delete id w1 = (w2, Ok tt)) as Hdel.
  { unfold RemoteOps.delete, st_bind, get_darray.
    unfold w1 at 1. simpl. by rewrite lookup_insert_eq. }
  assert (darrays w2 !! id = Some a2) as Ha2
    by (unfold w2; simpl; by rewrite lookup_insert_eq).
  destruct (_value _hashable_index id w2) as [w3 r] eqn:Hval2.
  assert (r = Ok v) as ->.
  { revert Hval2. unfold _value, st_bind at 1, get_darray.
    rewrite Ha2, Hv2.
    assert (DArray.one_replica_buffer_indices _hashable_index a2 = (a2, one))
      as -> by (unfold DArray.one_replica_buffer_indices; by rewrite Hone2).
    unfold st_bind. simpl. unfold st_lift, get_mesh. simpl.
    rewrite Hb2, Hrefs. simpl. rewrite Hd2, Hmesh. simpl.
    rewrite Hget. simpl. rewrite Hi2, Hav2, Hav, Hfill. simpl.
    by intros [= _ <-]. }
  exists w2, a2, w3. split_and!; try done.
  - congruence.
  - pose proof (value_sets_cache id w2 w3 v Hval2) as (a3 & Ha3 & Hv3).
    by apply (value_cached_hit id a3).
Qed.




End ValueFacts.

(** Object 5 of [Examples.world1] read twice, and once more after its
    buffers were deleted on the workers. *)
Lemma value_is_cached_witness :
  Driver._value DArray.jax_hashable_index 5
    (Driver._value DArray.jax_hashable_index 5 Examples.world1).1
  = ((Driver._value DArray.jax_hashable_index 5 Examples.world1).1,
     Ok [1; 2; 3; 4; 5; 6]) ∧
  ∀ w2 r,
    RemoteOps.delete_remote_buffers true 0 [Examples.ref100; Examples.ref101]
      (Driver._value DArray.jax_hashable_index 5 Examples.world1).1 = (w2, r) →
    Driver._value DArray.jax_hashable_index 5 w2 = (w2, Ok [1; 2; 3; 4; 5; 6]).
Proof.
  assert (Driver._value DArray.jax_hashable_index 5 Examples.world1
          = ((Driver._value DArray.jax_hashable_index 5 Examples.world1).1,
             Ok [1; 2; 3; 4; 5; 6])) as Hval by (vm_compute; reflexivity).
  destruct (value_is_cached (NdArray := list Z) DArray.jax_hashable_index
              5 _ _ _ Hval) as [Hagain Hdel].
  split; [exact Hagain|]. intros w2 r. apply Hdel.
Defined.

(** Object 5 of [Examples.world1] read, deleted and read again. *)
Lemma value_after_delete_witness :
  ∃ w2 a2 w3,
    RemoteOps.delete 5
      (Driver._value DArray.jax_hashable_index 5 Examples.world1).1
    = (w2, Ok tt) ∧
    Driver.darrays w2 !! 5%nat = Some a2 ∧
    DArray._npy_value a2 = None ∧
    DArray.remote_buffers a2 = [Examples.ref100; Examples.ref101] ∧
    Driver.meshes w2 = Driver.meshes Examples.world1 ∧
    Driver._value DArray.jax_hashable_index 5 w2 = (w3, Ok [1; 2; 3; 4; 5; 6]) ∧
    Driver._value DArray.jax_hashable_index 5 w3 = (w3, Ok [1; 2; 3; 4; 5; 6]).
Proof.
  apply (value_after_delete (NdArray := list Z) DArray.jax_hashable_index
           5 Examples.array5 Examples.world1).
  - vm_compute. reflexivity.
  - reflexivity.
  - vm_compute. reflexivity.
Defined.


End ValueFacts.

(** ** References to freed buffers *)

Module FreedFacts.
Section FreedFacts.
Context `{Numpy NdArray}.

Import Driver RemoteOps.
Implicit Types (w : World (NdArray := NdArray)).

Lemma get_remote_buffers_absent (m : Physical.PhysicalDeviceMesh NdArray) ws
  (r : DArray.RemoteBufferRef) refs :
  Physical.workers m = Some ws →
  Forall (λ r, 0 ≤ DArray.ref_host_id r < Z.of_nat (length ws)) (r :: refs) →
  buffer_of ws (Z.to_nat (DArray.ref_host_id r)) (DArray.ref_uuid r) = None →
  get_remote_buffers m (r :: refs)
  = Raise (KeyError (KInt (DArray.ref_uuid r))) ∧
  PhysicalOps.block_until_ready_remote_buffers m (r :: refs)
  = Raise (KeyError (KInt (DArray.ref_uuid r))).
Proof.
  intros Hws Hhosts Hnone.
  destruct (res_map_ok_exists
              (λ r : DArray.RemoteBufferRef,
                 let? worker := py_index ws (DArray.ref_host_id r) in
                 Ok (worker, DArray.ref_uuid r)) (r :: refs)) as [targets Ht].
  { intros r' Hr'. rewrite Forall_forall in Hhosts.
    specialize (Hhosts r' Hr').
    destruct (lookup_lt_is_Some_2 ws (Z.to_nat (DArray.ref_host_id r')))
      as [worker Hworker]; [lia|].
    rewrite (py_index_nonneg _ _ worker) by (done || lia). by eexists. }
  apply Forall_cons in Hhosts as [Hr _].
  destruct (lookup_lt_is_Some_2 ws (Z.to_nat (DArray.ref_host_id r)))
    as [worker Hworker]; [lia|].
  unfold buffer_of in Hnone. rewrite Hworker in Hnone. simpl in Hnone.
  cbn [res_map] in Ht.
  rewrite (py_index_nonneg _ _ worker) in Ht by (done || lia).
  cbn [res_bind] in Ht.
  destruct (res_map _ refs) as [rest|] eqn:Hrest; [|done].
  cbn [res_bind] in Ht. injection Ht as <-.
  unfold get_remote_buffers, PhysicalOps.block_until_ready_remote_buffers.
  rewrite Hws. cbn [res_map].
  rewrite (py_index_nonneg _ _ worker) by (done || lia).
  cbn [res_bind]. rewrite Hrest. cbn [res_bind res_map fst snd].
  rewrite WorkerOpsFacts.block_until_ready_buffers_eq. cbn [snd].
  unfold Worker.get_buffers, Worker.buffers_getitem. by rewrite Hnone.
Qed.

(** X29. References to deleted buffers dangle. After
    [delete_remote_buffers] on a non-empty list of references to workers
    of the mesh, fetching the same references with [get_remote_buffers] or
    waiting for them with [block_until_ready_remote_buffers] raises the
    [KeyError] of the first uuid, and so does [block_until_ready()] of a
    [DistributedArray] of the mesh that holds them. *)
Theorem freed_buffers_dangle self (r : DArray.RemoteBufferRef) refs w m ws :
  meshes w !! self = Some m → Physical.workers m = Some ws →
  Forall (λ r, 0 ≤ DArray.ref_host_id r < Z.of_nat (length ws)) (r :: refs) →
  ∃ w' m',
    delete_remote_buffers true self (r :: refs) w = (w', Ok tt) ∧
    meshes w' !! self = Some m' ∧
    get_remote_buffers m' (r :: refs)
    = Raise (KeyError (KInt (DArray.ref_uuid r))) ∧
    PhysicalOps.block_until_ready_remote_buffers m' (r :: refs)
    = Raise (KeyError (KInt (DArray.ref_uuid r))) ∧
    ∀ id a,
      darrays w !! id = Some a → DArray.device_mesh a = self →
      DArray.remote_buffers a = r :: refs →
      RemoteOps.block_until_ready id w'
      = (w', Raise (KeyError (KInt (DArray.ref_uuid r)))).
Proof.
  intros Hm Hws Hhosts.
  destruct (PutFacts.delete_loop_spec self (r :: refs) w m ws Hm Hws Hhosts)
    as (ws' & Hloop & Hlen' & _ & Hdel & _ & _).
  assert (Forall (λ r, 0 ≤ DArray.ref_host_id r < Z.of_nat (length ws'))
            (r :: refs)) as Hhosts' by (by rewrite Hlen').
  destruct (get_remote_buffers_absent (set_workers m ws') ws' r refs)
    as [Hget Hblock]; [done | done | apply Hdel; by left |].
  exists (with_workers w self m ws' (next_uuid w)), (set_workers m ws').
  split_and!.
  - unfold delete_remote_buffers, st_bind, get_mesh. rewrite Hm.
    cbn [negb]. rewrite Hws. exact Hloop.
  - simpl. by rewrite lookup_insert_eq.
  - exact Hget.
  - exact Hblock.
  - intros id a Ha Hmesh Hbufs.
    unfold RemoteOps.block_until_ready, st_bind, get_darray, get_mesh, st_lift.
    simpl. rewrite Ha, Hmesh. simpl. rewrite lookup_insert_eq.
    by rewrite Hbufs, Hblock.
Qed.

End FreedFacts.

(** The two buffers of [Examples.world1] deleted and asked for again. *)
Lemma freed_buffers_dangle_witness :
  ∃ w' m',
    RemoteOps.delete_remote_buffers true 0 [Examples.ref100; Examples.ref101]
      Examples.world1 = (w', Ok tt) ∧
    Driver.meshes w' !! 0%nat = Some m' ∧
    Driver.get_remote_buffers m' [Examples.ref100; Examples.ref101]
    = Raise (KeyError (KInt 100)) ∧
    RemoteOps.block_until_ready 5 w' = (w', Raise (KeyError (KInt 100))).
Proof.
  destruct (freed_buffers_dangle (NdArray := list Z) 0 Examples.ref100
              [Examples.ref101] Examples.world1 Examples.mesh_in_world1
              (default [] (Physical.workers Examples.mesh_in_world1)))
    as (w' & m' & Hdel & Hm' & Hget & _ & Harray).
  - reflexivity.
  - reflexivity.
  - repeat constructor; simpl; lia.
  - exists w', m'. split; [exact Hdel|]. split; [exact Hm'|].
    split; [exact Hget|].
    apply (Harray 5%nat Examples.array5); reflexivity.
Defined.

End FreedFacts.

(** ** What [shard_args] leaves on the workers *)

Module KeepFacts.
Section KeepFacts.
Context `{Numpy NdArray}.
Context {HIndex : Type} `{EqDecision HIndex}.
Variable _hashable_index : Index → HIndex.

Import Driver RemoteOps.
Implicit Types (w : World (NdArray := NdArray)).



















End KeepFacts.
End KeepFacts.
